(** * mlflow.pyfunc: packaging and loading of generic Python function models

    A shallow embedding of [mlflow/pyfunc/__init__.py].  Python strings are
    [string], dictionaries are [gmap], the file system is a finite map from
    resolved paths to nodes, and the statements of the module run in a small
    state-and-exception monad over the process state (file system,
    [sys.path], the diagnostic stream). *)

From Stdlib Require Import Ascii String.
From stdpp Require Import gmap strings list fin_maps pretty sorting.

Local Open Scope string_scope.
Local Open Scope list_scope.

(** ** Python strings *)

Module PyStr.

Definition nl : string := String (Ascii.ascii_of_nat 10) "".

(** [s.startswith(pre)] *)
Fixpoint startswith (s pre : string) : bool :=
  match pre, s with
  | EmptyString, _ => true
  | String c pre', String d s' => bool_decide (c = d) && startswith s' pre'
  | String _ _, EmptyString => false
  end.

(** [s.endswith(suf)] *)
Definition endswith (s suf : string) : bool :=
  let n := String.length s in
  let m := String.length suf in
  bool_decide (m ≤ n)%nat && bool_decide (String.substring (n - m) m s = suf).

(** [s.split(sep)] for a one-character separator: pieces between
    separators, empty pieces included. *)
Fixpoint split (sep : Ascii.ascii) (s : string) : list string :=
  match s with
  | EmptyString => [EmptyString]
  | String c s' =>
      if bool_decide (c = sep) then EmptyString :: split sep s'
      else match split sep s' with
           | [] => [String c EmptyString]
           | w :: ws => String c w :: ws
           end
  end.

(** [sep.join(ws)] *)
Fixpoint join (sep : string) (ws : list string) : string :=
  match ws with
  | [] => ""
  | [w] => w
  | w :: ws' => w +:+ sep +:+ join sep ws'
  end.

(** [str(i)] for a non-negative integer: its decimal digits. *)
Definition str (i : nat) : string := pretty i.

(** Truth value of a string: only the empty string is falsy. *)
Definition truthy (s : string) : bool := negb (bool_decide (s = "")).

End PyStr.

(** ** Exceptions and results *)

(** The module raises the base class [Exception] with a message; the
  other constructors are the exceptions of the standard library calls
  it makes. *)
Inductive exn : Type :=
| Exception (msg : string)
| FileExistsError (p : string)
| FileNotFoundError (p : string)
| NotADirectoryError (p : string)
| IsADirectoryError (p : string)
| SameFileError (p : string)
| TypeError
| KeyError (k : string)
| AttributeError (a : string)
| ParseError (p : string)
| ForeignError (msg : string).

Inductive result (A : Type) : Type :=
| Ok (a : A)
| Raise (e : exn).
Arguments Ok {A} a.
Arguments Raise {A} e.

(** ** POSIX paths ([os.path]) *)

Module Path.

(** [os.path.join(a, b)] of [posixpath]. *)
Definition join (a b : string) : string :=
  if PyStr.startswith b "/" then b
  else if bool_decide (a = "") || PyStr.endswith a "/" then a +:+ b
  else a +:+ "/" +:+ b.

(** Lexical resolution of the components of a path on top of the
    components [base]: empty components and [.] vanish, [..] pops. *)
Fixpoint walk (base : list string) (comps : list string) : list string :=
  match comps with
  | [] => base
  | c :: cs =>
      if bool_decide (c = "") || bool_decide (c = ".") then walk base cs
      else if bool_decide (c = "..") then walk (removelast base) cs
      else walk (base ++ [c]) cs
  end.

(** The components a path string denotes in a process whose working
    directory is [cwd]. *)
Definition resolve (cwd : list string) (p : string) : list string :=
  if PyStr.startswith p "/" then walk [] (PyStr.split "/"%char p)
  else walk cwd (PyStr.split "/"%char p).

Definition render (k : list string) : string := "/" +:+ PyStr.join "/" k.

(** [os.path.abspath(p)] *)
Definition abspath (cwd : list string) (p : string) : string :=
  render (resolve cwd p).

(** [os.path.basename(p)]: what follows the last slash. *)
Definition basename (p : string) : string :=
  List.last (PyStr.split "/"%char p) "".

End Path.

(** ** Values, manifests and the process state *)

(** Values of a flavor configuration as the manifest parser yields them:
    a YAML null or a string. *)
Inductive pyval : Type :=
  | PyNone
  | PyString (s : string).

#[global] Instance pyval_eq_dec : EqDecision pyval.
Proof. solve_decision. Defined.

(** Truth value of a Python value ([if v:]). *)
Definition truthy (v : pyval) : bool :=
  match v with
  | PyNone => false
  | PyString s => PyStr.truthy s
  end.

(** Truth value of an optional argument that defaults to [None]. *)
Definition given (a : option string) : bool :=
  match a with
  | None => false
  | Some s => PyStr.truthy s
  end.

(** [str(v)], as the [%s] and [{}] format directives apply it. *)
Definition py_str (v : pyval) : string :=
  match v with
  | PyNone => "None"
  | PyString s => s
  end.

(** Modelled from the spec: the manifest persistence object
    [mlflow.models.Model], which the module imports; the spec assumes it
    provides [load(path)], [save(path)] and a [flavors] mapping from flavor
    names to flavor configurations. *)
Record Model : Type := mkModel {
  artifact_path : option string;
  run_id : option string;
  flavors : gmap string (gmap string pyval)
}.

(** Modelled from the spec: [Model()], a manifest with no flavor yet. *)
Definition Model_new : Model :=
  {| artifact_path := None; run_id := None; flavors := ∅ |}.

(** Modelled from the spec: [model.add_flavor(name, params)] of
    [mlflow.models], which populates the flavor entry and returns the
    manifest. *)
Definition add_flavor (model : Model) (name : string)
    (params : gmap string pyval) : Model :=
  {| artifact_path := artifact_path model;
     run_id := run_id model;
     flavors := <[name := params]> (flavors model) |}.

(** A node of the file system.  A file that holds a serialized manifest is
    represented by the manifest it parses to. *)
Inductive node : Type :=
  | RegularFile (data : string)
  | ManifestFile (m : Model)
  | Directory.

(** The state of the process: the file system (keyed by resolved path
    components), the working directory, [sys.path], and what [eprint]
    wrote to the diagnostic stream. *)
Record World : Type := mkWorld {
  fs : gmap (list string) node;
  cwd : list string;
  sys_path : list string;
  stderr : list string
}.

Definition set_fs (t : gmap (list string) node) (w : World) : World :=
  {| fs := t; cwd := cwd w; sys_path := sys_path w; stderr := stderr w |}.

Definition set_sys_path (l : list string) (w : World) : World :=
  {| fs := fs w; cwd := cwd w; sys_path := l; stderr := stderr w |}.

Definition add_stderr (msg : string) (w : World) : World :=
  {| fs := fs w; cwd := cwd w; sys_path := sys_path w;
     stderr := stderr w ++ [msg] |}.

(** ** The monad of Python statements *)

Definition Py (A : Type) : Type := World → result A * World.

Definition ret {A} (a : A) : Py A := λ w, (Ok a, w).

Definition raise {A} (e : exn) : Py A := λ w, (Raise e, w).

Definition bind {A B} (m : Py A) (k : A → Py B) : Py B :=
  λ w, match m w with
       | (Ok a, w') => k a w'
       | (Raise e, w') => (Raise e, w')
       end.

(** Lifting of an expression that can raise but has no effect. *)
Definition lift {A} (r : result A) : Py A := λ w, (r, w).

Notation "'let!' x := m 'in' k" := (bind m (λ x, k))
  (at level 10, x name, m at level 100, k at level 200,
   format "'[v' 'let!'  x  :=  m  'in' '/' k ']'").
Notation "'do!' m 'in' k" := (bind m (λ _, k))
  (at level 10, m at level 100, k at level 200,
   format "'[v' 'do!'  m  'in' '/' k ']'").

(** [for x in xs: body(x)] *)
Fixpoint for_each {A} (xs : list A) (body : A → Py unit) : Py unit :=
  match xs with
  | [] => ret tt
  | x :: xs' => do! body x in for_each xs' body
  end.

(** Modelled from the spec: [eprint(msg)] of [mlflow.utils.logging_utils],
    which writes one message to the diagnostic stream. *)
Definition eprint (msg : string) : Py unit := λ w, (Ok tt, add_stderr msg w).

(** ** The file system calls the module makes ([os], [shutil]) *)

(** The node at a resolved path; the root is always a directory. *)
Definition node_at (t : gmap (list string) node) (k : list string)
    : option node :=
  match k with
  | [] => Some Directory
  | _ => t !! k
  end.

(** What a path string names, if anything.  The empty string names
    nothing. *)
Definition stat (w : World) (p : string) : option node :=
  if bool_decide (p = "") then None
  else node_at (fs w) (Path.resolve (cwd w) p).

(** [os.path.exists(p)] *)
Definition os_path_exists (p : string) : Py bool :=
  λ w, (Ok (bool_decide (is_Some (stat w p))), w).

(** [os.path.isfile(p)] *)
Definition os_path_isfile (p : string) : Py bool :=
  λ w, (Ok match stat w p with
           | Some (RegularFile _) | Some (ManifestFile _) => true
           | _ => false
           end, w).

(** Creation of a single directory at a resolved path whose parent must be
    a directory. *)
Definition mkdir_at (p : string) (k : list string) (w : World)
    : result unit * World :=
  match node_at (fs w) k with
  | Some _ => (Raise (FileExistsError p), w)
  | None =>
      match node_at (fs w) (removelast k) with
      | Some Directory => (Ok tt, set_fs (<[k := Directory]> (fs w)) w)
      | Some _ => (Raise (NotADirectoryError p), w)
      | None => (Raise (FileNotFoundError p), w)
      end
  end.

(** [os.mkdir(p)] *)
Definition os_mkdir (p : string) : Py unit :=
  λ w, if bool_decide (p = "") then (Raise (FileNotFoundError p), w)
       else mkdir_at p (Path.resolve (cwd w) p) w.

(** [os.makedirs(p)] walks down from the root: missing ancestors are
    created, an ancestor that is a file stops the walk, and the leaf must
    not exist. *)
Fixpoint makedirs_walk (p : string) (pre rest : list string)
    (t : gmap (list string) node) : result unit * gmap (list string) node :=
  match rest with
  | [] => (Raise (FileExistsError p), t)
  | [c] =>
      match t !! (pre ++ [c]) with
      | Some _ => (Raise (FileExistsError p), t)
      | None => (Ok tt, <[pre ++ [c] := Directory]> t)
      end
  | c :: rest' =>
      match t !! (pre ++ [c]) with
      | Some Directory => makedirs_walk p (pre ++ [c]) rest' t
      | Some _ => (Raise (NotADirectoryError p), t)
      | None => makedirs_walk p (pre ++ [c]) rest' (<[pre ++ [c] := Directory]> t)
      end
  end.

Definition os_makedirs (p : string) : Py unit :=
  λ w, if bool_decide (p = "") then (Raise (FileNotFoundError p), w)
       else let '(r, t) := makedirs_walk p [] (Path.resolve (cwd w) p) (fs w) in
            (r, set_fs t w).

(** The names of the immediate entries of the directory at [k]. *)
Definition entries (t : gmap (list string) node) (k : list string)
    : list string :=
  omap (λ kn : list string * node,
          if bool_decide (kn.1 ≠ [] ∧ removelast kn.1 = k)
          then Some (List.last kn.1 "") else None)
       (map_to_list t).

(** [os.listdir(p)] *)
Definition os_listdir (p : string) : Py (list string) :=
  λ w, match stat w p with
       | Some Directory => (Ok (entries (fs w) (Path.resolve (cwd w) p)), w)
       | Some _ => (Raise (NotADirectoryError p), w)
       | None => (Raise (FileNotFoundError p), w)
       end.

(** Writing the file node [f] at the path [p] ([open(p, 'w')] followed by
    the write): the parent must be a directory and [p] must not be one. *)
Definition write_file (p : string) (f : node) : Py unit :=
  λ w, if bool_decide (p = "") then (Raise (FileNotFoundError p), w) else
       let k := Path.resolve (cwd w) p in
       match node_at (fs w) k with
       | Some Directory => (Raise (IsADirectoryError p), w)
       | _ =>
           match node_at (fs w) (removelast k) with
           | Some Directory => (Ok tt, set_fs (<[k := f]> (fs w)) w)
           | Some _ => (Raise (NotADirectoryError p), w)
           | None => (Raise (FileNotFoundError p), w)
           end
       end.

(** [shutil.copy(src, dst)]: into [dst] when it is a directory, onto it
    otherwise. *)
Definition shutil_copy (src dst : string) : Py unit :=
  λ w, let target := match stat w dst with
                     | Some Directory => Path.join dst (Path.basename src)
                     | _ => dst
                     end in
       match stat w src with
       | None => (Raise (FileNotFoundError src), w)
       | Some Directory => (Raise (IsADirectoryError src), w)
       | Some f =>
           if bool_decide (target ≠ "" ∧
                Path.resolve (cwd w) src = Path.resolve (cwd w) target)
           then (Raise (SameFileError src), w)
           else write_file target f w
       end.

(** The nodes strictly below [src], moved below [dst]. *)
Definition graft (t : gmap (list string) node) (src dst : list string)
    : gmap (list string) node :=
  list_to_map
    (omap (λ kn : list string * node,
             if bool_decide (take (length src) kn.1 = src ∧
                             length src < length kn.1)%nat
             then Some (dst ++ drop (length src) kn.1, kn.2) else None)
          (map_to_list t)).

(** [shutil.copytree(src, dst)]: [src] must be a directory, [dst] is
    created with [os.makedirs] and must not exist. *)
Definition shutil_copytree (src dst : string) : Py unit :=
  λ w, match stat w src with
       | None => (Raise (FileNotFoundError src), w)
       | Some Directory =>
           match os_makedirs dst w with
           | (Ok _, w') =>
               (Ok tt,
                set_fs (graft (fs w) (Path.resolve (cwd w) src)
                              (Path.resolve (cwd w) dst) ∪ fs w') w')
           | (Raise e, w') => (Raise e, w')
           end
       | Some _ => (Raise (NotADirectoryError src), w)
       end.

(** Modelled from the spec: [Model.load(path)] of [mlflow.models], which
    reads the manifest at [path]. *)
Definition Model_load (p : string) : Py Model :=
  λ w, match stat w p with
       | Some (ManifestFile m) => (Ok m, w)
       | Some (RegularFile _) => (Raise (ParseError p), w)
       | Some Directory => (Raise (IsADirectoryError p), w)
       | None => (Raise (FileNotFoundError p), w)
       end.

(** Modelled from the spec: [model.save(path)] of [mlflow.models], which
    serializes the manifest to [path]. *)
Definition Model_save (model : Model) (p : string) : Py unit :=
  write_file p (ManifestFile model).

(** ** The module [mlflow.pyfunc] *)

Definition FLAVOR_NAME : string := "python_function".
Definition MAIN : string := "loader_module".
Definition CODE : string := "code".
Definition DATA : string := "data".
Definition ENV : string := "env".
Definition PY_VERSION : string := "python_version".

(** What imported code observes of the process: the file system, the
    working directory and [sys.path], not what was printed before. *)
Record View : Type := mkView {
  v_fs : gmap (list string) node;
  v_cwd : list string;
  v_sys_path : list string
}.

Definition view (w : World) : View :=
  {| v_fs := fs w; v_cwd := cwd w; v_sys_path := sys_path w |}.

(** An imported module, as far as this module uses it: its [load_pyfunc]
    attribute, if it has one. *)
Record PyModule (Handle : Type) : Type := mkPyModule {
  mod_load_pyfunc : option (string → View → result Handle)
}.
Arguments mod_load_pyfunc {Handle} _.
Arguments mkPyModule {Handle} _.

(** [os.path.join(a, v)] for a value read from a configuration: a value
    that is not a string is a [TypeError]. *)
Definition py_join (a : string) (v : pyval) : result string :=
  match v with
  | PyString b => Ok (Path.join a b)
  | PyNone => Raise TypeError
  end.

(** [conf[key]] *)
Definition getitem (conf : gmap string pyval) (key : string) : result pyval :=
  match conf !! key with
  | Some v => Ok v
  | None => Raise (KeyError key)
  end.

(** [conf.get(key)] *)
Definition dict_get (conf : gmap string pyval) (key : string) : pyval :=
  default PyNone (conf !! key).

(** Modelled from the spec: [get_major_minor_py_version] of
    [mlflow.utils], the major.minor part of a version string, that is the
    first two dot-separated fields joined by a dot. *)
Definition get_major_minor_py_version (py_version : string) : string :=
  PyStr.join "." (take 2 (PyStr.split "."%char py_version)).

Definition loader_template (update_path main data_path : string) : string :=
  PyStr.nl +:+ PyStr.nl +:+
  "import importlib" +:+ PyStr.nl +:+
  "import os" +:+ PyStr.nl +:+
  "import sys" +:+ PyStr.nl +:+ PyStr.nl +:+
  "def load_pyfunc():" +:+ PyStr.nl +:+
  "    " +:+ update_path +:+ "return importlib.import_module('" +:+ main +:+
  "').load_pyfunc('" +:+ data_path +:+ "')" +:+ PyStr.nl +:+ PyStr.nl.

Section pyfunc.

(** [PYTHON_VERSION] of [mlflow.utils]: the version of the running
    interpreter. *)
Variable PYTHON_VERSION : string.

(** [tracking.utils._get_model_log_dir(path, run_id)] *)
Variable _get_model_log_dir : string → string → result string.

(** The type of loaded models. *)
Variable Handle : Type.

(** [importlib.import_module(name)] *)
Variable import_module : View → string → result (PyModule Handle).

Definition add_to_model (model : Model) (loader_module : string)
    (data code env : option string) : Model :=
  let parms : gmap string pyval := {[ MAIN := PyString loader_module ]} in
  let parms := <[PY_VERSION := PyString PYTHON_VERSION]> parms in
  let parms := match code with
               | Some c => if PyStr.truthy c then <[CODE := PyString c]> parms
                           else parms
               | None => parms
               end in
  let parms := match data with
               | Some d => if PyStr.truthy d then <[DATA := PyString d]> parms
                           else parms
               | None => parms
               end in
  let parms := match env with
               | Some e => if PyStr.truthy e then <[ENV := PyString e]> parms
                           else parms
               | None => parms
               end in
  add_flavor model FLAVOR_NAME parms.

(** [if run_id: path = tracking.utils._get_model_log_dir(path, run_id)] *)
Definition located (path : string) (run_id : option string)
    : result string :=
  match run_id with
  | Some r => if PyStr.truthy r then _get_model_log_dir path r else Ok path
  | None => Ok path
  end.

Definition _load_model_conf (path : string) (run_id : option string)
    : Py (gmap string pyval) :=
  let! path := lift (located path run_id) in
  let conf_path := Path.join path "MLmodel" in
  let! model := Model_load conf_path in
  match flavors model !! FLAVOR_NAME with
  | None => raise (Exception ("Format '" +:+ FLAVOR_NAME +:+
                              "' not found not in " +:+ conf_path +:+ "."))
  | Some conf => ret conf
  end.

Definition _load_model_env (path : string) (run_id : option string)
    : Py pyval :=
  let! conf := _load_model_conf path run_id in
  ret (dict_get conf ENV).

Definition unknown_version_warning : string :=
  "The specified model does not have a specified Python version. It may be" +:+
  " incompatible with the version of Python that is currently running:" +:+
  " Python " +:+ PYTHON_VERSION.

Definition version_mismatch_warning (model_version : string) : string :=
  "The version of Python that the model was saved in, Python " +:+
  model_version +:+ ", differs" +:+
  " from the version of Python that is currently running, Python " +:+
  PYTHON_VERSION +:+ "," +:+
  " and may be incompatible".

Definition _warn_potentially_incompatible_py_version_if_necessary
    (model_py_version : pyval) : Py unit :=
  match model_py_version with
  | PyNone => eprint unknown_version_warning
  | PyString v =>
      if bool_decide (get_major_minor_py_version v ≠
                      get_major_minor_py_version PYTHON_VERSION)
      then eprint (version_mismatch_warning v)
      else ret tt
  end.

(** The test of the list comprehension in [_get_code_dirs]. *)
Definition code_dir_kept (x : string) : bool :=
  negb (PyStr.endswith x ".py") && negb (PyStr.endswith x ".pyc") &&
  negb (bool_decide (x = "__pycache__")).

Definition _get_code_dirs (src_code_path : string)
    (dst_code_path : option string) : Py (list string) :=
  let dst_code_path := match dst_code_path with
                       | Some d => if PyStr.truthy d then d else src_code_path
                       | None => src_code_path
                       end in
  let! listing := os_listdir src_code_path in
  ret (map (Path.join dst_code_path) (List.filter code_dir_kept listing)).

(** [sys.path = l + sys.path] *)
Definition prepend_sys_path (l : list string) : Py unit :=
  λ w, (Ok tt, set_sys_path (l ++ sys_path w) w).

Definition load_pyfunc (path : string) (run_id : option string)
    (suppress_warnings : bool) : Py Handle :=
  let! path := lift (located path run_id) in
  let! conf := _load_model_conf path None in
  let model_py_version := dict_get conf PY_VERSION in
  do! (if negb suppress_warnings
       then _warn_potentially_incompatible_py_version_if_necessary
              model_py_version
       else ret tt) in
  do! (match conf !! CODE with
       | Some c =>
           if truthy c then
             let! code_path := lift (py_join path c) in
             let! dirs := _get_code_dirs code_path None in
             prepend_sys_path ([code_path] ++ dirs)
           else ret tt
       | None => ret tt
       end) in
  let! data_path := match conf !! DATA with
                    | Some d => lift (py_join path d)
                    | None => ret path
                    end in
  let! main := lift (getitem conf MAIN) in
  λ w,
    match main with
    | PyNone => (Raise (AttributeError "startswith"), w)
    | PyString name =>
        match import_module (view w) name with
        | Raise e => (Raise e, w)
        | Ok module =>
            match mod_load_pyfunc module with
            | None => (Raise (AttributeError "load_pyfunc"), w)
            | Some loader => (loader data_path (view w), w)
            end
        end
    end.

(** [os.path.abspath(p)] in the process. *)
Definition os_path_abspath (p : string) : Py string :=
  λ w, (Ok (Path.abspath (cwd w) p), w).

Definition _copy_file_or_tree (src dst dst_dir : string) : Py string :=
  let! abs := os_path_abspath src in
  let name := Path.join dst_dir (Path.basename abs) in
  do! (if PyStr.truthy dst_dir then os_mkdir (Path.join dst dst_dir)
       else ret tt) in
  let! is_file := os_path_isfile src in
  do! (if is_file then shutil_copy src (Path.join dst name)
       else shutil_copytree src (Path.join dst name)) in
  ret name.

Definition save_model (dst_path loader_module : string)
    (data_path : option string) (code_path : list string)
    (conda_env : option string) (model : Model) : Py Model :=
  let! present := os_path_exists dst_path in
  if present
  then raise (Exception ("Path '" +:+ dst_path +:+ "' already exists"))
  else
    do! os_makedirs dst_path in
    let! data := (if given data_path then
                    let! model_file :=
                      _copy_file_or_tree (default "" data_path) dst_path "data" in
                    ret (Some model_file)
                  else ret None) in
    let! code := (match code_path with
                  | [] => ret None
                  | _ =>
                      do! for_each code_path
                            (λ path,
                               let! _ := _copy_file_or_tree path dst_path "code" in
                               ret tt) in
                      ret (Some "code")
                  end) in
    let! env := (if given conda_env then
                   do! shutil_copy (default "" conda_env)
                         (Path.join dst_path "mlflow_env.yml") in
                   ret (Some "mlflow_env.yml")
                 else ret None) in
    let model := add_to_model model loader_module data code env in
    do! Model_save model (Path.join dst_path "MLmodel") in
    ret model.

Definition get_module_loader_src (src_path dst_path : string) : Py string :=
  let conf_path := Path.join src_path "MLmodel" in
  let! model := Model_load conf_path in
  match flavors model !! FLAVOR_NAME with
  | None => raise (Exception ("Format '" +:+ FLAVOR_NAME +:+
                              "' not found not in " +:+ conf_path +:+ "."))
  | Some conf =>
      let! update_path :=
        (match conf !! CODE with
         | Some c =>
             if truthy c then
               let! src_code_path := lift (py_join src_path c) in
               let! dst_code_path := lift (py_join dst_path c) in
               let! dirs := _get_code_dirs src_code_path (Some dst_code_path) in
               let code_path :=
                 map (λ x, "os.path.abspath('" +:+ x +:+ "')")
                     ([dst_code_path] ++ dirs) in
               ret ("sys.path = " +:+
                    ("[" +:+ PyStr.join "," code_path +:+ "]") +:+
                    " + sys.path; ")
             else ret ""
         | None => ret ""
         end) in
      let! data_path := match conf !! DATA with
                        | Some d => lift (py_join dst_path d)
                        | None => ret dst_path
                        end in
      let! main := lift (getitem conf MAIN) in
      ret (loader_template update_path (py_str main) data_path)
  end.

End pyfunc.

(** ** The batched prediction wrapper of [spark_udf] *)

(** [enumerate(l, start)] *)
Fixpoint enumerate_from {A} (start : nat) (l : list A) : list (nat * A) :=
  match l with
  | [] => []
  | x :: l' => (start, x) :: enumerate_from (S start) l'
  end.

(** [enumerate(l)] *)
Definition enumerate {A} (l : list A) : list (nat * A) := enumerate_from 0 l.

(** A dictionary comprehension [{k: v for ...}]: entries are stored in
    turn, a later entry replacing an earlier one with the same key. *)
Definition dict_of {V} (kvs : list (string * V)) : gmap string V :=
  foldl (λ d kv, <[kv.1 := kv.2]> d) ∅ kvs.

(** Python's order on strings, by code point. *)
Definition lex_le (a b : string) : Prop := String.leb a b = true.

(** A table: its labelled columns, in column order.  A label without data
    is a column of missing values. *)
Abbreviation DataFrame Cell := (list (string * option (list Cell))).

Section spark_udf.

(** The elements of a column. *)
Variable Cell : Type.

(** The cached model. *)
Variable PyFuncModel : Type.

(** [SparkModelCache.get_or_load(archive_path)] *)
Variable get_or_load : string → result PyFuncModel.

(** [model.predict(pdf)] *)
Variable model_predict : PyFuncModel → DataFrame Cell → result (list Cell).

(** [pandas.DataFrame(data, columns=columns)] for a dictionary of columns:
    the columns named by [columns], in that order. *)
Definition pandas_DataFrame (data : gmap string (list Cell))
    (columns : list string) : DataFrame Cell :=
  map (λ c, (c, data !! c)) columns.

(** [pandas.Series(result)] keeps the elements of [result] in order. *)
Definition pandas_Series (result : list Cell) : list Cell := result.

(** The closure [predict] that [spark_udf] hands to [pandas_udf], applied
    to its positional arguments, for the archive path it captured. *)
Definition predict (archive_path : string) (args : list (list Cell))
    : result (list Cell) :=
  match get_or_load archive_path with
  | Raise e => Raise e
  | Ok model =>
      let schema := dict_of (map (λ ia, (PyStr.str ia.1, ia.2)) (enumerate args)) in
      let columns := map (λ ia, PyStr.str ia.1) (enumerate args) in
      let pdf := pandas_DataFrame schema columns in
      match model_predict model pdf with
      | Raise e => Raise e
      | Ok result => Ok (pandas_Series result)
      end
  end.

End spark_udf.

(** ** The emitted loader, read as Python *)

(** What the Python interpreter of the deployment environment makes of the
    text [get_module_loader_src] returns.  Only the fragment of the
    language the template is written in is read: the three imports, one
    function definition whose body is one line, and in that line an
    optional assignment to [sys.path] of a list display of
    [os.path.abspath('...')] calls followed by [+ sys.path], and the
    [return] of the loader call.  String literals are read up to the
    closing quote; a literal with a backslash or a character that is not
    printable ASCII is not read. *)
Module Script.

Inductive token : Type :=
| NAME (s : string)
| STRING (s : string)
| DOT | COMMA | SEMI | EQUAL | PLUS | LPAR | RPAR | LSQB | RSQB
| OTHER.

(** The outcome of reading a text: the thing read, a text that no Python
    interpreter accepts, or a text outside the fragment. *)
Inductive reading (A : Type) : Type :=
| Read (a : A)
| SyntaxError
| NotModelled.
Arguments Read {A} a.
Arguments SyntaxError {A}.
Arguments NotModelled {A}.

Definition code (a : ascii) : nat := nat_of_ascii a.

(** A character that stands for itself inside a quoted literal:
    printable ASCII other than the quote and the backslash. *)
Definition literal_char (a : ascii) : bool :=
  ((32 <=? code a) && (code a <? 127) &&
   negb (code a =? 39) && negb (code a =? 92))%nat.

Definition name_start (a : ascii) : bool :=
  (((65 <=? code a) && (code a <=? 90)) ||
   ((97 <=? code a) && (code a <=? 122)) || (code a =? 95))%nat.

Definition name_char (a : ascii) : bool :=
  name_start a || ((48 <=? code a) && (code a <=? 57))%nat.

(** A string that, put between quotes, is the literal of itself. *)
Fixpoint literal (s : string) : bool :=
  match s with
  | EmptyString => true
  | String a s' => literal_char a && literal s'
  end.

Inductive lex_state : Type :=
| Between
| InName (acc : string)
| InString (acc : string).

(** A character met between two tokens: the tokens it completes and the
    state it leaves the lexer in, if the fragment has it. *)
Definition enter (a : ascii) : option (list token * lex_state) :=
  if bool_decide (a = " "%char) then Some ([], Between)
  else if bool_decide (a = "'"%char) then Some ([], InString "")
  else if name_start a then Some ([], InName (String a ""))
  else if bool_decide (a = "."%char) then Some ([DOT], Between)
  else if bool_decide (a = ","%char) then Some ([COMMA], Between)
  else if bool_decide (a = ";"%char) then Some ([SEMI], Between)
  else if bool_decide (a = "="%char) then Some ([EQUAL], Between)
  else if bool_decide (a = "+"%char) then Some ([PLUS], Between)
  else if bool_decide (a = "("%char) then Some ([LPAR], Between)
  else if bool_decide (a = ")"%char) then Some ([RPAR], Between)
  else if bool_decide (a = "["%char) then Some ([LSQB], Between)
  else if bool_decide (a = "]"%char) then Some ([RSQB], Between)
  else None.

(** The prefixes that turn the quote after a name into the start of a
    prefixed literal ([r'...'], [b'...'], [f'...'], ...). *)
Definition literal_prefixes : list string :=
  ["r"; "u"; "b"; "f"; "R"; "U"; "B"; "F";
   "br"; "bR"; "Br"; "BR"; "rb"; "rB"; "Rb"; "RB";
   "fr"; "fR"; "Fr"; "FR"; "rf"; "rF"; "Rf"; "RF"].

(** The tokens of one line.  Reading stops with [OTHER] at the first
    character the fragment does not have. *)
Fixpoint lex (st : lex_state) (s : string) : list token :=
  match s with
  | EmptyString =>
      match st with
      | Between => []
      | InName acc => [NAME acc]
      | InString _ => [OTHER]
      end
  | String a s' =>
      match st with
      | InString acc =>
          if bool_decide (a = "'"%char) then STRING acc :: lex Between s'
          else if literal_char a then lex (InString (acc +:+ String a "")) s'
          else [OTHER]
      | InName acc =>
          if name_char a then lex (InName (acc +:+ String a "")) s'
          else if bool_decide (a = "'"%char) &&
                  bool_decide (acc ∈ literal_prefixes) then [OTHER]
          else match enter a with
               | Some (ts, st') => NAME acc :: ts ++ lex st' s'
               | None => [NAME acc; OTHER]
               end
      | Between =>
          match enter a with
          | Some (ts, st') => ts ++ lex st' s'
          | None => [OTHER]
          end
      end
  end.

(** The names that can follow a string literal inside an expression. *)
Definition keywords : list string :=
  ["and"; "as"; "assert"; "async"; "await"; "break"; "class"; "continue";
   "def"; "del"; "elif"; "else"; "except"; "finally"; "for"; "from";
   "global"; "if"; "import"; "in"; "is"; "lambda"; "nonlocal"; "not"; "or";
   "pass"; "raise"; "return"; "try"; "while"; "with"; "yield";
   "False"; "None"; "True"].

(** What follows a string literal where the fragment expects a closing
    parenthesis: a name that is no keyword cannot follow a literal in any
    Python expression. *)
Definition after_literal {A} (toks : list token) : reading A :=
  match toks with
  | NAME x :: _ => if bool_decide (x ∈ keywords) then NotModelled
                   else SyntaxError
  | _ => NotModelled
  end.

(** The elements of the list display, up to its closing bracket. *)
Fixpoint parse_items (toks : list token)
    : reading (list string * list token) :=
  match toks with
  | NAME a :: DOT :: NAME b :: DOT :: NAME c :: LPAR :: STRING d :: rest =>
      if bool_decide (a = "os" ∧ b = "path" ∧ c = "abspath") then
        match rest with
        | RPAR :: COMMA :: rest' =>
            match parse_items rest' with
            | Read (ds, r) => Read (d :: ds, r)
            | SyntaxError => SyntaxError
            | NotModelled => NotModelled
            end
        | RPAR :: RSQB :: rest' => Read ([d], rest')
        | _ => after_literal rest
        end
      else NotModelled
  | _ => NotModelled
  end.

(** The body of the emitted [load_pyfunc]: the directories whose absolute
    paths it puts in front of [sys.path], if it assigns to [sys.path], the
    module it imports and the path it hands to the module's
    [load_pyfunc]. *)
Record program : Type := mkProgram {
  prepended : option (list string);
  module_name : string;
  loader_argument : string
}.

Definition parse_return (pre : option (list string)) (toks : list token)
    : reading program :=
  match toks with
  | NAME r :: NAME i :: DOT :: NAME f :: LPAR :: STRING m :: rest =>
      if bool_decide (r = "return" ∧ i = "importlib" ∧ f = "import_module")
      then
        match rest with
        | RPAR :: DOT :: NAME g :: LPAR :: STRING d :: rest' =>
            if bool_decide (g = "load_pyfunc") then
              match rest' with
              | [RPAR] => Read (mkProgram pre m d)
              | _ => after_literal rest'
              end
            else NotModelled
        | _ => after_literal rest
        end
      else NotModelled
  | _ => NotModelled
  end.

Definition parse_body (toks : list token) : reading program :=
  match toks with
  | NAME s :: DOT :: NAME p :: EQUAL :: LSQB :: rest =>
      if bool_decide (s = "sys" ∧ p = "path") then
        match parse_items rest with
        | Read (ds, PLUS :: NAME s' :: DOT :: NAME p' :: SEMI :: rest') =>
            if bool_decide (s' = "sys" ∧ p' = "path")
            then parse_return (Some ds) rest'
            else NotModelled
        | Read _ => NotModelled
        | SyntaxError => SyntaxError
        | NotModelled => NotModelled
        end
      else NotModelled
  | _ => parse_return None toks
  end.

(** The lines of the module before the body of [load_pyfunc]. *)
Definition header : list string :=
  [""; ""; "import importlib"; "import os"; "import sys"; "";
   "def load_pyfunc():"].

Definition read_module (src : string) : reading program :=
  let lines := PyStr.split (ascii_of_nat 10) src in
  if bool_decide (take (length header) lines = header) then
    match drop (length header) lines with
    | [body; ""; ""] =>
        if PyStr.startswith body " " then parse_body (lex Between body)
        else NotModelled
    | _ => NotModelled
    end
  else NotModelled.

Section run.

Context {Handle : Type}
  (import_module : View → string → result (PyModule Handle)).

(** A call of the [load_pyfunc] the module defines, in the process that
    imported it. *)
Definition load_pyfunc (p : program) : Py Handle :=
  do! (match prepended p with
       | Some dirs =>
           λ w, prepend_sys_path (map (Path.abspath (cwd w)) dirs) w
       | None => ret tt
       end) in
  λ w,
    match import_module (view w) (module_name p) with
    | Raise e => (Raise e, w)
    | Ok module =>
        match mod_load_pyfunc module with
        | None => (Raise (AttributeError "load_pyfunc"), w)
        | Some loader => (loader (loader_argument p) (view w), w)
        end
    end.

End run.

End Script.

(** ** A sample process

    A working directory with a pickled model, two source files and a
    package directory, used to run the module on concrete inputs. *)

Definition sample_fs : gmap (list string) node :=
  list_to_map
    [ (["home"], Directory);
      (["home"; "u"], Directory);
      (["home"; "u"; "m.pkl"], RegularFile "weights");
      (["home"; "u"; "a.py"], RegularFile "import b");
      (["home"; "u"; "b.py"], RegularFile "x = 1");
      (["home"; "u"; "lib"], Directory);
      (["home"; "u"; "lib"; "x.py"], RegularFile "y = 2");
      (["home"; "u"; "lib"; "__pycache__"], Directory);
      (["home"; "u"; "lib"; "sub"], Directory);
      (["home"; "u"; "lib"; "sub"; "z.pyc"], RegularFile "") ].

Definition sample_world : World :=
  {| fs := sample_fs; cwd := ["home"; "u"];
     sys_path := ["/usr/lib/python3"]; stderr := [] |}.

(** A tracking store with no runs. *)
Definition no_runs (path run_id : string) : result string :=
  Raise (ForeignError "run not found").

(** An import system with one loader module, [echo], whose [load_pyfunc]
    returns the path it is given. *)
Definition echo_import (v : View) (name : string)
    : result (PyModule string) :=
  if bool_decide (name = "echo")
  then Ok (mkPyModule (Some (λ data_path _, Ok data_path)))
  else Raise (ForeignError "ModuleNotFoundError").

(** The sample process after saving the model with its package directory
    as code, under Python 3.6.5. *)
Definition saved_world : World :=
  (save_model "3.6.5" "out" "echo" (Some "m.pkl") ["lib"] None Model_new
     sample_world).2.

(** ** Vocabulary of the properties *)

(** The classes of the spec's error taxonomy.  The module raises the base
    class [Exception] for both; they are told apart by the message, which
    names the path concerned. *)
Definition AlreadyExistsError (p : string) (e : exn) : Prop :=
  e = Exception ("Path '" +:+ p +:+ "' already exists").

Definition FlavorNotFoundError (p : string) (e : exn) : Prop :=
  e = Exception ("Format 'python_function' not found not in " +:+ p +:+ ".").

(** An artifact at [path] whose manifest parses to [m]. *)
Definition manifest_at (w : World) (path : string) (m : Model) : Prop :=
  stat w (Path.join path "MLmodel") = Some (ManifestFile m).

(** The recorded code directory, if one is recorded, is there. *)
Definition code_ready (w : World) (p : string) (conf : gmap string pyval)
    : Prop :=
  ∀ c, conf !! CODE = Some c → truthy c = true →
       stat w (Path.join p (py_str c)) = Some Directory.

(** The world with another content of the diagnostic stream. *)
Definition with_stderr (out : list string) (w : World) : World :=
  {| fs := fs w; cwd := cwd w; sys_path := sys_path w; stderr := out |}.

Section load_steps.

Context (PV : string) (Handle : Type)
  (import_module : View → string → result (PyModule Handle)).

(** The steps of [load_pyfunc] that follow the reading of the
    configuration, named so that they can be reasoned about one at a
    time. *)
Definition warning_step (suppress_warnings : bool)
    (conf : gmap string pyval) : Py unit :=
  if negb suppress_warnings
  then _warn_potentially_incompatible_py_version_if_necessary PV
         (dict_get conf PY_VERSION)
  else ret tt.

Definition search_path_step (p : string) (conf : gmap string pyval)
    : Py unit :=
  match conf !! CODE with
  | Some c =>
      if truthy c then
        let! code_path := lift (py_join p c) in
        let! dirs := _get_code_dirs code_path None in
        prepend_sys_path ([code_path] ++ dirs)
      else ret tt
  | None => ret tt
  end.

Definition call_step (p : string) (conf : gmap string pyval) : Py Handle :=
  let! data_path := match conf !! DATA with
                    | Some d => lift (py_join p d)
                    | None => ret p
                    end in
  let! main := lift (getitem conf MAIN) in
  λ w,
    match main with
    | PyNone => (Raise (AttributeError "startswith"), w)
    | PyString name =>
        match import_module (view w) name with
        | Raise e => (Raise e, w)
        | Ok module =>
            match mod_load_pyfunc module with
            | None => (Raise (AttributeError "load_pyfunc"), w)
            | Some loader => (loader data_path (view w), w)
            end
        end
    end.

End load_steps.

(** [x] ends with [suf]. *)
Definition has_suffix (suf x : string) : Prop := ∃ pre, x = pre +:+ suf.

(** The entries [_get_code_dirs] keeps. *)
Definition resolved_entry (x : string) : Prop :=
  ¬ has_suffix ".py" x ∧ ¬ has_suffix ".pyc" x ∧ x ≠ "__pycache__".

(** The resolver as the specification words it: the immediate entries,
    except compiled artifacts ([.pyc]) and cache entries ([__pycache__]),
    under the destination. *)
Definition compiled_or_cache (x : string) : bool :=
  PyStr.endswith x ".pyc" || bool_decide (x = "__pycache__").

Definition resolveCodeDirs_spec (sourceCodeDir destinationCodeDir : string)
    : Py (list string) :=
  let! listing := os_listdir sourceCodeDir in
  ret (map (Path.join destinationCodeDir)
           (List.filter (λ x, negb (compiled_or_cache x)) listing)).

(** The statement the emitted script runs before importing the loader
    module: [sys.path = [os.path.abspath('d'), ...] + sys.path; ], for the
    directories [dirs] in order. *)
Definition prepend_statement (dirs : list string) : string :=
  "sys.path = " +:+
  ("[" +:+
   PyStr.join "," (map (λ x, "os.path.abspath('" +:+ x +:+ "')") dirs) +:+
   "]") +:+
  " + sys.path; ".

(** The nodes of [w] are still there in [w'], and the working directory is
    the same: what every call of the packager guarantees, since none of
    them removes anything. *)
Definition grows (w w' : World) : Prop :=
  cwd w' = cwd w ∧
  ∀ k, is_Some (node_at (fs w) k) → is_Some (node_at (fs w') k).

(** What a run of the packager can do to the process: the working
    directory, [sys.path] and the diagnostic stream stay, and every node of
    the file system is still there. *)
Definition only_adds (w w' : World) : Prop :=
  cwd w' = cwd w ∧ sys_path w' = sys_path w ∧ stderr w' = stderr w ∧
  ∀ k, is_Some (node_at (fs w) k) → is_Some (node_at (fs w') k).

(** The part of [save_model] that follows [os.makedirs], named so that it
    can be reasoned about on its own. *)
Definition packaging_steps (PV dst_path loader_module : string)
    (data_path : option string) (code_path : list string)
    (conda_env : option string) (model : Model) : Py Model :=
  let! data := (if given data_path then
                  let! model_file :=
                    _copy_file_or_tree (default "" data_path) dst_path "data" in
                  ret (Some model_file)
                else ret None) in
  let! code := (match code_path with
                | [] => ret None
                | _ =>
                    do! for_each code_path
                          (λ path,
                             let! _ := _copy_file_or_tree path dst_path "code" in
                             ret tt) in
                    ret (Some "code")
                end) in
  let! env := (if given conda_env then
                 do! shutil_copy (default "" conda_env)
                       (Path.join dst_path "mlflow_env.yml") in
                 ret (Some "mlflow_env.yml")
               else ret None) in
  let model := add_to_model PV model loader_module data code env in
  do! Model_save model (Path.join dst_path "MLmodel") in
  ret model.

(** A component without a slash. *)
Definition slash_free (c : string) : Prop := PyStr.split "/" c = [c].

(** A proper name of a directory entry. *)
Definition plain (c : string) : Prop :=
  slash_free c ∧ c ≠ "" ∧ c ≠ "." ∧ c ≠ "..".

(** Between [w] and [w'] the working directory is the same and every node
    whose key is not in [S] is still there, unchanged. *)
Definition touches_only (S : list string → Prop) (w w' : World) : Prop :=
  cwd w' = cwd w ∧
  ∀ k n, ¬ S k → node_at (fs w) k = Some n → node_at (fs w') k = Some n.

(** The keys at or below the key of [dst]. *)
Definition under (w : World) (dst : string) (k : list string) : Prop :=
  Path.resolve (cwd w) dst `prefix_of` k.

(** Between [w] and [w'] the working directory is the same and the node
    at every key outside [S] is the same, present or absent. *)
Definition changes_only (S : list string → Prop) (w w' : World) : Prop :=
  cwd w' = cwd w ∧ ∀ k, ¬ S k → node_at (fs w') k = node_at (fs w) k.

(** The keys on the way to the key of [dst], and at or below it. *)
Definition around (w : World) (dst : string) (k : list string) : Prop :=
  k `prefix_of` Path.resolve (cwd w) dst ∨ under w dst k.

(** The steps of [save_model] after the data, and after the code. *)
Definition packaging_after_code (PV dst_path loader_module : string)
    (data code : option string) (conda_env : option string) (model : Model)
    : Py Model :=
  let! env := (if given conda_env then
                 do! shutil_copy (default "" conda_env)
                       (Path.join dst_path "mlflow_env.yml") in
                 ret (Some "mlflow_env.yml")
               else ret None) in
  let model := add_to_model PV model loader_module data code env in
  do! Model_save model (Path.join dst_path "MLmodel") in
  ret model.

Definition packaging_after_data (PV dst_path loader_module : string)
    (data : option string) (code_path : list string)
    (conda_env : option string) (model : Model) : Py Model :=
  let! code := (match code_path with
                | [] => ret None
                | _ =>
                    do! for_each code_path
                          (λ path,
                             let! _ := _copy_file_or_tree path dst_path "code" in
                             ret tt) in
                    ret (Some "code")
                end) in
  packaging_after_code PV dst_path loader_module data code conda_env model.

(** Nothing is at or below the key of [dst]. *)
Definition free (w : World) (dst : string) : Prop :=
  ∀ k, under w dst k → node_at (fs w) k = None.

(** The keys inside the entry [c] of the directory of [dst]. *)
Definition inside (w : World) (dst c : string) (k : list string) : Prop :=
  (Path.resolve (cwd w) dst ++ [c]) `prefix_of` k.

(** A regular file or a manifest file. *)
Definition is_file (n : node) : Prop := n ≠ Directory.



(** A string without a line break. *)
Fixpoint one_line (s : string) : bool :=
  match s with
  | EmptyString => true
  | String a s' => negb (bool_decide (a = ascii_of_nat 10)) && one_line s'
  end.

(** The line of the template that holds the body of [load_pyfunc]. *)
Definition body_text (update_path main data_path : string) : string :=
  "    " +:+ update_path +:+ "return importlib.import_module('" +:+ main +:+
  "').load_pyfunc('" +:+ data_path +:+ "')".




(** ** More of the sample process *)

(** The manifest [save_model] wrote in [saved_world]. *)
Definition saved_manifest : Model :=
  add_to_model "3.6.5" Model_new "echo" (Some "data/m.pkl") (Some "code") None.

Definition saved_conf : gmap string pyval :=
  <[DATA := PyString "data/m.pkl"]>
    (<[CODE := PyString "code"]>
       (<[PY_VERSION := PyString "3.6.5"]> {[ MAIN := PyString "echo" ]})).

(** The sample process with an artifact that only has another flavor. *)
Definition foreign_manifest : Model :=
  add_flavor Model_new "sklearn" {[ "pickled_model" := PyString "model.pkl" ]}.

Definition foreign_world : World :=
  set_fs (<[ ["home"; "u"; "sk"; "MLmodel"] := ManifestFile foreign_manifest ]>
            (<[ ["home"; "u"; "sk"] := Directory ]> sample_fs))
         sample_world.

(** The sample process after saving the model with its data and no
    code. *)
Definition plain_world : World :=
  (save_model "3.6.5" "plain" "echo" (Some "m.pkl") [] None Model_new
     sample_world).2.

Definition plain_manifest : Model :=
  add_to_model "3.6.5" Model_new "echo" (Some "data/m.pkl") None None.

Definition plain_conf : gmap string pyval :=
  <[DATA := PyString "data/m.pkl"]>
    (<[PY_VERSION := PyString "3.6.5"]> {[ MAIN := PyString "echo" ]}).

(** The sample process with a conda environment file in the working
    directory. *)
Definition conda_world : World :=
  set_fs (<[ ["home"; "u"; "conda.yaml"] := RegularFile "name: env" ]>
            sample_fs)
         sample_world.

(** The sample process with an artifact directory [name] that holds
    nothing but the manifest [m]. *)
Definition artifact_world (name : string) (m : Model) : World :=
  set_fs (<[ ["home"; "u"; name; "MLmodel"] := ManifestFile m ]>
            (<[ ["home"; "u"; name] := Directory ]> sample_fs))
         sample_world.

(** A manifest whose only flavor is [python_function] with the
    configuration [conf]. *)
Definition manifest_of (conf : gmap string pyval) : Model :=
  add_flavor Model_new FLAVOR_NAME conf.

(** An import system with the module [echo] and a module [empty] that has
    no [load_pyfunc]. *)
Definition sample_import (v : View) (name : string)
    : result (PyModule string) :=
  if bool_decide (name = "empty") then Ok (mkPyModule None)
  else echo_import v name.

(** Eleven one-row columns. *)
Definition eleven_columns : list (list nat) :=
  [[0]; [1]; [2]; [3]; [4]; [5]; [6]; [7]; [8]; [9]; [10]].

(** * Properties *)

(** ** Reading the world *)

Lemma Model_load_manifest w p m :
  stat w p = Some (ManifestFile m) → Model_load p w = (Ok m, w).
Proof. unfold Model_load. by intros ->. Qed.

Lemma os_listdir_directory w p :
  stat w p = Some Directory →
  os_listdir p w = (Ok (entries (fs w) (Path.resolve (cwd w) p)), w).
Proof. unfold os_listdir. by intros ->. Qed.

(** ** Saving *)

(** C1: when the destination path names anything that exists (a file, an
    empty or a non-empty directory), [save_model] raises the "already
    exists" exception and the process state, the file system included, is
    exactly what it was: nothing is created or copied. *)
Theorem save_model_existing_destination
    (PV dst_path loader_module : string) (data_path : option string)
    (code_path : list string) (conda_env : option string) (model : Model)
    (w : World) :
  is_Some (stat w dst_path) →
  ∃ e, AlreadyExistsError dst_path e ∧
       save_model PV dst_path loader_module data_path code_path conda_env
         model w = (Raise e, w).
Proof.
  intros Hex. eexists. split; [reflexivity|].
  unfold save_model, bind, os_path_exists.
  by rewrite bool_decide_eq_true_2.
Qed.

Lemma save_model_existing_destination_witness :
  is_Some (stat sample_world "lib") ∧
  ∃ e, AlreadyExistsError "lib" e ∧
       save_model "3.6.5" "lib" "echo" (Some "m.pkl") ["a.py"] None Model_new
         sample_world = (Raise e, sample_world).
Proof.
  assert (H : is_Some (stat sample_world "lib")) by (vm_compute; eauto).
  split; [exact H|].
  exact (save_model_existing_destination "3.6.5" "lib" "echo" (Some "m.pkl")
           ["a.py"] None Model_new sample_world H).
Defined.

(** ** Loading *)

Section loading.

Context (PV : string) (log_dir : string → string → result string)
  (Handle : Type) (import_module : View → string → result (PyModule Handle)).

Local Abbreviation load := (load_pyfunc PV log_dir Handle import_module).
Local Abbreviation conf_of := (_load_model_conf log_dir).
Local Abbreviation warn :=
  (_warn_potentially_incompatible_py_version_if_necessary PV).
Local Abbreviation warning_step := (warning_step PV).
Local Abbreviation call_step := (call_step Handle import_module).

Lemma conf_of_flavor w path m conf :
  manifest_at w path m → flavors m !! FLAVOR_NAME = Some conf →
  conf_of path None w = (Ok conf, w).
Proof.
  intros Hm Hf. unfold _load_model_conf, bind, lift. simpl.
  rewrite (Model_load_manifest _ _ _ Hm). by rewrite Hf.
Qed.

Lemma conf_of_no_flavor w path m :
  manifest_at w path m → flavors m !! FLAVOR_NAME = None →
  conf_of path None w =
    (Raise (Exception ("Format 'python_function' not found not in " +:+
                       Path.join path "MLmodel" +:+ ".")), w).
Proof.
  intros Hm Hf. unfold _load_model_conf, bind, lift. simpl.
  rewrite (Model_load_manifest _ _ _ Hm). by rewrite Hf.
Qed.

(** The warning step writes at most to the diagnostic stream. *)
Lemma warn_world v w :
  ∃ out, warn v w = (Ok tt, {| fs := fs w; cwd := cwd w;
                               sys_path := sys_path w; stderr := out |}).
Proof.
  unfold _warn_potentially_incompatible_py_version_if_necessary.
  destruct v as [|s]; [by eexists|].
  case_bool_decide; [by eexists|]. exists (stderr w). by destruct w.
Qed.

(** C2: when the manifest of the artifact loads but its flavors mapping has
    no [python_function] entry, [load_pyfunc] raises the "format not found"
    exception, and nothing else happens: no warning is printed and the
    module search path is untouched. *)
Theorem load_pyfunc_flavor_absent
    (path : string) (run_id : option string) (suppress_warnings : bool)
    (w : World) (p : string) (m : Model) :
  located log_dir path run_id = Ok p →
  manifest_at w p m →
  flavors m !! FLAVOR_NAME = None →
  ∃ e, FlavorNotFoundError (Path.join p "MLmodel") e ∧
       load path run_id suppress_warnings w = (Raise e, w).
Proof.
  intros Hp Hm Hf. eexists. split; [reflexivity|].
  unfold load_pyfunc, bind at 1, lift at 1. rewrite Hp.
  unfold bind at 1. by rewrite (conf_of_no_flavor _ _ _ Hm Hf).
Qed.

Lemma load_pyfunc_steps path run_id suppress_warnings w p m conf :
  located log_dir path run_id = Ok p →
  manifest_at w p m →
  flavors m !! FLAVOR_NAME = Some conf →
  load path run_id suppress_warnings w =
    (do! warning_step suppress_warnings conf in
     do! search_path_step p conf in
     call_step p conf) w.
Proof.
  intros Hp Hm Hf.
  unfold load_pyfunc, bind at 1, lift at 1. rewrite Hp.
  unfold bind at 1. by rewrite (conf_of_flavor _ _ _ _ Hm Hf).
Qed.

Lemma warning_step_world suppress_warnings conf w :
  ∃ out, warning_step suppress_warnings conf w =
           (Ok tt, {| fs := fs w; cwd := cwd w; sys_path := sys_path w;
                      stderr := out |}).
Proof.
  unfold warning_step. destruct suppress_warnings; simpl; [|apply warn_world].
  exists (stderr w). by destruct w.
Qed.

Lemma call_step_world p conf w : (call_step p conf w).2 = w.
Proof.
  unfold call_step, bind, lift, ret.
  destruct (conf !! DATA) as [d|]; [destruct (py_join p d)|]; simpl;
    by repeat case_match.
Qed.

Lemma bind_snd_world {A B} (m : Py A) (k : A → Py B) (f : World → list string) w :
  (∀ a w', f (k a w').2 = f w') → f (bind m k w).2 = f (m w).2.
Proof. intros Hk. unfold bind. destruct (m w) as [[a|e] w']; simpl; auto. Qed.

(** C10: when the flavor configuration has no [code] entry, or one that is
    falsy (a null or the empty string), [load_pyfunc] leaves [sys.path] as
    it was, whether the load then succeeds or fails. *)
Theorem load_pyfunc_without_code_keeps_sys_path
    (path : string) (run_id : option string) (suppress_warnings : bool)
    (w : World) (p : string) (m : Model) (conf : gmap string pyval) :
  located log_dir path run_id = Ok p →
  manifest_at w p m →
  flavors m !! FLAVOR_NAME = Some conf →
  (∀ c, conf !! CODE = Some c → truthy c = false) →
  sys_path (load path run_id suppress_warnings w).2 = sys_path w.
Proof.
  intros Hp Hm Hf Hc. rewrite (load_pyfunc_steps _ _ _ _ _ _ _ Hp Hm Hf).
  unfold bind at 1.
  destruct (warning_step_world suppress_warnings conf w) as [out ->].
  rewrite bind_snd_world; [|intros; by rewrite call_step_world].
  unfold search_path_step.
  destruct (conf !! CODE) as [c|] eqn:Ec; [rewrite (Hc c eq_refl)|]; done.
Qed.

Lemma _get_code_dirs_directory src dst w :
  stat w src = Some Directory →
  ∃ dirs, _get_code_dirs src dst w = (Ok dirs, w).
Proof.
  intros Hd. unfold _get_code_dirs, bind, ret.
  rewrite (os_listdir_directory _ _ Hd). by eexists.
Qed.

Lemma _get_code_dirs_with_stderr src dst out w :
  _get_code_dirs src dst (with_stderr out w) =
    ((_get_code_dirs src dst w).1, with_stderr out (_get_code_dirs src dst w).2).
Proof.
  unfold _get_code_dirs, bind, ret, os_listdir.
  change (stat (with_stderr out w) src) with (stat w src).
  by destruct (stat w src) as [[| |]|].
Qed.

Lemma search_path_step_with_stderr p conf out w :
  search_path_step p conf (with_stderr out w) =
    ((search_path_step p conf w).1,
     with_stderr out (search_path_step p conf w).2).
Proof.
  unfold search_path_step.
  destruct (conf !! CODE) as [c|]; [|done].
  destruct (truthy c); [|done].
  unfold bind at 1 3 5, lift. destruct (py_join p c) as [cp|e]; [|done].
  unfold bind. rewrite _get_code_dirs_with_stderr.
  by destruct (_get_code_dirs cp None w) as [[dirs|e] w'].
Qed.

Lemma call_step_with_stderr p conf out w :
  (call_step p conf (with_stderr out w)).1 = (call_step p conf w).1.
Proof.
  unfold call_step, bind, lift, ret.
  destruct (conf !! DATA) as [d|]; [destruct (py_join p d)|]; simpl;
    try done; destruct (getitem conf MAIN) as [[|name]|]; simpl; try done;
    change (view (with_stderr out w)) with (view w);
    by repeat case_match.
Qed.

Lemma _get_code_dirs_listing src dst w :
  stat w src = Some Directory →
  _get_code_dirs src dst w =
    (Ok (map (Path.join (match dst with
                         | Some d => if PyStr.truthy d then d else src
                         | None => src
                         end))
             (List.filter code_dir_kept
                (entries (fs w) (Path.resolve (cwd w) src)))), w).
Proof.
  intros Hd. unfold _get_code_dirs, bind, ret.
  by rewrite (os_listdir_directory _ _ Hd).
Qed.

Lemma truthy_nonempty c : c ≠ "" → PyStr.truthy c = true.
Proof. intros Hne. unfold PyStr.truthy. by rewrite bool_decide_eq_false_2. Qed.

(** What the search path is after a load that found a code directory. *)
Lemma load_pyfunc_sys_path path run_id suppress_warnings w p m conf c :
  located log_dir path run_id = Ok p →
  manifest_at w p m →
  flavors m !! FLAVOR_NAME = Some conf →
  conf !! CODE = Some (PyString c) →
  c ≠ "" →
  stat w (Path.join p c) = Some Directory →
  sys_path (load path run_id suppress_warnings w).2 =
    [Path.join p c] ++
    map (Path.join (Path.join p c))
        (List.filter code_dir_kept
           (entries (fs w) (Path.resolve (cwd w) (Path.join p c)))) ++
    sys_path w.
Proof.
  intros Hp Hm Hf Hc Hne Hd.
  rewrite (load_pyfunc_steps _ _ _ _ _ _ _ Hp Hm Hf).
  unfold bind at 1.
  destruct (warning_step_world suppress_warnings conf w) as [out ->].
  rewrite bind_snd_world; [|intros; by rewrite call_step_world].
  change (mkWorld (fs w) (cwd w) (sys_path w) out) with (with_stderr out w).
  rewrite search_path_step_with_stderr. simpl.
  unfold search_path_step. rewrite Hc. simpl.
  rewrite (truthy_nonempty _ Hne).
  unfold bind, lift. by rewrite (_get_code_dirs_listing _ None _ Hd).
Qed.

(** C3: when the flavor configuration records a non-empty [code] path and
    the artifact has that directory, [load_pyfunc] sets [sys.path] to the
    code directory, then the directories [_get_code_dirs] resolves in it,
    then the previous [sys.path] in its order. *)
Theorem load_pyfunc_prepends_code_dirs
    (path : string) (run_id : option string) (suppress_warnings : bool)
    (w : World) (p : string) (m : Model) (conf : gmap string pyval)
    (c : string) :
  located log_dir path run_id = Ok p →
  manifest_at w p m →
  flavors m !! FLAVOR_NAME = Some conf →
  conf !! CODE = Some (PyString c) →
  c ≠ "" →
  stat w (Path.join p c) = Some Directory →
  ∃ dirs,
    _get_code_dirs (Path.join p c) None w = (Ok dirs, w) ∧
    sys_path (load path run_id suppress_warnings w).2 =
      [Path.join p c] ++ dirs ++ sys_path w.
Proof.
  intros Hp Hm Hf Hc Hne Hd. eexists. split.
  - by apply _get_code_dirs_listing.
  - by apply (load_pyfunc_sys_path _ _ _ _ _ m conf).
Qed.

(** C4: the path handed to the loader module's [load_pyfunc] is the
    artifact path joined with the recorded [data] entry when there is one,
    and the artifact path itself when there is none: whatever the imported
    loader is, the outcome of the load is the loader applied to that
    path. *)
Theorem load_pyfunc_data_path
    (path : string) (run_id : option string) (suppress_warnings : bool)
    (w : World) (p : string) (m : Model) (conf : gmap string pyval)
    (data : option string) (name : string) (module : PyModule Handle)
    (loader : string → View → result Handle) :
  located log_dir path run_id = Ok p →
  manifest_at w p m →
  flavors m !! FLAVOR_NAME = Some conf →
  conf !! DATA = PyString <$> data →
  (∀ c, conf !! CODE = Some c → truthy c = true →
        stat w (Path.join p (py_str c)) = Some Directory) →
  conf !! MAIN = Some (PyString name) →
  import_module (view (load path run_id suppress_warnings w).2) name
    = Ok module →
  mod_load_pyfunc module = Some loader →
  (load path run_id suppress_warnings w).1 =
    loader (match data with Some d => Path.join p d | None => p end)
           (view (load path run_id suppress_warnings w).2).
Proof.
  intros Hp Hm Hf Hdata Hcode Hmain.
  rewrite (load_pyfunc_steps _ _ _ _ _ _ _ Hp Hm Hf).
  unfold bind at 1 2 3 4 5 6.
  destruct (warning_step_world suppress_warnings conf w) as [out ->].
  change (mkWorld (fs w) (cwd w) (sys_path w) out) with (with_stderr out w).
  assert (∃ w1, search_path_step p conf (with_stderr out w) = (Ok tt, w1))
    as [w1 Hw1].
  { unfold search_path_step.
    destruct (conf !! CODE) as [c|] eqn:Ec; [|by eexists].
    destruct (truthy c) eqn:Et; [|by eexists].
    specialize (Hcode c eq_refl Et).
    destruct c as [|s]; [done|]. simpl in *.
    unfold bind, lift.
    destruct (_get_code_dirs_directory (Path.join p s) None
                (with_stderr out w) Hcode) as [dirs ->].
    by eexists. }
  rewrite Hw1, call_step_world. intros Himport Hloader.
  unfold call_step, bind, lift, ret, getitem. rewrite Hdata, Hmain.
  destruct data as [d|]; simpl; by rewrite Himport, Hloader.
Qed.

(** The outcome of a load whose recorded code directory, if any, is
    there: the loader of the imported module applied to the data path. *)
Lemma load_pyfunc_outcome path run_id suppress_warnings w p m conf
    (data : option string) name module
    (loader : string → View → result Handle) :
  located log_dir path run_id = Ok p →
  manifest_at w p m →
  flavors m !! FLAVOR_NAME = Some conf →
  conf !! DATA = PyString <$> data →
  (∀ c, conf !! CODE = Some c → truthy c = true →
        stat w (Path.join p (py_str c)) = Some Directory) →
  conf !! MAIN = Some (PyString name) →
  import_module (view (load path run_id suppress_warnings w).2) name
    = Ok module →
  mod_load_pyfunc module = Some loader →
  (load path run_id suppress_warnings w).1 =
    loader (match data with Some d => Path.join p d | None => p end)
           (view (load path run_id suppress_warnings w).2).
Proof.
  intros Hp Hm Hf Hdata Hcode Hmain.
  rewrite (load_pyfunc_steps _ _ _ _ _ _ _ Hp Hm Hf).
  unfold bind at 1 2 3 4 5 6.
  destruct (warning_step_world suppress_warnings conf w) as [out ->].
  change (mkWorld (fs w) (cwd w) (sys_path w) out) with (with_stderr out w).
  assert (∃ w1, search_path_step p conf (with_stderr out w) = (Ok tt, w1))
    as [w1 Hw1].
  { unfold search_path_step.
    destruct (conf !! CODE) as [c|] eqn:Ec; [|by eexists].
    destruct (truthy c) eqn:Et; [|by eexists].
    specialize (Hcode c eq_refl Et).
    destruct c as [|s]; [done|]. simpl in *.
    unfold bind, lift.
    destruct (_get_code_dirs_directory (Path.join p s) None
                (with_stderr out w) Hcode) as [dirs ->].
    by eexists. }
  rewrite Hw1, call_step_world. intros Himport Hloader.
  unfold call_step, bind, lift, ret, getitem. rewrite Hdata, Hmain.
  destruct data as [d|]; simpl; by rewrite Himport, Hloader.
Qed.

(** C7: when the recorded Python version has another major.minor than the
    running interpreter, [load_pyfunc] without [suppress_warnings] prints
    exactly one warning, the mismatch warning; when no version is recorded
    it prints exactly one, the unknown-version warning; with
    [suppress_warnings] it prints nothing; and in every case the outcome of
    the load (the handle returned or the exception raised) is the same with
    and without the warning.  The warning does not stand in the way of the
    load: whenever the recorded code directory, if any, is there, the
    loader module imports and its [load_pyfunc] returns a handle for the
    data path, [load_pyfunc] returns that handle, with the warning and
    without it. *)
Theorem load_pyfunc_version_warning
    (path : string) (run_id : option string)
    (w : World) (p : string) (m : Model) (conf : gmap string pyval) :
  located log_dir path run_id = Ok p →
  manifest_at w p m →
  flavors m !! FLAVOR_NAME = Some conf →
  (∀ v, conf !! PY_VERSION = Some (PyString v) →
        get_major_minor_py_version v ≠ get_major_minor_py_version PV →
        stderr (load path run_id false w).2 =
          stderr w ++ [version_mismatch_warning PV v]) ∧
  (dict_get conf PY_VERSION = PyNone →
   stderr (load path run_id false w).2 =
     stderr w ++ [unknown_version_warning PV]) ∧
  stderr (load path run_id true w).2 = stderr w ∧
  (load path run_id false w).1 = (load path run_id true w).1 ∧
  (∀ (data : option string) (name : string) (module : PyModule Handle)
     (loader : string → View → result Handle) (h : Handle),
     conf !! DATA = PyString <$> data →
     (∀ c, conf !! CODE = Some c → truthy c = true →
           stat w (Path.join p (py_str c)) = Some Directory) →
     conf !! MAIN = Some (PyString name) →
     import_module (view (load path run_id false w).2) name = Ok module →
     mod_load_pyfunc module = Some loader →
     loader (match data with Some d => Path.join p d | None => p end)
            (view (load path run_id false w).2) = Ok h →
     (load path run_id false w).1 = Ok h ∧
     (load path run_id true w).1 = Ok h).
Proof.
  intros Hp Hm Hf.
  assert (Hsame : (load path run_id false w).1 = (load path run_id true w).1
                  ∧ stderr (load path run_id true w).2 = stderr w
                  ∧ (∀ v, conf !! PY_VERSION = Some (PyString v) →
                       get_major_minor_py_version v
                         ≠ get_major_minor_py_version PV →
                       stderr (load path run_id false w).2 =
                         stderr w ++ [version_mismatch_warning PV v])
                  ∧ (dict_get conf PY_VERSION = PyNone →
                     stderr (load path run_id false w).2 =
                       stderr w ++ [unknown_version_warning PV])).
  { rewrite !(load_pyfunc_steps _ _ _ _ _ _ _ Hp Hm Hf).
    assert (Hrest : ∀ out,
      let r := (do! search_path_step p conf in call_step p conf)
                 (with_stderr out w) in
      stderr r.2 = out ∧
      r.1 = ((do! search_path_step p conf in call_step p conf) w).1).
    { intros out. unfold bind. rewrite search_path_step_with_stderr.
      destruct (search_path_step p conf w) as [[[]|e] w1]; simpl; [|done].
      rewrite call_step_world. split; [done|]. apply call_step_with_stderr. }
    assert (Hquiet :
      warning_step true conf w = (Ok tt, with_stderr (stderr w) w))
      by (by destruct w).
    repeat split.
    - unfold bind at 1 3. rewrite Hquiet.
      destruct (warning_step_world false conf w) as [out ->].
      rewrite (proj2 (Hrest (stderr w))). apply (Hrest out).
    - unfold bind at 1. rewrite Hquiet. apply (Hrest (stderr w)).
    - intros v Hv Hne. unfold bind at 1.
      unfold warning_step, dict_get,
        _warn_potentially_incompatible_py_version_if_necessary. simpl.
      rewrite Hv. simpl. rewrite bool_decide_eq_true_2 by done.
      apply (Hrest (stderr w ++ [version_mismatch_warning PV v])).
    - intros Hv. unfold bind at 1.
      unfold warning_step,
        _warn_potentially_incompatible_py_version_if_necessary. simpl.
      rewrite Hv. apply (Hrest (stderr w ++ [unknown_version_warning PV])). }
  destruct Hsame as (Hsame & Hquiet & Hmismatch & Hunknown).
  repeat split; try done.
  - rewrite (load_pyfunc_outcome path run_id false w p m conf data name
               module loader); done.
  - rewrite <- Hsame.
    rewrite (load_pyfunc_outcome path run_id false w p m conf data name
               module loader); done.
Qed.
End loading.

Lemma load_pyfunc_flavor_absent_witness :
  ∃ e, FlavorNotFoundError "sk/MLmodel" e ∧
       load_pyfunc "3.7.1" no_runs string echo_import "sk" None false
         foreign_world = (Raise e, foreign_world).
Proof.
  apply (load_pyfunc_flavor_absent "3.7.1" no_runs string echo_import
           "sk" None false foreign_world "sk" foreign_manifest);
    vm_compute; reflexivity.
Defined.

Lemma load_pyfunc_without_code_keeps_sys_path_witness :
  sys_path (load_pyfunc "3.7.1" no_runs string echo_import "plain" None false
              plain_world).2 = sys_path plain_world.
Proof.
  apply (load_pyfunc_without_code_keeps_sys_path "3.7.1" no_runs string
           echo_import "plain" None false plain_world "plain" plain_manifest
           plain_conf); try (vm_compute; reflexivity).
  intros c Hc. vm_compute in Hc. discriminate Hc.
Defined.

Lemma load_pyfunc_prepends_code_dirs_witness :
  ∃ dirs,
    _get_code_dirs "out/code" None saved_world = (Ok dirs, saved_world) ∧
    sys_path (load_pyfunc "3.7.1" no_runs string echo_import "out" None false
                saved_world).2 = ["out/code"] ++ dirs ++ sys_path saved_world.
Proof.
  apply (load_pyfunc_prepends_code_dirs "3.7.1" no_runs string echo_import
           "out" None false saved_world "out" saved_manifest saved_conf
           "code"); try (vm_compute; reflexivity).
  discriminate.
Defined.

Lemma load_pyfunc_data_path_witness :
  (load_pyfunc "3.7.1" no_runs string echo_import "out" None false
     saved_world).1 = Ok "out/data/m.pkl".
Proof.
  apply (load_pyfunc_data_path "3.7.1" no_runs string echo_import
           "out" None false saved_world "out" saved_manifest saved_conf
           (Some "data/m.pkl") "echo"
           (mkPyModule (Some (λ data_path _, Ok data_path)))
           (λ data_path _, Ok data_path));
    try (vm_compute; reflexivity).
  intros c Hc _. vm_compute in Hc. injection Hc as <-. vm_compute. reflexivity.
Defined.

Lemma load_pyfunc_version_warning_witness :
  stderr (load_pyfunc "3.7.1" no_runs string echo_import "out" None false
            saved_world).2 =
    stderr saved_world ++ [version_mismatch_warning "3.7.1" "3.6.5"] ∧
  stderr (load_pyfunc "3.7.1" no_runs string echo_import "out" None true
            saved_world).2 = stderr saved_world ∧
  (load_pyfunc "3.7.1" no_runs string echo_import "out" None false
     saved_world).1 =
  (load_pyfunc "3.7.1" no_runs string echo_import "out" None true
     saved_world).1 ∧
  (load_pyfunc "3.7.1" no_runs string echo_import "out" None false
     saved_world).1 = Ok "out/data/m.pkl".
Proof.
  destruct (load_pyfunc_version_warning "3.7.1" no_runs string echo_import
              "out" None saved_world "out" saved_manifest saved_conf)
    as (Hmismatch & _ & Hquiet & Hsame & Hloads);
    try (vm_compute; reflexivity).
  split; [|split; [exact Hquiet | split; [exact Hsame|]]].
  - apply Hmismatch; [vm_compute; reflexivity|].
    vm_compute. discriminate.
  - apply (Hloads (Some "data/m.pkl") "echo"
             (mkPyModule (Some (λ data_path _, Ok data_path)))
             (λ data_path _, Ok data_path) "out/data/m.pkl");
      try (vm_compute; reflexivity).
    intros c Hc _. vm_compute in Hc. injection Hc as <-.
    vm_compute; reflexivity.
Defined.

(** ** The code path resolver *)

Lemma append_cons a s t : String a s +:+ t = String a (s +:+ t).
Proof. reflexivity. Qed.

Lemma length_append s t :
  String.length (s +:+ t) = String.length s + String.length t.
Proof. induction s as [|a s IH]; [done|]. rewrite append_cons. simpl. lia. Qed.

Lemma substring_all s : String.substring 0 (String.length s) s = s.
Proof. induction s as [|a s IH]; simpl; [done|]. by rewrite IH. Qed.

Lemma substring_append pre m s :
  String.substring (String.length pre) m (pre +:+ s) = String.substring 0 m s.
Proof.
  induction pre as [|a pre IH]; [done|]. rewrite append_cons. simpl. exact IH.
Qed.

Lemma substring_split k s :
  (k ≤ String.length s)%nat →
  s = String.substring 0 k s +:+
      String.substring k (String.length s - k) s.
Proof.
  revert k. induction s as [|a s IH]; intros k Hk; simpl in *.
  - assert (k = 0) as -> by lia. done.
  - destruct k as [|k]; simpl.
    + by rewrite substring_all.
    + rewrite append_cons. f_equal. apply IH. lia.
Qed.

Lemma endswith_has_suffix x suf :
  PyStr.endswith x suf = true ↔ has_suffix suf x.
Proof.
  unfold PyStr.endswith, has_suffix. rewrite andb_true_iff, !bool_decide_eq_true.
  split.
  - intros [Hle Hsub].
    exists (String.substring 0 (String.length x - String.length suf) x).
    pose proof (substring_split (String.length x - String.length suf) x) as Hs.
    replace (String.length x - (String.length x - String.length suf))
      with (String.length suf) in Hs by lia.
    rewrite Hsub in Hs. apply Hs. lia.
  - intros [pre ->]. rewrite length_append. split; [lia|].
    replace (String.length pre + String.length suf - String.length suf)
      with (String.length pre) by lia.
    rewrite substring_append. apply substring_all.
Qed.

#[global] Instance has_suffix_dec suf x : Decision (has_suffix suf x).
Proof.
  destruct (PyStr.endswith x suf) eqn:E.
  - left. by apply endswith_has_suffix.
  - right. intros H%endswith_has_suffix. congruence.
Defined.

#[global] Instance resolved_entry_dec x : Decision (resolved_entry x).
Proof. unfold resolved_entry. apply _. Defined.

Lemma filter_code_dir_kept (l : list string) :
  List.filter code_dir_kept l = filter resolved_entry l.
Proof.
  induction l as [|x l IH]; [done|]. simpl. rewrite filter_cons, IH.
  destruct (decide (resolved_entry x)) as [(H1 & H2 & H3)|Hn];
    unfold code_dir_kept.
  - rewrite <- endswith_has_suffix in H1, H2.
    apply not_true_is_false in H1, H2. rewrite H1, H2.
    by rewrite bool_decide_eq_false_2.
  - destruct (PyStr.endswith x ".py") eqn:E1; [done|].
    destruct (PyStr.endswith x ".pyc") eqn:E2; [done|].
    case_bool_decide as E3; [done|].
    destruct Hn. repeat split; [| |done];
      intros H%endswith_has_suffix; congruence.
Qed.

(** C6 (counterexample): in the sample process the directory [lib] holds
    the source file [x.py], the package [sub] and a [__pycache__]; the
    resolver as the specification words it keeps [lib/x.py], which is
    neither a compiled artifact nor a cache entry, while [_get_code_dirs]
    returns [lib/sub] only. *)
Lemma get_code_dirs_drops_source_files :
  (_get_code_dirs "lib" None sample_world).1 = Ok ["lib/sub"] ∧
  ∃ l, (resolveCodeDirs_spec "lib" "lib" sample_world).1 = Ok l ∧
       "lib/x.py" ∈ l ∧
       (_get_code_dirs "lib" None sample_world).1 ≠ Ok l.
Proof.
  split; [by vm_compute|].
  eexists. split; [by vm_compute|]. split; [|by vm_compute].
  set_solver.
Qed.

(** C6 (amended): for a source directory that exists, [_get_code_dirs]
    returns its immediate entries, in listing order, except those whose
    name ends in [.py] or in [.pyc] or is [__pycache__], each joined to the
    destination directory, which is the source directory when no (or an
    empty) destination is given; no other entry is left out, and nothing
    is written. *)
Theorem get_code_dirs_resolution
    (src_code_path : string) (dst_code_path : option string) (w : World) :
  stat w src_code_path = Some Directory →
  _get_code_dirs src_code_path dst_code_path w =
    (Ok (map (Path.join (if given dst_code_path
                         then default "" dst_code_path else src_code_path))
             (filter resolved_entry
                (entries (fs w) (Path.resolve (cwd w) src_code_path)))), w).
Proof.
  intros Hd. unfold _get_code_dirs, bind, ret.
  rewrite (os_listdir_directory _ _ Hd), filter_code_dir_kept.
  by destruct dst_code_path as [d|].
Qed.

Lemma get_code_dirs_resolution_witness :
  _get_code_dirs "lib" (Some "/opt/ml/model/code") sample_world =
    (Ok ["/opt/ml/model/code/sub"], sample_world).
Proof.
  rewrite (get_code_dirs_resolution "lib" (Some "/opt/ml/model/code")
             sample_world); [|by vm_compute].
  by vm_compute.
Defined.

(** ** The batched prediction wrapper *)

Section predict_facts.

Context {V : Type}.

Local Abbreviation store := (λ (d : gmap string V) (kv : string * V), <[kv.1 := kv.2]> d).
Local Abbreviation labelled := (λ ia : nat * V, (PyStr.str ia.1, ia.2)).

Lemma enumerate_from_lookup (l : list V) start i :
  enumerate_from start l !! i = (λ a, (start + i, a)) <$> l !! i.
Proof.
  revert start i. induction l as [|x l IH]; intros start [|i]; simpl; try done.
  - by rewrite Nat.add_0_r.
  - rewrite IH. by replace (S start + i) with (start + S i) by lia.
Qed.

(** Entries stored for later indices leave an earlier label alone. *)
Lemma store_later (l : list V) start d j :
  j < start →
  foldl store d (map labelled (enumerate_from start l)) !! PyStr.str j
    = d !! PyStr.str j.
Proof.
  revert start d. induction l as [|x l IH]; intros start d Hj; [done|].
  simpl. rewrite IH by lia. apply lookup_insert_ne.
  intros Heq. apply (inj pretty) in Heq. lia.
Qed.

Lemma store_lookup (l : list V) start d i a :
  l !! i = Some a →
  foldl store d (map labelled (enumerate_from start l)) !! PyStr.str (start + i)
    = Some a.
Proof.
  revert start d i. induction l as [|x l IH]; intros start d [|i] Hi;
    simplify_eq/=.
  - rewrite store_later by lia. rewrite Nat.add_0_r. apply lookup_insert_eq.
  - replace (start + S i) with (S start + i) by lia. by apply IH.
Qed.

Lemma dict_of_enumerate (l : list V) i a :
  l !! i = Some a →
  dict_of (map labelled (enumerate l)) !! PyStr.str i = Some a.
Proof. intros Hi. by apply (store_lookup l 0 ∅ i a). Qed.

End predict_facts.

Lemma map_fmap {A B} (f : A → B) (l : list A) : map f l = f <$> l.
Proof. induction l as [|x l IH]; simpl; [done|]. by rewrite IH. Qed.

Lemma lookup_map {A B} (f : A → B) (l : list A) i :
  map f l !! i = f <$> l !! i.
Proof. rewrite map_fmap. apply list_lookup_fmap. Qed.

Lemma Sorted_adjacent {A} (R : relation A) (l : list A) i x y :
  Sorted R l → l !! i = Some x → l !! S i = Some y → R x y.
Proof.
  intros Hs. revert i. induction Hs as [|z l Hs IH Hhd]; intros i Hx Hy; [done|].
  destruct i as [|i]; simplify_eq/=.
  - destruct Hhd as [|b l' Hb]; simplify_eq/=. done.
  - by eapply IH.
Qed.

(** C8: for any number of positional input columns the wrapper hands the
    model a table whose [i]-th column is labelled [str(i)] and holds the
    [i]-th argument, so its labels are [str(0)], ..., [str(n-1)] in
    positional order; from eleven columns on that order is not the
    lexicographically sorted one (up to ten the two orders agree); and the
    wrapper returns the elements of the model's prediction in the order
    the model produced them. *)
Theorem predict_columns_positional
    (Cell PyFuncModel : Type) (get_or_load : string → result PyFuncModel)
    (model_predict : PyFuncModel → DataFrame Cell → result (list Cell))
    (archive_path : string) (args : list (list Cell)) :
  ∃ pdf : DataFrame Cell,
    predict Cell PyFuncModel get_or_load model_predict archive_path args =
      match get_or_load archive_path with
      | Ok model => model_predict model pdf
      | Raise e => Raise e
      end ∧
    (∀ i, pdf !! i = (λ a, (PyStr.str i, Some a)) <$> args !! i) ∧
    pdf.*1 = PyStr.str <$> seq 0 (length args) ∧
    (10 < length args → ∀ l, Sorted lex_le l → pdf.*1 ≠ l).
Proof.
  set (schema := dict_of (map (λ ia : nat * list Cell, (PyStr.str ia.1, ia.2))
                              (enumerate args))).
  set (columns := map (λ ia : nat * list Cell, PyStr.str ia.1) (enumerate args)).
  exists (pandas_DataFrame Cell schema columns).
  assert (Hcol : ∀ i, pandas_DataFrame Cell schema columns !! i
                      = (λ a, (PyStr.str i, Some a)) <$> args !! i).
  { intros i. unfold pandas_DataFrame, columns, enumerate.
    rewrite !lookup_map, enumerate_from_lookup.
    destruct (args !! i) as [a|] eqn:Ea; simpl; [|done].
    unfold schema. by rewrite (dict_of_enumerate args i a Ea). }
  assert (Hlab : (pandas_DataFrame Cell schema columns).*1
                 = PyStr.str <$> seq 0 (length args)).
  { apply list_eq. intros i. rewrite !list_lookup_fmap, Hcol.
    destruct (args !! i) as [a|] eqn:Ea; simpl.
    - apply lookup_lt_Some in Ea. by rewrite lookup_seq_lt.
    - apply lookup_ge_None in Ea. by rewrite lookup_seq_ge. }
  split; [|split; [done|split; [done|]]].
  - unfold predict. destruct (get_or_load archive_path) as [model|e]; [|done].
    fold schema columns. unfold pandas_Series. by case_match.
  - intros Hn l Hl Heq. rewrite Hlab in Heq. subst l.
    assert (lex_le "9" "10") as Hle; [|by vm_compute in Hle].
    apply (Sorted_adjacent lex_le _ 9 _ _ Hl);
      rewrite list_lookup_fmap, lookup_seq_lt by lia; done.
Qed.

Lemma predict_columns_positional_witness :
  ∃ pdf : DataFrame nat,
    predict nat unit (λ _, Ok tt) (λ _ pdf, Ok [length pdf]) "archive"
      eleven_columns = Ok [length pdf] ∧
    pdf.*1 = ["0"; "1"; "2"; "3"; "4"; "5"; "6"; "7"; "8"; "9"; "10"] ∧
    pdf.*1 ≠ ["0"; "1"; "10"; "2"; "3"; "4"; "5"; "6"; "7"; "8"; "9"].
Proof.
  destruct (predict_columns_positional nat unit (λ _, Ok tt)
              (λ _ pdf, Ok [length pdf]) "archive" eleven_columns)
    as (pdf & Hrun & _ & Hlabels & Hunsorted).
  exists pdf. split; [exact Hrun|]. split; [exact Hlabels|].
  apply Hunsorted; [vm_compute; lia|].
  repeat (constructor; try reflexivity).
Defined.

(** ** The deployment script emitter *)

Lemma append_empty s t : s +:+ t = "" → t = "".
Proof.
  intros H. apply (f_equal String.length) in H. rewrite length_append in H.
  destruct t; [done|]. simpl in H. lia.
Qed.

Lemma join_nonempty a b : b ≠ "" → Path.join a b ≠ "".
Proof.
  intros Hb. unfold Path.join.
  destruct (PyStr.startswith b "/"); [done|].
  destruct (bool_decide (a = "") || PyStr.endswith a "/").
  - by intros ?%append_empty.
  - intros Hab%append_empty. by apply append_empty in Hab.
Qed.

(** *** Reading the emitted loader *)

Lemma string_app_assoc (a b c : string) : (a +:+ b) +:+ c = a +:+ (b +:+ c).
Proof. induction a as [|x a IH]; [done|]. rewrite !append_cons. by rewrite IH. Qed.

Lemma string_app_nil_r (a : string) : a +:+ "" = a.
Proof. induction a as [|x a IH]; [done|]. rewrite append_cons. by rewrite IH. Qed.



Lemma literal_char_not_quote a :
  Script.literal_char a = true → a ≠ "'"%char.
Proof. intros Ha ->. done. Qed.

Lemma literal_char_not_nl a :
  Script.literal_char a = true → a ≠ ascii_of_nat 10.
Proof. intros Ha ->. done. Qed.

(** A literal between quotes is read as one [STRING] token. *)
Lemma lex_literal d acc r :
  Script.literal d = true →
  Script.lex (Script.InString acc) (d +:+ String "'" r) =
    Script.STRING (acc +:+ d) :: Script.lex Script.Between r.
Proof.
  revert acc. induction d as [|a d IH]; intros acc Hd.
  - change ("" +:+ String "'" r) with (String "'" r). simpl.
    by rewrite string_app_nil_r.
  - simpl in Hd. apply andb_true_iff in Hd as [Ha Hd].
    rewrite append_cons. simpl.
    rewrite bool_decide_eq_false_2 by (by apply literal_char_not_quote).
    rewrite Ha, (IH _ Hd), string_app_assoc. done.
Qed.




Lemma lex_body_without_code m d :
  Script.literal m = true → Script.literal d = true →
  Script.lex Script.Between (body_text "" m d) =
    [Script.NAME "return"; Script.NAME "importlib"; Script.DOT;
     Script.NAME "import_module"; Script.LPAR; Script.STRING m; Script.RPAR;
     Script.DOT; Script.NAME "load_pyfunc"; Script.LPAR; Script.STRING d;
     Script.RPAR].
Proof.
  intros Hm Hd. unfold body_text.
  change (Script.lex Script.Between
            ("    " +:+ "" +:+ "return importlib.import_module('" +:+ ?x))
    with (Script.NAME "return" :: Script.NAME "importlib" :: Script.DOT ::
          Script.NAME "import_module" :: Script.LPAR ::
          Script.lex (Script.InString "") x).
  change ("').load_pyfunc('" +:+ ?x)
    with (String "'" (").load_pyfunc('" +:+ x)).
  rewrite (lex_literal m "" _ Hm).
  change (Script.lex Script.Between (").load_pyfunc('" +:+ ?x))
    with (Script.RPAR :: Script.DOT :: Script.NAME "load_pyfunc" ::
          Script.LPAR :: Script.lex (Script.InString "") x).
  change (d +:+ "')") with (d +:+ String "'" ")").
  by rewrite (lex_literal d "" _ Hd).
Qed.


Lemma parse_body_without_code m d :
  Script.literal m = true → Script.literal d = true →
  Script.parse_body (Script.lex Script.Between (body_text "" m d)) =
    Script.Read (Script.mkProgram None m d).
Proof.
  intros Hm Hd. rewrite (lex_body_without_code m d Hm Hd).
  cbn [Script.parse_body Script.parse_return].
  by rewrite !bool_decide_eq_true_2.
Qed.


Lemma one_line_app a b : one_line (a +:+ b) = one_line a && one_line b.
Proof.
  induction a as [|x a IH]; [done|]. rewrite append_cons. simpl.
  by rewrite IH, andb_assoc.
Qed.

Lemma literal_one_line s : Script.literal s = true → one_line s = true.
Proof.
  induction s as [|a s IH]; [done|]. simpl.
  intros [Ha Hs]%andb_true_iff. rewrite (IH Hs), andb_true_r.
  apply negb_true_iff, bool_decide_eq_false. by apply literal_char_not_nl.
Qed.

Lemma split_one_line s t :
  one_line s = true →
  PyStr.split (ascii_of_nat 10) (s +:+ String (ascii_of_nat 10) t) =
    s :: PyStr.split (ascii_of_nat 10) t.
Proof.
  induction s as [|a s IH]; intros Hs.
  - change ("" +:+ String (ascii_of_nat 10) t)
      with (String (ascii_of_nat 10) t).
    reflexivity.
  - simpl in Hs. apply andb_true_iff in Hs as [Ha Hs].
    apply negb_true_iff, bool_decide_eq_false in Ha.
    rewrite append_cons. simpl. rewrite bool_decide_eq_false_2 by done.
    by rewrite (IH Hs).
Qed.


Lemma one_line_body u m d :
  one_line u = true → Script.literal m = true → Script.literal d = true →
  one_line (body_text u m d) = true.
Proof.
  intros Hu Hm Hd. unfold body_text.
  by rewrite !one_line_app, Hu, (literal_one_line _ Hm),
    (literal_one_line _ Hd).
Qed.

(** The lines of the emitted module. *)
Lemma loader_template_lines u m d :
  one_line u = true → Script.literal m = true → Script.literal d = true →
  PyStr.split (ascii_of_nat 10) (loader_template u m d) =
    Script.header ++ [body_text u m d; ""; ""].
Proof.
  intros Hu Hm Hd.
  assert (loader_template u m d =
            "" +:+ String (ascii_of_nat 10)
            ("" +:+ String (ascii_of_nat 10)
            ("import importlib" +:+ String (ascii_of_nat 10)
            ("import os" +:+ String (ascii_of_nat 10)
            ("import sys" +:+ String (ascii_of_nat 10)
            ("" +:+ String (ascii_of_nat 10)
            ("def load_pyfunc():" +:+ String (ascii_of_nat 10)
            (body_text u m d +:+ String (ascii_of_nat 10)
            ("" +:+ String (ascii_of_nat 10) ""))))))))) as ->.
  { unfold loader_template, body_text, PyStr.nl.
    rewrite !string_app_assoc. reflexivity. }
  rewrite !split_one_line by (done || by apply one_line_body).
  reflexivity.
Qed.

Lemma read_module_template u m d :
  one_line u = true → Script.literal m = true → Script.literal d = true →
  Script.read_module (loader_template u m d) =
    Script.parse_body (Script.lex Script.Between (body_text u m d)).
Proof.
  intros Hu Hm Hd. unfold Script.read_module.
  rewrite (loader_template_lines u m d Hu Hm Hd).
  by rewrite bool_decide_eq_true_2.
Qed.



Lemma read_module_without_code m d :
  Script.literal m = true → Script.literal d = true →
  Script.read_module (loader_template "" m d) =
    Script.Read (Script.mkProgram None m d).
Proof.
  intros Hm Hd. rewrite read_module_template; try done.
  by apply parse_body_without_code.
Qed.


Section emitter.

Context (PV : string) (log_dir : string → string → result string)
  (Handle : Type) (import_module : View → string → result (PyModule Handle)).


End emitter.



Example prepend_statement_two :
  prepend_statement ["/m/code"; "/m/code/lib"] =
    "sys.path = [os.path.abspath('/m/code'),os.path.abspath('/m/code/lib')] + sys.path; ".
Proof. reflexivity. Qed.

(** ** Packaging code paths *)

Lemma grows_refl w : grows w w.
Proof. by split. Qed.

Lemma node_at_insert t k n k' :
  is_Some (node_at t k') → is_Some (node_at (<[k := n]> t) k').
Proof.
  destruct k' as [|c k']; [done|]. simpl.
  rewrite lookup_insert_is_Some. destruct (decide (k = c :: k')); auto.
Qed.

Lemma node_at_insert_eq t k n : is_Some (node_at (<[k := n]> t) k).
Proof. destruct k; simpl; [done|]. rewrite lookup_insert_eq. eauto. Qed.

Lemma grows_insert w k n : grows w (set_fs (<[k := n]> (fs w)) w).
Proof. split; [done|]. intros k'. apply node_at_insert. Qed.

Lemma write_file_grows p f w : grows w (write_file p f w).2.
Proof.
  unfold write_file. repeat case_match; simpl;
    try apply grows_refl; apply grows_insert.
Qed.

Lemma shutil_copy_grows src dst w : grows w (shutil_copy src dst w).2.
Proof.
  unfold shutil_copy. repeat case_match; simpl;
    try apply grows_refl; apply write_file_grows.
Qed.

Lemma makedirs_walk_grows p rest pre t k :
  is_Some (node_at t k) →
  is_Some (node_at (makedirs_walk p pre rest t).2 k).
Proof.
  revert pre t. induction rest as [|c rest IH]; intros pre t Hk; [done|].
  simpl. destruct rest as [|c' rest].
  - destruct (t !! (pre ++ [c])); simpl; [done|]. by apply node_at_insert.
  - destruct (t !! (pre ++ [c])) as [[| |]|]; simpl; try done.
    + by apply IH.
    + apply IH. by apply node_at_insert.
Qed.

Lemma os_makedirs_grows p w : grows w (os_makedirs p w).2.
Proof.
  unfold os_makedirs. case_bool_decide; [apply grows_refl|].
  destruct (makedirs_walk p [] (Path.resolve (cwd w) p) (fs w)) as [r t] eqn:E.
  split; [done|]. intros k Hk. simpl.
  change t with (r, t).2. rewrite <- E. by apply makedirs_walk_grows.
Qed.

Lemma shutil_copytree_grows src dst w : grows w (shutil_copytree src dst w).2.
Proof.
  unfold shutil_copytree.
  destruct (stat w src) as [[| |]|]; try apply grows_refl.
  pose proof (os_makedirs_grows dst w) as [Hcwd Hgrow].
  destruct (os_makedirs dst w) as [[[]|e] w'] eqn:E; simpl in *; [|by split].
  split; [done|]. intros k Hk. specialize (Hgrow k Hk).
  destruct k as [|c k]; [done|]. simpl in *.
  rewrite lookup_union_is_Some. by right.
Qed.

Lemma os_mkdir_creates p w w' :
  os_mkdir p w = (Ok tt, w') →
  grows w w' ∧ is_Some (node_at (fs w') (Path.resolve (cwd w) p)).
Proof.
  unfold os_mkdir, mkdir_at. intros H.
  repeat case_match; simplify_eq. split; [apply grows_insert|].
  apply node_at_insert_eq.
Qed.

Lemma os_mkdir_present p w :
  p ≠ "" →
  is_Some (node_at (fs w) (Path.resolve (cwd w) p)) →
  os_mkdir p w = (Raise (FileExistsError p), w).
Proof.
  intros Hp [n Hn]. unfold os_mkdir, mkdir_at.
  rewrite bool_decide_eq_false_2 by done. by rewrite Hn.
Qed.

Section packaging.

Context (PV : string).

(** One successful copy into [code] leaves the directory [dst/code] in
    place. *)
Lemma copy_into_code_creates src dst name w w' :
  _copy_file_or_tree src dst "code" w = (Ok name, w') →
  cwd w' = cwd w ∧
  is_Some (node_at (fs w') (Path.resolve (cwd w) (Path.join dst "code"))).
Proof.
  unfold _copy_file_or_tree, bind at 1, os_path_abspath.
  unfold bind at 1. simpl.
  destruct (os_mkdir (Path.join dst "code") w) as [[[]|e] w1] eqn:E1; [|done].
  apply os_mkdir_creates in E1 as [[Hcwd1 Hg1] Hnew].
  unfold bind at 1, os_path_isfile. unfold bind at 1.
  set (target := Path.join dst _).
  destruct (match stat w1 src with
            | Some (RegularFile _) | Some (ManifestFile _) => true
            | _ => false
            end).
  - pose proof (shutil_copy_grows src target w1) as [Hcwd2 Hg2].
    destruct (shutil_copy src target w1) as [[[]|e] w2]; [|done].
    simpl in *. intros [= _ <-]. split; [congruence|auto].
  - pose proof (shutil_copytree_grows src target w1) as [Hcwd2 Hg2].
    destruct (shutil_copytree src target w1) as [[[]|e] w2]; [|done].
    simpl in *. intros [= _ <-]. split; [congruence|auto].
Qed.

(** With [dst/code] in place, another copy into [code] stops at its
    [os.mkdir]. *)
Lemma copy_into_code_again src dst w :
  is_Some (node_at (fs w) (Path.resolve (cwd w) (Path.join dst "code"))) →
  _copy_file_or_tree src dst "code" w =
    (Raise (FileExistsError (Path.join dst "code")), w).
Proof.
  intros Hpresent.
  unfold _copy_file_or_tree, bind at 1, os_path_abspath.
  unfold bind at 1. simpl.
  by rewrite (os_mkdir_present _ _ (join_nonempty dst "code" ltac:(done))
                Hpresent).
Qed.

Lemma copy_code_paths_twice dst p1 p2 rest w :
  ∃ e w',
    for_each (p1 :: p2 :: rest)
      (λ path, let! _ := _copy_file_or_tree path dst "code" in ret tt) w
    = (Raise e, w').
Proof.
  simpl. unfold bind at 1 2.
  destruct (_copy_file_or_tree p1 dst "code" w) as [[name|e] w1] eqn:E1;
    [|by eauto].
  apply copy_into_code_creates in E1 as [Hcwd Hpresent].
  rewrite <- Hcwd in Hpresent. unfold ret at 1.
  unfold bind at 1 2. rewrite (copy_into_code_again p2 dst w1 Hpresent).
  by eauto.
Qed.

(** C5 (the defect): whatever the destination, the data and the process
    state, [save_model] never returns when it is given two or more code
    paths: every entry is copied by [_copy_file_or_tree], which creates
    the directory [code] with [os.mkdir] each time, so the second entry
    stops on the directory the first one created. *)
Theorem save_model_two_code_paths_fails
    (dst_path loader_module : string) (data_path : option string)
    (p1 p2 : string) (rest : list string) (conda_env : option string)
    (model : Model) (w : World) :
  ∃ e w',
    save_model PV dst_path loader_module data_path (p1 :: p2 :: rest)
      conda_env model w = (Raise e, w').
Proof.
  unfold save_model, bind at 1, os_path_exists.
  case_bool_decide; [by eexists _, _|].
  unfold bind at 1. destruct (os_makedirs dst_path w) as [[[]|e] w1];
    [|by eauto].
  unfold bind at 1.
  destruct ((if given data_path
             then let! model_file :=
                    _copy_file_or_tree (default "" data_path) dst_path "data" in
                  ret (Some model_file)
             else ret None) w1) as [[data|e] w2]; [|by eauto].
  unfold bind at 1 2.
  destruct (copy_code_paths_twice dst_path p1 p2 rest w2) as (e & w3 & ->).
  by eauto.
Qed.

End packaging.

(** In the sample process one code path is packaged, and two are not. *)
Example save_model_one_code_path :
  ∃ model,
    (save_model "3.6.5" "out" "echo" (Some "m.pkl") ["a.py"] None Model_new
       sample_world).1 = Ok model ∧
    flavors model !! FLAVOR_NAME =
      Some (<[DATA := PyString "data/m.pkl"]>
              (<[CODE := PyString "code"]>
                 (<[PY_VERSION := PyString "3.6.5"]>
                    {[ MAIN := PyString "echo" ]}))).
Proof. exists saved_manifest. split; vm_compute; reflexivity. Qed.

Example save_model_two_code_paths :
  (save_model "3.6.5" "out" "echo" (Some "m.pkl") ["a.py"; "b.py"] None
     Model_new sample_world).1 = Raise (FileExistsError "out/code").
Proof. by vm_compute. Qed.

(** * Further properties *)

Local Open Scope nat_scope.

(** ** Flavor registration *)

Lemma given_truthy (a : option string) :
  given a = true → ∃ s, a = Some s ∧ PyStr.truthy s = true.
Proof. destruct a as [s|]; simpl; [eauto|done]. Qed.

(** What [add_to_model] stores under the flavor name, for optional
    arguments already reduced to their truthy values. *)
Lemma add_to_model_flavor PV model loader_module data code env :
  flavors (add_to_model PV model loader_module data code env) !! FLAVOR_NAME =
    Some ((if given env then <[ENV := PyString (default "" env)]> else id)
            ((if given data then <[DATA := PyString (default "" data)]> else id)
               ((if given code then <[CODE := PyString (default "" code)]> else id)
                  (<[PY_VERSION := PyString PV]>
                     {[ MAIN := PyString loader_module ]})))).
Proof.
  unfold add_to_model, add_flavor. simpl. rewrite lookup_insert_eq.
  by destruct data as [d|], code as [c|], env as [e|]; simpl;
    repeat case_match.
Qed.

Lemma add_to_model_lookups PV model loader_module data code env :
  ∃ conf,
    flavors (add_to_model PV model loader_module data code env)
      !! FLAVOR_NAME = Some conf ∧
    conf !! MAIN = Some (PyString loader_module) ∧
    conf !! PY_VERSION = Some (PyString PV) ∧
    conf !! CODE = (if given code then PyString <$> code else None) ∧
    conf !! DATA = (if given data then PyString <$> data else None) ∧
    conf !! ENV = (if given env then PyString <$> env else None) ∧
    (∀ k, k ∉ [MAIN; PY_VERSION; CODE; DATA; ENV] → conf !! k = None).
Proof.
  eexists. split; [apply add_to_model_flavor|].
  destruct data as [d|], code as [c|], env as [e|]; simpl;
    repeat case_match; simpl;
    (repeat split; [by simplify_map_eq..|]);
    intros k Hk; rewrite !not_elem_of_cons in Hk;
    destruct Hk as (? & ? & ? & ? & ? & _);
    by rewrite ?lookup_insert_ne, ?lookup_singleton_ne.
Qed.

(** X1: [add_to_model] always records the loader module and the version of
    the running interpreter; it records [code], [data] and [env] exactly
    when the argument is given and non-empty, with the value given; the
    entry has no other key; and every other flavor of the manifest is left
    as it was. *)
Theorem add_to_model_records
    (PV : string) (model : Model) (loader_module : string)
    (data code env : option string) :
  (∃ conf,
     flavors (add_to_model PV model loader_module data code env)
       !! FLAVOR_NAME = Some conf ∧
     conf !! MAIN = Some (PyString loader_module) ∧
     conf !! PY_VERSION = Some (PyString PV) ∧
     conf !! CODE = (if given code then PyString <$> code else None) ∧
     conf !! DATA = (if given data then PyString <$> data else None) ∧
     conf !! ENV = (if given env then PyString <$> env else None) ∧
     (∀ k, k ∉ [MAIN; PY_VERSION; CODE; DATA; ENV] → conf !! k = None)) ∧
  (∀ name, name ≠ FLAVOR_NAME →
     flavors (add_to_model PV model loader_module data code env) !! name =
       flavors model !! name) ∧
  artifact_path (add_to_model PV model loader_module data code env) =
    artifact_path model ∧
  run_id (add_to_model PV model loader_module data code env) = run_id model.
Proof.
  split; [|split; [|done]].
  - apply add_to_model_lookups.
  - intros name Hn. unfold add_to_model, add_flavor. simpl.
    by rewrite lookup_insert_ne.
Qed.

(** ** What loading touches *)

Section loading_frame.

Context (PV : string) (log_dir : string → string → result string)
  (Handle : Type) (import_module : View → string → result (PyModule Handle)).

Local Abbreviation load := (load_pyfunc PV log_dir Handle import_module).

Lemma Model_load_world p w : (Model_load p w).2 = w.
Proof. unfold Model_load. by repeat case_match. Qed.

Lemma _load_model_conf_world path run_id w :
  (_load_model_conf log_dir path run_id w).2 = w.
Proof.
  unfold _load_model_conf, bind, lift.
  destruct (located log_dir path run_id) as [p|e]; [|done].
  pose proof (Model_load_world (Path.join p "MLmodel") w) as Hw.
  destruct (Model_load (Path.join p "MLmodel") w) as [[m|e] w1];
    simpl in *; subst; [|done].
  by destruct (flavors m !! FLAVOR_NAME).
Qed.

Lemma load_pyfunc_unfold path run_id suppress_warnings w :
  load path run_id suppress_warnings w =
    match located log_dir path run_id with
    | Raise e => (Raise e, w)
    | Ok p =>
        match _load_model_conf log_dir p None w with
        | (Ok conf, w1) =>
            (do! warning_step PV suppress_warnings conf in
             do! search_path_step p conf in
             call_step Handle import_module p conf) w1
        | (Raise e, w1) => (Raise e, w1)
        end
    end.
Proof.
  unfold load_pyfunc, bind at 1, lift at 1.
  by destruct (located log_dir path run_id).
Qed.

Lemma warning_step_frame suppress_warnings conf w :
  ∃ out, warning_step PV suppress_warnings conf w
           = (Ok tt, with_stderr (stderr w ++ out) w) ∧
         length out ≤ 1 ∧ (suppress_warnings = true → out = []).
Proof.
  assert (Hnone : ret tt w = (Ok tt, with_stderr (stderr w ++ []) w)).
  { rewrite app_nil_r. by destruct w. }
  unfold warning_step.
  destruct suppress_warnings; simpl.
  { exists []. split; [done|]. split; [simpl; lia|done]. }
  unfold _warn_potentially_incompatible_py_version_if_necessary, eprint.
  destruct (dict_get conf PY_VERSION) as [|v].
  - eexists [_]. split; [done|]. split; [simpl; lia|done].
  - case_bool_decide.
    + eexists [_]. split; [done|]. split; [simpl; lia|done].
    + exists []. split; [done|]. split; [simpl; lia|done].
Qed.

Lemma search_path_step_frame p conf w :
  ∃ pre, (search_path_step p conf w).2 = set_sys_path (pre ++ sys_path w) w.
Proof.
  unfold search_path_step.
  assert (Hid : w = set_sys_path ([] ++ sys_path w) w) by (by destruct w).
  destruct (conf !! CODE) as [c|]; [|by exists []].
  destruct (truthy c); [|by exists []].
  unfold bind, lift. destruct (py_join p c) as [cp|e]; [|by exists []].
  unfold _get_code_dirs, bind, ret, os_listdir.
  destruct (stat w cp) as [[| |]|]; simpl; try by exists [].
  by eexists (_ :: _).
Qed.

Lemma load_pyfunc_world path run_id suppress_warnings w :
  ∃ pre out,
    (load path run_id suppress_warnings w).2 =
      {| fs := fs w; cwd := cwd w; sys_path := pre ++ sys_path w;
         stderr := stderr w ++ out |} ∧
    length out ≤ 1 ∧ (suppress_warnings = true → out = []).
Proof.
  rewrite load_pyfunc_unfold.
  assert (Hsame : ∃ pre out,
            w = {| fs := fs w; cwd := cwd w; sys_path := pre ++ sys_path w;
                   stderr := stderr w ++ out |} ∧
            length out ≤ 1 ∧ (suppress_warnings = true → out = [])).
  { exists [], []. rewrite app_nil_r. split; [by destruct w|].
    split; [simpl; lia|done]. }
  destruct (located log_dir path run_id) as [p|e]; [|exact Hsame].
  pose proof (_load_model_conf_world p None w) as Hw.
  destruct (_load_model_conf log_dir p None w) as [[conf|e] w1];
    simpl in Hw; subst w1; [|exact Hsame].
  unfold bind at 1.
  destruct (warning_step_frame suppress_warnings conf w)
    as (out & -> & Hlen & Hquiet).
  unfold bind.
  destruct (search_path_step_frame p conf (with_stderr (stderr w ++ out) w))
    as [pre Hpre].
  destruct (search_path_step p conf (with_stderr (stderr w ++ out) w))
    as [[[]|e] w2]; simpl in Hpre; subst w2.
  - rewrite (call_step_world Handle import_module). by exists pre, out.
  - by exists pre, out.
Qed.

(** X2: whatever the artifact and whatever the outcome, [load_pyfunc]
    leaves the file system and the working directory as they are, only
    ever puts entries in front of [sys.path] (the previous entries stay at
    the end, in order), and writes at most one message to the diagnostic
    stream, none when warnings are suppressed. *)
Theorem load_pyfunc_frame
    (path : string) (run_id : option string) (suppress_warnings : bool)
    (w : World) :
  fs (load path run_id suppress_warnings w).2 = fs w ∧
  cwd (load path run_id suppress_warnings w).2 = cwd w ∧
  (∃ pre, sys_path (load path run_id suppress_warnings w).2
            = pre ++ sys_path w) ∧
  (∃ out, stderr (load path run_id suppress_warnings w).2 = stderr w ++ out ∧
          length out ≤ 1 ∧ (suppress_warnings = true → out = [])).
Proof.
  destruct (load_pyfunc_world path run_id suppress_warnings w)
    as (pre & out & -> & Hlen & Hquiet).
  simpl. eauto 10.
Qed.

End loading_frame.

(** ** How loading fails *)

Section loading_errors.

Context (PV : string) (log_dir : string → string → result string)
  (Handle : Type) (import_module : View → string → result (PyModule Handle)).

Local Abbreviation load := (load_pyfunc PV log_dir Handle import_module).

Lemma search_path_step_ok p conf w :
  code_ready w p conf → ∃ w1, search_path_step p conf w = (Ok tt, w1).
Proof.
  intros Hcode. unfold search_path_step.
  destruct (conf !! CODE) as [c|] eqn:Ec; [|by eexists].
  destruct (truthy c) eqn:Et; [|by eexists].
  specialize (Hcode c Ec Et).
  destruct c as [|s]; [done|]. simpl in *. unfold bind, lift.
  rewrite (_get_code_dirs_listing _ None _ Hcode). by eexists.
Qed.

(** The load from the search path step on, after the warning step. *)
Lemma load_pyfunc_after_warning path run_id suppress_warnings w p m conf :
  located log_dir path run_id = Ok p →
  manifest_at w p m →
  flavors m !! FLAVOR_NAME = Some conf →
  ∃ out,
    load path run_id suppress_warnings w =
      (do! search_path_step p conf in call_step Handle import_module p conf)
        (with_stderr out w).
Proof.
  intros Hp Hm Hf.
  rewrite (load_pyfunc_steps PV log_dir Handle import_module
             _ _ _ _ _ _ _ Hp Hm Hf).
  unfold bind at 1.
  destruct (warning_step_world PV suppress_warnings conf w) as [out ->].
  by exists out.
Qed.

(** With the code directory in place the load reaches the call of the
    loader. *)
Lemma load_pyfunc_reaches_call path run_id suppress_warnings w p m conf :
  located log_dir path run_id = Ok p →
  manifest_at w p m →
  flavors m !! FLAVOR_NAME = Some conf →
  code_ready w p conf →
  ∃ w1, load path run_id suppress_warnings w =
          call_step Handle import_module p conf w1.
Proof.
  intros Hp Hm Hf Hcode.
  destruct (load_pyfunc_after_warning _ _ suppress_warnings _ _ _ _ Hp Hm Hf)
    as [out ->].
  destruct (search_path_step_ok p conf (with_stderr out w) Hcode) as [w1 Hw1].
  unfold bind. rewrite Hw1. by exists w1.
Qed.

(** X3: when a non-empty [code] path is recorded but the artifact has no
    such directory, [load_pyfunc] raises the [os.listdir] error for that
    path ([FileNotFoundError], or [NotADirectoryError] when the path is a
    file) and [sys.path] is left as it was. *)
Theorem load_pyfunc_code_directory_missing
    (path : string) (run_id : option string) (suppress_warnings : bool)
    (w : World) (p : string) (m : Model) (conf : gmap string pyval)
    (c : string) :
  located log_dir path run_id = Ok p →
  manifest_at w p m →
  flavors m !! FLAVOR_NAME = Some conf →
  conf !! CODE = Some (PyString c) →
  c ≠ "" →
  stat w (Path.join p c) ≠ Some Directory →
  (load path run_id suppress_warnings w).1 =
    Raise (match stat w (Path.join p c) with
           | Some _ => NotADirectoryError (Path.join p c)
           | None => FileNotFoundError (Path.join p c)
           end) ∧
  sys_path (load path run_id suppress_warnings w).2 = sys_path w.
Proof.
  intros Hp Hm Hf Hc Hne Hd.
  destruct (load_pyfunc_after_warning _ _ suppress_warnings _ _ _ _ Hp Hm Hf)
    as [out ->].
  unfold bind. rewrite search_path_step_with_stderr.
  unfold search_path_step. rewrite Hc. simpl.
  rewrite (truthy_nonempty _ Hne). unfold bind, lift.
  unfold _get_code_dirs, bind, os_listdir.
  by destruct (stat w (Path.join p c)) as [[| |]|].
Qed.

(** X4: with the code directory in place, a [data] entry recorded as null
    makes [load_pyfunc] raise [TypeError] (unlike a null [code] entry,
    which is ignored), and otherwise a configuration without
    [loader_module] makes it raise [KeyError]; in both cases no module is
    imported. *)
Theorem load_pyfunc_configuration_errors
    (path : string) (run_id : option string) (suppress_warnings : bool)
    (w : World) (p : string) (m : Model) (conf : gmap string pyval) :
  located log_dir path run_id = Ok p →
  manifest_at w p m →
  flavors m !! FLAVOR_NAME = Some conf →
  code_ready w p conf →
  (conf !! DATA = Some PyNone →
   (load path run_id suppress_warnings w).1 = Raise TypeError) ∧
  (conf !! DATA ≠ Some PyNone → conf !! MAIN = None →
   (load path run_id suppress_warnings w).1 = Raise (KeyError "loader_module")).
Proof.
  intros Hp Hm Hf Hcode.
  destruct (load_pyfunc_reaches_call _ _ suppress_warnings _ _ _ _
              Hp Hm Hf Hcode) as [w1 ->].
  unfold call_step, bind, lift, ret, getitem. split.
  - by intros ->.
  - intros Hdata ->. by destruct (conf !! DATA) as [[|d]|].
Qed.

(** X5: when the named loader module cannot be imported, [load_pyfunc]
    raises the import system's exception unchanged; when the module is
    imported but has no [load_pyfunc] attribute, it raises
    [AttributeError]. *)
Theorem load_pyfunc_module_errors
    (path : string) (run_id : option string) (suppress_warnings : bool)
    (w : World) (p : string) (m : Model) (conf : gmap string pyval)
    (data : option string) (name : string) :
  located log_dir path run_id = Ok p →
  manifest_at w p m →
  flavors m !! FLAVOR_NAME = Some conf →
  code_ready w p conf →
  conf !! DATA = PyString <$> data →
  conf !! MAIN = Some (PyString name) →
  (∀ e, import_module (view (load path run_id suppress_warnings w).2) name
          = Raise e →
        (load path run_id suppress_warnings w).1 = Raise e) ∧
  (∀ module,
     import_module (view (load path run_id suppress_warnings w).2) name
       = Ok module →
     mod_load_pyfunc module = None →
     (load path run_id suppress_warnings w).1 =
       Raise (AttributeError "load_pyfunc")).
Proof.
  intros Hp Hm Hf Hcode Hdata Hmain.
  destruct (load_pyfunc_reaches_call _ _ suppress_warnings _ _ _ _
              Hp Hm Hf Hcode) as [w1 ->].
  rewrite (call_step_world Handle import_module).
  unfold call_step, bind, lift, ret, getitem. rewrite Hdata, Hmain.
  split.
  - intros e He. destruct data; simpl; by rewrite He.
  - intros module Hmod Hnone. destruct data; simpl; by rewrite Hmod, Hnone.
Qed.

(** X6: when the recorded version has the same major.minor as the running
    interpreter (the two may differ in their patch level), [load_pyfunc]
    prints nothing, even with warnings enabled. *)
Theorem load_pyfunc_same_minor_version_is_quiet
    (path : string) (run_id : option string) (suppress_warnings : bool)
    (w : World) (p : string) (m : Model) (conf : gmap string pyval)
    (v : string) :
  located log_dir path run_id = Ok p →
  manifest_at w p m →
  flavors m !! FLAVOR_NAME = Some conf →
  conf !! PY_VERSION = Some (PyString v) →
  get_major_minor_py_version v = get_major_minor_py_version PV →
  stderr (load path run_id suppress_warnings w).2 = stderr w.
Proof.
  intros Hp Hm Hf Hv Hsame.
  rewrite (load_pyfunc_steps PV log_dir Handle import_module
             _ _ _ _ _ _ _ Hp Hm Hf).
  assert (warning_step PV suppress_warnings conf w
          = (Ok tt, with_stderr (stderr w) w)) as Hquiet.
  { unfold warning_step, dict_get,
      _warn_potentially_incompatible_py_version_if_necessary.
    rewrite Hv. simpl. rewrite bool_decide_eq_false_2 by (by intros []).
    destruct w; by destruct suppress_warnings. }
  unfold bind at 1. rewrite Hquiet. unfold bind.
  rewrite search_path_step_with_stderr.
  destruct (search_path_step p conf w) as [[[]|e] w1]; simpl; [|done].
  by rewrite (call_step_world Handle import_module).
Qed.

End loading_errors.

Lemma load_pyfunc_code_directory_missing_witness :
  (load_pyfunc "3.7.1" no_runs string echo_import "lone" None false
     (artifact_world "lone" saved_manifest)).1 =
    Raise (FileNotFoundError "lone/code") ∧
  sys_path (load_pyfunc "3.7.1" no_runs string echo_import "lone" None false
              (artifact_world "lone" saved_manifest)).2 =
    ["/usr/lib/python3"].
Proof.
  apply (load_pyfunc_code_directory_missing "3.7.1" no_runs string echo_import
           "lone" None false (artifact_world "lone" saved_manifest) "lone"
           saved_manifest saved_conf "code");
    try (vm_compute; reflexivity); [discriminate|].
  vm_compute. discriminate.
Defined.

Lemma load_pyfunc_configuration_errors_witness :
  (load_pyfunc "3.7.1" no_runs string echo_import "a" None false
     (artifact_world "a" (manifest_of {[ DATA := PyNone ]}))).1 =
    Raise TypeError ∧
  (load_pyfunc "3.7.1" no_runs string echo_import "a" None false
     (artifact_world "a" (manifest_of {[ DATA := PyString "m.pkl" ]}))).1 =
    Raise (KeyError "loader_module").
Proof.
  split.
  - apply (load_pyfunc_configuration_errors "3.7.1" no_runs string echo_import
             "a" None false
             (artifact_world "a" (manifest_of {[ DATA := PyNone ]})) "a"
             (manifest_of {[ DATA := PyNone ]}) {[ DATA := PyNone ]});
      try (vm_compute; reflexivity).
    intros c Hc. vm_compute in Hc. discriminate Hc.
  - apply (load_pyfunc_configuration_errors "3.7.1" no_runs string echo_import
             "a" None false
             (artifact_world "a" (manifest_of {[ DATA := PyString "m.pkl" ]}))
             "a" (manifest_of {[ DATA := PyString "m.pkl" ]})
             {[ DATA := PyString "m.pkl" ]});
      try (vm_compute; reflexivity).
    + intros c Hc. vm_compute in Hc. discriminate Hc.
    + vm_compute. discriminate.
Defined.

Lemma load_pyfunc_module_errors_witness :
  (load_pyfunc "3.7.1" no_runs string sample_import "a" None false
     (artifact_world "a" (manifest_of {[ MAIN := PyString "nowhere" ]}))).1 =
    Raise (ForeignError "ModuleNotFoundError") ∧
  (load_pyfunc "3.7.1" no_runs string sample_import "a" None false
     (artifact_world "a" (manifest_of {[ MAIN := PyString "empty" ]}))).1 =
    Raise (AttributeError "load_pyfunc").
Proof.
  split.
  - apply (load_pyfunc_module_errors "3.7.1" no_runs string sample_import
             "a" None false
             (artifact_world "a" (manifest_of {[ MAIN := PyString "nowhere" ]}))
             "a" (manifest_of {[ MAIN := PyString "nowhere" ]})
             {[ MAIN := PyString "nowhere" ]} None "nowhere");
      try (vm_compute; reflexivity).
    intros c Hc. vm_compute in Hc. discriminate Hc.
  - apply (load_pyfunc_module_errors "3.7.1" no_runs string sample_import
             "a" None false
             (artifact_world "a" (manifest_of {[ MAIN := PyString "empty" ]}))
             "a" (manifest_of {[ MAIN := PyString "empty" ]})
             {[ MAIN := PyString "empty" ]} None "empty")
      with (module := mkPyModule None);
      try (vm_compute; reflexivity).
    intros c Hc. vm_compute in Hc. discriminate Hc.
Defined.

Lemma load_pyfunc_same_minor_version_is_quiet_witness :
  stderr (load_pyfunc "3.6.9" no_runs string echo_import "out" None false
            saved_world).2 = [].
Proof.
  apply (load_pyfunc_same_minor_version_is_quiet "3.6.9" no_runs string
           echo_import "out" None false saved_world "out" saved_manifest
           saved_conf "3.6.5"); vm_compute; reflexivity.
Defined.

(** ** The emitter and the loader *)

Section emitter_facts.

Context (PV : string) (log_dir : string → string → result string)
  (Handle : Type) (import_module : View → string → result (PyModule Handle)).

Local Abbreviation load := (load_pyfunc PV log_dir Handle import_module).

Lemma _get_code_dirs_world src dst w : (_get_code_dirs src dst w).2 = w.
Proof.
  unfold _get_code_dirs, bind, ret, os_listdir.
  by destruct (stat w src) as [[| |]|].
Qed.

(** Where the listing goes does not change whether it can be made. *)
Lemma _get_code_dirs_raises src dst dst' e w w' :
  _get_code_dirs src dst w = (Raise e, w') →
  _get_code_dirs src dst' w = (Raise e, w).
Proof.
  unfold _get_code_dirs, bind, ret, os_listdir.
  destruct (stat w src) as [[| |]|]; simpl; by intros [= <- <-].
Qed.

Lemma Model_load_inv p w m w' :
  Model_load p w = (Ok m, w') → stat w p = Some (ManifestFile m) ∧ w' = w.
Proof.
  unfold Model_load. destruct (stat w p) as [[| |]|]; by intros [= <- <-].
Qed.

(** X7: [get_module_loader_src] only reads: whatever its outcome, the
    process state (file system, [sys.path], diagnostic stream) is what it
    was. *)
Theorem get_module_loader_src_reads_only
    (src_path dst_path : string) (w : World) :
  (get_module_loader_src src_path dst_path w).2 = w.
Proof.
  unfold get_module_loader_src, bind at 1.
  pose proof (Model_load_world (Path.join src_path "MLmodel") w) as Hw.
  destruct (Model_load (Path.join src_path "MLmodel") w) as [[m|e] w1];
    simpl in Hw; subst w1; [|done].
  destruct (flavors m !! FLAVOR_NAME) as [conf|]; [|done].
  assert (Hcode : ∀ (k : string → Py string),
            (∀ u w1, (k u w1).2 = w1) →
            (bind (match conf !! CODE with
                   | Some c =>
                       if truthy c then
                         let! src_code_path := lift (py_join src_path c) in
                         let! dst_code_path := lift (py_join dst_path c) in
                         let! dirs := _get_code_dirs src_code_path
                                        (Some dst_code_path) in
                         let code_path :=
                           map (λ x, "os.path.abspath('" +:+ x +:+ "')")
                               ([dst_code_path] ++ dirs) in
                         ret ("sys.path = " +:+
                              ("[" +:+ PyStr.join "," code_path +:+ "]") +:+
                              " + sys.path; ")
                       else ret ""
                   | None => ret ""
                   end) k w).2 = w).
  { intros k Hk. unfold bind at 1.
    destruct (conf !! CODE) as [c|]; [|apply Hk].
    destruct (truthy c); [|apply Hk].
    unfold bind at 1, lift at 1.
    destruct (py_join src_path c) as [sc|e]; [|done].
    unfold bind at 1, lift at 1.
    destruct (py_join dst_path c) as [dc|e]; [|done].
    unfold bind at 1.
    pose proof (_get_code_dirs_world sc (Some dc) w) as Hd.
    destruct (_get_code_dirs sc (Some dc) w) as [[dirs|e] w1];
      simpl in Hd; subst w1; [|done].
    apply Hk. }
  apply Hcode. intros u w1. unfold bind, lift, ret.
  destruct (conf !! DATA) as [d|]; [destruct (py_join dst_path d)|]; simpl;
    try done; by destruct (getitem conf MAIN).
Qed.

(** X8: for an artifact without a (non-empty) [code] entry the emitted
    script has no [sys.path] statement: its function body only imports the
    recorded loader module and calls its [load_pyfunc] on the deployment
    path joined with the recorded [data] entry, or on the deployment path
    itself when no data is recorded. *)
Theorem get_module_loader_src_without_code
    (src_path dst_path : string) (w : World) (m : Model)
    (conf : gmap string pyval) (main : pyval) (data : option string) :
  manifest_at w src_path m →
  flavors m !! FLAVOR_NAME = Some conf →
  (∀ c, conf !! CODE = Some c → truthy c = false) →
  conf !! MAIN = Some main →
  conf !! DATA = PyString <$> data →
  get_module_loader_src src_path dst_path w =
    (Ok (loader_template "" (py_str main)
           (match data with
            | Some d => Path.join dst_path d
            | None => dst_path
            end)), w).
Proof.
  intros Hm Hf Hc Hmain Hdata.
  unfold get_module_loader_src, bind at 1.
  rewrite (Model_load_manifest _ _ _ Hm), Hf.
  destruct (conf !! CODE) as [c|] eqn:Ec; [rewrite (Hc c eq_refl)|];
    unfold bind, lift, ret, getitem; rewrite Hdata, Hmain; by destruct data.
Qed.

Lemma load_pyfunc_manifest_unreadable path suppress_warnings w e w1 :
  Model_load (Path.join path "MLmodel") w = (Raise e, w1) →
  (load path None suppress_warnings w).1 = Raise e.
Proof.
  intros Hl. unfold load_pyfunc, bind at 1, lift at 1. simpl.
  unfold bind at 1, _load_model_conf, bind at 1, lift at 1. simpl.
  unfold bind at 1. by rewrite Hl.
Qed.

Lemma load_pyfunc_no_flavor path suppress_warnings w m :
  manifest_at w path m → flavors m !! FLAVOR_NAME = None →
  (load path None suppress_warnings w).1 =
    Raise (Exception ("Format 'python_function' not found not in " +:+
                      Path.join path "MLmodel" +:+ ".")).
Proof.
  intros Hm Hf. unfold load_pyfunc, bind at 1, lift at 1. simpl.
  unfold bind at 1. by rewrite (conf_of_no_flavor log_dir _ _ _ Hm Hf).
Qed.

(** X9: whenever [get_module_loader_src] raises, [load_pyfunc] on the same
    source artifact raises the same exception: a missing or unreadable
    manifest, a missing flavor, a code directory that cannot be listed, a
    null [data] entry and a missing [loader_module] stop both alike. *)
Theorem get_module_loader_src_fails_like_load_pyfunc
    (src_path dst_path : string) (suppress_warnings : bool) (w : World)
    (e : exn) :
  (get_module_loader_src src_path dst_path w).1 = Raise e →
  (load src_path None suppress_warnings w).1 = Raise e.
Proof.
  unfold get_module_loader_src, bind at 1.
  destruct (Model_load (Path.join src_path "MLmodel") w) as [[m|e0] w1] eqn:Hl.
  2:{ simpl. intros [= <-]. by eapply load_pyfunc_manifest_unreadable. }
  apply Model_load_inv in Hl as [Hm ->].
  destruct (flavors m !! FLAVOR_NAME) as [conf|] eqn:Hf.
  2:{ simpl. intros [= <-]. by apply (load_pyfunc_no_flavor _ _ _ m). }
  destruct (load_pyfunc_after_warning PV log_dir Handle import_module
              src_path None suppress_warnings w src_path m conf eq_refl Hm Hf)
    as [out ->].
  intros He. unfold bind at 1. rewrite search_path_step_with_stderr.
  revert He.
  assert (Hcall : ∀ u w1,
    (bind (match conf !! DATA with
           | Some d => lift (py_join dst_path d)
           | None => ret dst_path
           end)
          (λ data_path,
             let! main := lift (getitem conf MAIN) in
             ret (loader_template u (py_str main) data_path)) w).1 = Raise e →
    (call_step Handle import_module src_path conf w1).1 = Raise e).
  { intros u w1. unfold call_step, bind, lift, ret.
    destruct (conf !! DATA) as [[|d]|]; simpl; try done;
      destruct (getitem conf MAIN) as [[|name]|]; simpl; try done;
      by intros [= <-]. }
  unfold search_path_step, bind at 1.
  destruct (conf !! CODE) as [c|]; [|apply Hcall].
  destruct (truthy c) eqn:Et; [|apply Hcall].
  destruct c as [|s]; [done|].
  cbn [bind lift py_join]. unfold bind at 1 4 5 6.
  destruct (_get_code_dirs (Path.join src_path s)
              (Some (Path.join dst_path s)) w) as [[dirs|e1] w1] eqn:Hd.
  - pose proof (_get_code_dirs_world (Path.join src_path s)
                  (Some (Path.join dst_path s)) w) as Hw.
    rewrite Hd in Hw. simpl in Hw. subst w1.
    destruct (_get_code_dirs (Path.join src_path s) None w)
      as [[dirs'|e2] w2] eqn:Hd'.
    + simpl. unfold ret at 1. apply Hcall.
    + apply (_get_code_dirs_raises _ _ (Some (Path.join dst_path s))) in Hd'.
      congruence.
  - rewrite (_get_code_dirs_raises _ _ None _ _ _ Hd). simpl. by intros [= <-].
Qed.

End emitter_facts.

Lemma get_module_loader_src_without_code_witness :
  get_module_loader_src "plain" "/opt/ml/model" plain_world =
    (Ok (loader_template "" "echo" "/opt/ml/model/data/m.pkl"), plain_world).
Proof.
  apply (get_module_loader_src_without_code "plain" "/opt/ml/model"
           plain_world plain_manifest plain_conf (PyString "echo")
           (Some "data/m.pkl")); try (vm_compute; reflexivity).
  intros c Hc. vm_compute in Hc. discriminate Hc.
Defined.

Lemma get_module_loader_src_fails_like_load_pyfunc_witness :
  (load_pyfunc "3.7.1" no_runs string echo_import "lone" None false
     (artifact_world "lone" saved_manifest)).1 =
    Raise (FileNotFoundError "lone/code").
Proof.
  apply (get_module_loader_src_fails_like_load_pyfunc "3.7.1" no_runs string
           echo_import "lone" "/opt/ml/model" false
           (artifact_world "lone" saved_manifest)).
  vm_compute. reflexivity.
Defined.

(** ** What saving touches *)

Lemma only_adds_refl w : only_adds w w.
Proof. by repeat split. Qed.

Lemma only_adds_trans w1 w2 w3 :
  only_adds w1 w2 → only_adds w2 w3 → only_adds w1 w3.
Proof.
  intros (? & ? & ? & ?) (? & ? & ? & ?).
  repeat split; [congruence..|auto].
Qed.

Lemma only_adds_bind {A B} (m : Py A) (k : A → Py B) w :
  only_adds w (m w).2 → (∀ a w1, only_adds w1 (k a w1).2) →
  only_adds w (bind m k w).2.
Proof.
  intros Hm Hk. unfold bind. destruct (m w) as [[a|e] w1]; simpl in *; [|done].
  eapply only_adds_trans; [exact Hm|apply Hk].
Qed.

Lemma only_adds_grows w t :
  grows w (set_fs t w) → only_adds w (set_fs t w).
Proof. intros [? ?]. by repeat split. Qed.

Lemma os_path_isfile_world p w : (os_path_isfile p w).2 = w.
Proof. reflexivity. Qed.

Lemma write_file_only_adds p f w : only_adds w (write_file p f w).2.
Proof.
  pose proof (write_file_grows p f w) as Hg. revert Hg.
  unfold write_file. repeat case_match; simpl; intros Hg;
    try apply only_adds_refl; by apply only_adds_grows.
Qed.

Lemma shutil_copy_only_adds src dst w : only_adds w (shutil_copy src dst w).2.
Proof.
  unfold shutil_copy. repeat case_match; simpl;
    try apply only_adds_refl; apply write_file_only_adds.
Qed.

Lemma os_makedirs_only_adds p w : only_adds w (os_makedirs p w).2.
Proof.
  pose proof (os_makedirs_grows p w) as Hg. revert Hg.
  unfold os_makedirs. case_bool_decide; [intros; apply only_adds_refl|].
  destruct (makedirs_walk p [] (Path.resolve (cwd w) p) (fs w)) as [r t].
  simpl. apply only_adds_grows.
Qed.

Lemma os_mkdir_only_adds p w : only_adds w (os_mkdir p w).2.
Proof.
  unfold os_mkdir, mkdir_at. repeat case_match; simpl;
    try apply only_adds_refl. apply only_adds_grows, grows_insert.
Qed.

Lemma shutil_copytree_only_adds src dst w :
  only_adds w (shutil_copytree src dst w).2.
Proof.
  pose proof (shutil_copytree_grows src dst w) as Hg. revert Hg.
  unfold shutil_copytree.
  destruct (stat w src) as [[| |]|]; try (intros; apply only_adds_refl).
  pose proof (os_makedirs_only_adds dst w) as (Hc & Hp & He & _).
  destruct (os_makedirs dst w) as [[[]|e] w'] eqn:E; simpl in *.
  - intros [Hcwd Hg]. repeat split; simpl; auto.
  - intros [Hcwd Hg]. by repeat split.
Qed.

Lemma _copy_file_or_tree_only_adds src dst dst_dir w :
  only_adds w (_copy_file_or_tree src dst dst_dir w).2.
Proof.
  unfold _copy_file_or_tree.
  apply only_adds_bind; [apply only_adds_refl|]. intros abs w1.
  apply only_adds_bind.
  { destruct (PyStr.truthy dst_dir);
      [apply os_mkdir_only_adds|apply only_adds_refl]. }
  intros _ w2. apply only_adds_bind; [apply only_adds_refl|].
  intros is_file w3. apply only_adds_bind.
  { destruct is_file;
      [apply shutil_copy_only_adds|apply shutil_copytree_only_adds]. }
  intros _ w4. apply only_adds_refl.
Qed.

Lemma for_each_only_adds {A} (xs : list A) (body : A → Py unit) w :
  (∀ x w1, only_adds w1 (body x w1).2) → only_adds w (for_each xs body w).2.
Proof.
  intros Hbody. revert w. induction xs as [|x xs IH]; intros w.
  - apply only_adds_refl.
  - simpl. apply only_adds_bind; [apply Hbody|]. intros _ w1. apply IH.
Qed.

Section saving.

Context (PV : string).

Lemma save_model_only_adds dst_path loader_module data_path code_path
    conda_env model w :
  only_adds w
    (save_model PV dst_path loader_module data_path code_path conda_env
       model w).2.
Proof.
  unfold save_model.
  apply only_adds_bind; [apply only_adds_refl|]. intros present w1.
  destruct present; [apply only_adds_refl|].
  apply only_adds_bind; [apply os_makedirs_only_adds|]. intros _ w2.
  apply only_adds_bind.
  { destruct (given data_path); [|apply only_adds_refl].
    apply only_adds_bind; [apply _copy_file_or_tree_only_adds|].
    intros; apply only_adds_refl. }
  intros data w3. apply only_adds_bind.
  { destruct code_path as [|p ps]; [apply only_adds_refl|].
    apply only_adds_bind; [|intros; apply only_adds_refl].
    apply for_each_only_adds. intros x w4.
    apply only_adds_bind; [apply _copy_file_or_tree_only_adds|].
    intros; apply only_adds_refl. }
  intros code w4. apply only_adds_bind.
  { destruct (given conda_env); [|apply only_adds_refl].
    apply only_adds_bind; [apply shutil_copy_only_adds|].
    intros; apply only_adds_refl. }
  intros env w5. apply only_adds_bind; [apply write_file_only_adds|].
  intros; apply only_adds_refl.
Qed.

(** X10: whatever its arguments and its outcome, [save_model] touches
    nothing but the file system, and there it only adds: the working
    directory, [sys.path] and the diagnostic stream are unchanged, and
    every path that named something before still names something. *)
Theorem save_model_frame
    (dst_path loader_module : string) (data_path : option string)
    (code_path : list string) (conda_env : option string) (model : Model)
    (w : World) :
  cwd (save_model PV dst_path loader_module data_path code_path conda_env
         model w).2 = cwd w ∧
  sys_path (save_model PV dst_path loader_module data_path code_path conda_env
              model w).2 = sys_path w ∧
  stderr (save_model PV dst_path loader_module data_path code_path conda_env
            model w).2 = stderr w ∧
  ∀ p, is_Some (stat w p) →
       is_Some (stat (save_model PV dst_path loader_module data_path
                        code_path conda_env model w).2 p).
Proof.
  destruct (save_model_only_adds dst_path loader_module data_path code_path
              conda_env model w) as (Hcwd & Hpath & Herr & Hfs).
  repeat split; try done.
  intros p. unfold stat. rewrite Hcwd. case_bool_decide; [done|]. apply Hfs.
Qed.

End saving.

(** ** Saving, then reading back *)

Lemma write_file_stat p f w w' :
  write_file p f w = (Ok tt, w') → stat w' p = Some f ∧ cwd w' = cwd w.
Proof.
  unfold write_file, stat. case_bool_decide; [done|].
  destruct (Path.resolve (cwd w) p) as [|c k] eqn:Ek; [done|].
  intros Hw.
  assert (w' = set_fs (<[c :: k := f]> (fs w)) w) as ->
    by (by repeat case_match; simplify_eq).
  simpl. rewrite Ek. simpl. by rewrite lookup_insert_eq.
Qed.

Lemma makedirs_walk_creates p rest pre t t' :
  makedirs_walk p pre rest t = (Ok tt, t') → is_Some (t' !! (pre ++ rest)).
Proof.
  revert pre t. induction rest as [|c rest IH]; intros pre t; [done|].
  simpl. destruct rest as [|c' rest].
  - destruct (t !! (pre ++ [c])); [done|]. intros [= <-].
    rewrite lookup_insert_eq. eauto.
  - replace (pre ++ c :: c' :: rest) with ((pre ++ [c]) ++ c' :: rest)
      by (by rewrite <- app_assoc).
    destruct (t !! (pre ++ [c])) as [[| |]|]; try done; apply IH.
Qed.

Lemma os_makedirs_creates p w w1 :
  os_makedirs p w = (Ok tt, w1) → is_Some (stat w1 p).
Proof.
  unfold os_makedirs, stat. case_bool_decide; [done|].
  destruct (makedirs_walk p [] (Path.resolve (cwd w) p) (fs w))
    as [r t] eqn:E.
  intros [= -> <-]. simpl.
  apply makedirs_walk_creates in E. simpl in E.
  by destruct (Path.resolve (cwd w) p).
Qed.

Lemma only_adds_stat w w' p :
  only_adds w w' → is_Some (stat w p) → is_Some (stat w' p).
Proof.
  intros (Hcwd & _ & _ & Hfs). unfold stat. rewrite Hcwd.
  case_bool_decide; [done|]. apply Hfs.
Qed.

Lemma _copy_file_or_tree_name src dst dst_dir w name w' :
  _copy_file_or_tree src dst dst_dir w = (Ok name, w') →
  name = Path.join dst_dir (Path.basename (Path.abspath (cwd w) src)).
Proof.
  unfold _copy_file_or_tree, bind, os_path_abspath, os_path_isfile, ret.
  intros H. repeat case_match; by simplify_eq.
Qed.

Section saving_round_trip.

Context (PV : string).

Lemma save_model_unfold dst_path loader_module data_path code_path conda_env
    model w :
  save_model PV dst_path loader_module data_path code_path conda_env model w =
    if bool_decide (is_Some (stat w dst_path))
    then (Raise (Exception ("Path '" +:+ dst_path +:+ "' already exists")), w)
    else (do! os_makedirs dst_path in
          packaging_steps PV dst_path loader_module data_path code_path
            conda_env model) w.
Proof.
  unfold save_model, bind at 1, os_path_exists. by case_bool_decide.
Qed.

Lemma packaging_steps_only_adds dst_path loader_module data_path code_path
    conda_env model w :
  only_adds w
    (packaging_steps PV dst_path loader_module data_path code_path conda_env
       model w).2.
Proof.
  unfold packaging_steps.
  apply only_adds_bind.
  { destruct (given data_path); [|apply only_adds_refl].
    apply only_adds_bind; [apply _copy_file_or_tree_only_adds|].
    intros; apply only_adds_refl. }
  intros data w3. apply only_adds_bind.
  { destruct code_path as [|p ps]; [apply only_adds_refl|].
    apply only_adds_bind; [|intros; apply only_adds_refl].
    apply for_each_only_adds. intros x w4.
    apply only_adds_bind; [apply _copy_file_or_tree_only_adds|].
    intros; apply only_adds_refl. }
  intros code w4. apply only_adds_bind.
  { destruct (given conda_env); [|apply only_adds_refl].
    apply only_adds_bind; [apply shutil_copy_only_adds|].
    intros; apply only_adds_refl. }
  intros env w5. apply only_adds_bind; [apply write_file_only_adds|].
  intros; apply only_adds_refl.
Qed.

(** What a successful run of the packaging steps did. *)
Lemma packaging_steps_inv dst_path loader_module data_path code_path
    conda_env model w model' w' :
  packaging_steps PV dst_path loader_module data_path code_path conda_env
    model w = (Ok model', w') →
  stat w' (Path.join dst_path "MLmodel") = Some (ManifestFile model') ∧
  model' =
    add_to_model PV model loader_module
      (if given data_path
       then Some (Path.join "data"
                    (Path.basename
                       (Path.abspath (cwd w) (default "" data_path))))
       else None)
      (match code_path with [] => None | _ => Some "code" end)
      (if given conda_env then Some "mlflow_env.yml" else None).
Proof.
  unfold packaging_steps, bind at 1.
  destruct ((if given data_path
             then let! model_file :=
                    _copy_file_or_tree (default "" data_path) dst_path "data" in
                  ret (Some model_file)
             else ret None) w) as [[data|e] w1] eqn:Edata; [|done].
  assert (data = (if given data_path
                  then Some (Path.join "data"
                               (Path.basename
                                  (Path.abspath (cwd w) (default "" data_path))))
                  else None)) as Hdata.
  { destruct (given data_path); [|by injection Edata as <-].
    unfold bind, ret in Edata.
    destruct (_copy_file_or_tree (default "" data_path) dst_path "data" w)
      as [[name|e] w0] eqn:Ecopy; [|done].
    apply _copy_file_or_tree_name in Ecopy. by simplify_eq. }
  unfold bind at 1.
  destruct ((match code_path with
             | [] => ret None
             | _ =>
                 do! for_each code_path
                       (λ path,
                          let! _ := _copy_file_or_tree path dst_path "code" in
                          ret tt) in
                 ret (Some "code")
             end) w1) as [[code|e] w2] eqn:Ecode; [|done].
  assert (code = match code_path with [] => None | _ => Some "code" end)
    as Hcode.
  { destruct code_path; [by injection Ecode as <-|].
    unfold bind at 1, ret in Ecode. by repeat case_match; simplify_eq. }
  unfold bind at 1.
  destruct ((if given conda_env
             then do! shutil_copy (default "" conda_env)
                        (Path.join dst_path "mlflow_env.yml") in
                  ret (Some "mlflow_env.yml")
             else ret None) w2) as [[env|e] w3] eqn:Eenv; [|done].
  assert (env = if given conda_env then Some "mlflow_env.yml" else None)
    as Henv.
  { destruct (given conda_env); [|by injection Eenv as <-].
    unfold bind, ret in Eenv. by repeat case_match; simplify_eq. }
  unfold bind, Model_save, ret.
  destruct (write_file (Path.join dst_path "MLmodel")
              (ManifestFile
                 (add_to_model PV model loader_module data code env)) w3)
    as [[[]|e] w4] eqn:Ewrite; [|done].
  intros [= <- <-]. apply write_file_stat in Ewrite as [Hstat _].
  split; [done|]. by rewrite Hdata, Hcode, Henv.
Qed.

(** What a successful [save_model] did. *)
Lemma save_model_inv dst_path loader_module data_path code_path conda_env
    model w model' w' :
  save_model PV dst_path loader_module data_path code_path conda_env model w
    = (Ok model', w') →
  stat w dst_path = None ∧
  is_Some (stat w' dst_path) ∧
  stat w' (Path.join dst_path "MLmodel") = Some (ManifestFile model') ∧
  model' =
    add_to_model PV model loader_module
      (if given data_path
       then Some (Path.join "data"
                    (Path.basename
                       (Path.abspath (cwd w) (default "" data_path))))
       else None)
      (match code_path with [] => None | _ => Some "code" end)
      (if given conda_env then Some "mlflow_env.yml" else None).
Proof.
  rewrite save_model_unfold. case_bool_decide as Hex; [done|].
  unfold bind at 1.
  pose proof (os_makedirs_only_adds dst_path w) as Hmk.
  destruct (os_makedirs dst_path w) as [[[]|e] w1] eqn:Emk; [|done].
  simpl in Hmk. intros Hsteps.
  pose proof (packaging_steps_only_adds dst_path loader_module data_path
                code_path conda_env model w1) as Hadds.
  rewrite Hsteps in Hadds. simpl in Hadds.
  apply packaging_steps_inv in Hsteps as [Hstat Hmodel].
  destruct Hmk as (Hcwd & _). rewrite Hcwd in Hmodel.
  split; [by destruct (stat w dst_path); [destruct Hex; eauto|]|].
  split; [|done].
  eapply only_adds_stat; [exact Hadds|]. by eapply os_makedirs_creates.
Qed.

End saving_round_trip.

Lemma append_empty_l s t : s +:+ t = "" → s = "".
Proof. by destruct s. Qed.

Lemma join_nonempty_l a b : a ≠ "" → Path.join a b ≠ "".
Proof.
  intros Ha. unfold Path.join.
  destruct (PyStr.startswith b "/") eqn:Eb; [by destruct b|].
  destruct (bool_decide (a = "") || PyStr.endswith a "/");
    by intros ?%append_empty_l.
Qed.

Section round_trip.

Context (PV PV' : string) (log_dir : string → string → result string)
  (Handle : Type) (import_module : View → string → result (PyModule Handle)).

(** The configuration a successful [save_model] leaves in the manifest at
    the destination. *)
Lemma save_model_conf dst_path loader_module data_path code_path conda_env
    model w model' w' :
  save_model PV dst_path loader_module data_path code_path conda_env model w
    = (Ok model', w') →
  ∃ conf,
    manifest_at w' dst_path model' ∧
    flavors model' !! FLAVOR_NAME = Some conf ∧
    conf !! MAIN = Some (PyString loader_module) ∧
    conf !! PY_VERSION = Some (PyString PV) ∧
    conf !! DATA =
      (if given data_path
       then Some (PyString
                    (Path.join "data"
                       (Path.basename
                          (Path.abspath (cwd w) (default "" data_path)))))
       else None) ∧
    conf !! CODE =
      (match code_path with [] => None | _ => Some (PyString "code") end) ∧
    conf !! ENV =
      (if given conda_env then Some (PyString "mlflow_env.yml") else None).
Proof.
  intros (_ & _ & Hstat & ->)%save_model_inv.
  destruct (add_to_model_lookups PV model loader_module
    (if given data_path
     then Some (Path.join "data"
                  (Path.basename (Path.abspath (cwd w) (default "" data_path))))
     else None)
    (match code_path with [] => None | _ => Some "code" end)
    (if given conda_env then Some "mlflow_env.yml" else None))
    as (conf & Hconf & Hmain & Hver & Hcode & Hdata & Henv & _).
  exists conf. repeat split; try done.
  - rewrite Hdata. destruct (given data_path); [|done]. simpl.
    by rewrite (truthy_nonempty _ (join_nonempty_l "data" _ ltac:(done))).
  - rewrite Hcode. by destruct code_path.
  - rewrite Henv. by destruct (given conda_env).
Qed.

(** X11: after a successful [save_model], [_load_model_conf] on the
    destination returns the flavor configuration of the returned manifest:
    the loader module and the interpreter version given to the save, [data]
    as [data/] followed by the base name of the data path, [code] as
    [code] exactly when code paths were given, [env] as [mlflow_env.yml]
    exactly when an environment file was given. *)
Theorem save_model_then_load_model_conf
    (dst_path loader_module : string) (data_path : option string)
    (code_path : list string) (conda_env : option string)
    (model model' : Model) (w w' : World) :
  save_model PV dst_path loader_module data_path code_path conda_env model w
    = (Ok model', w') →
  ∃ conf,
    _load_model_conf log_dir dst_path None w' = (Ok conf, w') ∧
    flavors model' !! FLAVOR_NAME = Some conf ∧
    conf !! MAIN = Some (PyString loader_module) ∧
    conf !! PY_VERSION = Some (PyString PV) ∧
    conf !! DATA =
      (if given data_path
       then Some (PyString
                    (Path.join "data"
                       (Path.basename
                          (Path.abspath (cwd w) (default "" data_path)))))
       else None) ∧
    conf !! CODE =
      (match code_path with [] => None | _ => Some (PyString "code") end) ∧
    conf !! ENV =
      (if given conda_env then Some (PyString "mlflow_env.yml") else None).
Proof.
  intros (conf & Hm & Hf & Hrest)%save_model_conf.
  exists conf. split; [|by split].
  by apply (conf_of_flavor log_dir w' dst_path model' conf).
Qed.

(** X12: after a successful [save_model], [_load_model_env] on the
    destination returns [mlflow_env.yml] when an environment file was
    given, and [None] when none was. *)
Theorem save_model_then_load_model_env
    (dst_path loader_module : string) (data_path : option string)
    (code_path : list string) (conda_env : option string)
    (model model' : Model) (w w' : World) :
  save_model PV dst_path loader_module data_path code_path conda_env model w
    = (Ok model', w') →
  _load_model_env log_dir dst_path None w' =
    (Ok (if given conda_env then PyString "mlflow_env.yml" else PyNone), w').
Proof.
  intros (conf & Hm & Hf & _ & _ & _ & _ & Henv)%save_model_conf.
  unfold _load_model_env, bind.
  rewrite (conf_of_flavor log_dir w' dst_path model' conf Hm Hf).
  unfold ret, dict_get. rewrite Henv. by destruct (given conda_env).
Qed.

(** X13: loading what [save_model] saved without code paths calls the
    [load_pyfunc] of the loader module given to the save, on the copy of
    the data inside the artifact ([data/] and the base name of the data
    path, under the destination), or on the destination itself when no
    data path was given; [sys.path] is untouched. *)
Theorem save_model_then_load_pyfunc
    (dst_path loader_module : string) (data_path : option string)
    (conda_env : option string) (model model' : Model) (w w' : World)
    (suppress_warnings : bool) (module : PyModule Handle)
    (loader : string → View → result Handle) :
  save_model PV dst_path loader_module data_path [] conda_env model w
    = (Ok model', w') →
  import_module (view w') loader_module = Ok module →
  mod_load_pyfunc module = Some loader →
  (load_pyfunc PV' log_dir Handle import_module dst_path None
     suppress_warnings w').1 =
    loader (if given data_path
            then Path.join dst_path
                   (Path.join "data"
                      (Path.basename
                         (Path.abspath (cwd w) (default "" data_path))))
            else dst_path)
           (view w') ∧
  sys_path (load_pyfunc PV' log_dir Handle import_module dst_path None
              suppress_warnings w').2 = sys_path w'.
Proof.
  intros (conf & Hm & Hf & Hmain & _ & Hdata & Hcode & _)%save_model_conf
    Himport Hloader.
  destruct (load_pyfunc_after_warning PV' log_dir Handle import_module
              dst_path None suppress_warnings w' dst_path model' conf
              eq_refl Hm Hf) as [out ->].
  unfold bind, search_path_step. rewrite Hcode. simpl.
  rewrite (call_step_world Handle import_module). split; [|done].
  unfold call_step, bind, lift, ret, getitem. rewrite Hdata, Hmain.
  destruct (given data_path); simpl;
    change (view (with_stderr out w')) with (view w');
    by rewrite Himport, Hloader.
Qed.

(** X14: the artifact is write-once: after a successful [save_model],
    saving to the same destination again, whatever the arguments, raises
    the "already exists" exception and changes nothing. *)
Theorem save_model_twice
    (dst_path loader_module : string) (data_path : option string)
    (code_path : list string) (conda_env : option string)
    (model model' : Model) (w w' : World)
    (loader_module2 : string) (data_path2 : option string)
    (code_path2 : list string) (conda_env2 : option string)
    (model2 : Model) :
  save_model PV dst_path loader_module data_path code_path conda_env model w
    = (Ok model', w') →
  save_model PV' dst_path loader_module2 data_path2 code_path2 conda_env2
    model2 w' =
    (Raise (Exception ("Path '" +:+ dst_path +:+ "' already exists")), w').
Proof.
  intros (_ & Hex & _)%save_model_inv.
  rewrite save_model_unfold. by rewrite bool_decide_eq_true_2.
Qed.

(** X15: nothing is rolled back: once [os.makedirs] has created the
    destination, the destination is still there when [save_model] is
    over, whether it returned or raised (for a data path that does not
    exist, say), so that saving to that destination again raises the
    "already exists" exception. *)
Theorem save_model_leaves_destination
    (dst_path loader_module : string) (data_path : option string)
    (code_path : list string) (conda_env : option string)
    (model : Model) (w w1 : World)
    (loader_module2 : string) (data_path2 : option string)
    (code_path2 : list string) (conda_env2 : option string)
    (model2 : Model) :
  stat w dst_path = None →
  os_makedirs dst_path w = (Ok tt, w1) →
  is_Some (stat (save_model PV dst_path loader_module data_path code_path
                   conda_env model w).2 dst_path) ∧
  save_model PV' dst_path loader_module2 data_path2 code_path2 conda_env2
    model2
    (save_model PV dst_path loader_module data_path code_path conda_env
       model w).2 =
    (Raise (Exception ("Path '" +:+ dst_path +:+ "' already exists")),
     (save_model PV dst_path loader_module data_path code_path conda_env
        model w).2).
Proof.
  intros Hfree Hmk.
  assert (is_Some (stat (save_model PV dst_path loader_module data_path
                           code_path conda_env model w).2 dst_path)) as Hex.
  { rewrite save_model_unfold, Hfree.
    rewrite bool_decide_eq_false_2 by (by intros [? ?]).
    unfold bind. rewrite Hmk.
    eapply only_adds_stat; [apply packaging_steps_only_adds|].
    by eapply os_makedirs_creates. }
  split; [done|].
  rewrite (save_model_unfold PV'). by rewrite bool_decide_eq_true_2.
Qed.

End round_trip.

Lemma save_model_then_load_model_conf_witness :
  ∃ conf,
    _load_model_conf no_runs "out" None saved_world = (Ok conf, saved_world) ∧
    flavors saved_manifest !! FLAVOR_NAME = Some conf ∧
    conf !! MAIN = Some (PyString "echo") ∧
    conf !! PY_VERSION = Some (PyString "3.6.5") ∧
    conf !! DATA = Some (PyString "data/m.pkl") ∧
    conf !! CODE = Some (PyString "code") ∧
    conf !! ENV = None.
Proof.
  apply (save_model_then_load_model_conf "3.6.5" no_runs "out" "echo"
           (Some "m.pkl") ["lib"] None Model_new saved_manifest sample_world
           saved_world).
  vm_compute. reflexivity.
Defined.

Lemma save_model_then_load_model_env_witness :
  _load_model_env no_runs "envd" None
    (save_model "3.6.5" "envd" "echo" None [] (Some "a.py") Model_new
       sample_world).2 =
    (Ok (PyString "mlflow_env.yml"),
     (save_model "3.6.5" "envd" "echo" None [] (Some "a.py") Model_new
        sample_world).2).
Proof.
  apply (save_model_then_load_model_env "3.6.5" no_runs "envd" "echo"
           None [] (Some "a.py") Model_new
           (add_to_model "3.6.5" Model_new "echo" None None
              (Some "mlflow_env.yml"))
           sample_world).
  vm_compute. reflexivity.
Defined.

Lemma save_model_then_load_pyfunc_witness :
  (load_pyfunc "3.7.1" no_runs string echo_import "plain" None false
     plain_world).1 = Ok "plain/data/m.pkl" ∧
  sys_path (load_pyfunc "3.7.1" no_runs string echo_import "plain" None false
              plain_world).2 = ["/usr/lib/python3"].
Proof.
  apply (save_model_then_load_pyfunc "3.6.5" "3.7.1" no_runs string
           echo_import "plain" "echo" (Some "m.pkl") None Model_new
           plain_manifest sample_world plain_world false
           (mkPyModule (Some (λ data_path _, Ok data_path)))
           (λ data_path _, Ok data_path));
    vm_compute; reflexivity.
Defined.

Lemma save_model_twice_witness :
  save_model "3.7.1" "out" "other" None [] None Model_new saved_world =
    (Raise (Exception "Path 'out' already exists"), saved_world).
Proof.
  apply (save_model_twice "3.6.5" "3.7.1" "out" "echo" (Some "m.pkl") ["lib"]
           None Model_new saved_manifest sample_world saved_world
           "other" None [] None Model_new).
  vm_compute. reflexivity.
Defined.

Lemma save_model_leaves_destination_witness :
  (save_model "3.6.5" "out" "echo" (Some "missing.pkl") [] None Model_new
     sample_world).1 = Raise (FileNotFoundError "missing.pkl") ∧
  is_Some (stat (save_model "3.6.5" "out" "echo" (Some "missing.pkl") [] None
                   Model_new sample_world).2 "out") ∧
  save_model "3.6.5" "out" "echo" (Some "m.pkl") [] None Model_new
    (save_model "3.6.5" "out" "echo" (Some "missing.pkl") [] None Model_new
       sample_world).2 =
    (Raise (Exception "Path 'out' already exists"),
     (save_model "3.6.5" "out" "echo" (Some "missing.pkl") [] None Model_new
        sample_world).2).
Proof.
  split; [vm_compute; reflexivity|].
  apply (save_model_leaves_destination "3.6.5" "3.6.5" "out" "echo"
           (Some "missing.pkl") [] None Model_new sample_world
           (os_makedirs "out" sample_world).2
           "echo" (Some "m.pkl") [] None Model_new);
    vm_compute; reflexivity.
Defined.

(** ** Path components *)

Lemma split_nonempty sep s : PyStr.split sep s ≠ [].
Proof.
  destruct s as [|c s]; simpl; [done|].
  case_bool_decide; [done|]. by destruct (PyStr.split sep s).
Qed.

Lemma split_append sep a b :
  PyStr.split sep (a +:+ String sep b) = PyStr.split sep a ++ PyStr.split sep b.
Proof.
  induction a as [|c a IH].
  - change ("" +:+ String sep b) with (String sep b). simpl.
    by rewrite bool_decide_eq_true_2.
  - rewrite append_cons. simpl. case_bool_decide; [by rewrite IH|].
    rewrite IH. pose proof (split_nonempty sep a).
    by destruct (PyStr.split sep a).
Qed.

Lemma split_slash_free s : Forall slash_free (PyStr.split "/" s).
Proof.
  induction s as [|c s IH]; simpl.
  - by repeat constructor.
  - case_bool_decide as Hc.
    + constructor; [done|exact IH].
    + pose proof (split_nonempty "/" s).
      destruct (PyStr.split "/" s) as [|w ws]; [done|].
      apply Forall_cons in IH as [Hw Hws]. constructor; [|done].
      unfold slash_free in *. simpl. rewrite bool_decide_eq_false_2 by done.
      by rewrite Hw.
Qed.

Lemma walk_app base l1 l2 :
  Path.walk base (l1 ++ l2) = Path.walk (Path.walk base l1) l2.
Proof.
  revert base. induction l1 as [|c l1 IH]; intros base; simpl; [done|].
  by repeat case_match.
Qed.

Lemma startswith_empty s : PyStr.startswith s "" = true.
Proof. by destruct s. Qed.

Lemma startswith_append_slash a b :
  a ≠ "" → PyStr.startswith (a +:+ b) "/" = PyStr.startswith a "/".
Proof.
  destruct a as [|c a]; [done|]. intros _. rewrite append_cons. simpl.
  by rewrite !startswith_empty.
Qed.

Lemma resolve_append_slash cwd a b :
  a ≠ "" →
  Path.resolve cwd (a +:+ String "/" b) =
    Path.walk (Path.resolve cwd a) (PyStr.split "/" b).
Proof.
  intros Ha. unfold Path.resolve.
  rewrite (startswith_append_slash a _ Ha), split_append.
  destruct (PyStr.startswith a "/"); apply walk_app.
Qed.

Lemma walk_empty_component base : Path.walk base [""] = base.
Proof. reflexivity. Qed.

Lemma resolve_join cwd a b :
  PyStr.startswith b "/" = false →
  Path.resolve cwd (Path.join a b) =
    Path.walk (Path.resolve cwd a) (PyStr.split "/" b).
Proof.
  intros Hb. unfold Path.join. rewrite Hb.
  destruct (bool_decide (a = "")) eqn:Ea; simpl.
  - apply bool_decide_eq_true in Ea as ->.
    change ("" +:+ b) with b. unfold Path.resolve. by rewrite Hb.
  - apply bool_decide_eq_false in Ea.
    destruct (PyStr.endswith a "/") eqn:Es.
    + apply endswith_has_suffix in Es as [a' ->].
      destruct (decide (a' = "")) as [->|Ha'].
      * change ("" +:+ "/") with "/". change ("/" +:+ b) with (String "/" b).
        unfold Path.resolve. simpl. rewrite startswith_empty. reflexivity.
      * replace ((a' +:+ "/") +:+ b) with (a' +:+ String "/" b).
        2:{ clear. induction a' as [|c a' IH]; [done|].
            rewrite !append_cons. by f_equal. }
        by rewrite !(resolve_append_slash _ _ _ Ha').
    + change (a +:+ "/" +:+ b) with (a +:+ String "/" b).
      by apply resolve_append_slash.
Qed.

Lemma slash_free_startswith c : slash_free c → PyStr.startswith c "/" = false.
Proof.
  unfold slash_free. destruct c as [|a c]; [done|]. simpl.
  case_bool_decide as Ha; [|by rewrite bool_decide_eq_false_2 by done].
  done.
Qed.

Lemma Forall_removelast {A} (P : A → Prop) (l : list A) :
  Forall P l → Forall P (removelast l).
Proof.
  induction 1 as [|x l Hx Hl IH]; simpl; [done|].
  destruct l; [done|]. by constructor.
Qed.

Lemma walk_plain base comps :
  Forall plain base → Forall slash_free comps →
  Forall plain (Path.walk base comps).
Proof.
  intros Hb Hc. revert base Hb.
  induction Hc as [|c comps Hc _ IH]; intros base Hb; simpl; [done|].
  destruct (bool_decide (c = "") || bool_decide (c = ".")) eqn:E1; [by apply IH|].
  apply orb_false_iff in E1 as [E1 E2].
  apply bool_decide_eq_false in E1, E2.
  case_bool_decide as E3.
  - by apply IH, Forall_removelast.
  - apply IH, Forall_app. split; [done|]. by repeat constructor.
Qed.

Lemma resolve_plain cwd p : Forall plain cwd → Forall plain (Path.resolve cwd p).
Proof.
  intros Hcwd. unfold Path.resolve.
  destruct (PyStr.startswith p "/"); apply walk_plain;
    auto using split_slash_free.
Qed.

Lemma join_cons_slash w ws :
  ws ≠ [] → PyStr.join "/" (w :: ws) = w +:+ String "/" (PyStr.join "/" ws).
Proof. by destruct ws. Qed.

Lemma split_join k :
  Forall slash_free k → k ≠ [] → PyStr.split "/" (PyStr.join "/" k) = k.
Proof.
  induction 1 as [|w ws Hw Hws IH]; [done|]. intros _.
  destruct (decide (ws = [])) as [->|Hne]; [exact Hw|].
  rewrite (join_cons_slash _ _ Hne), split_append, Hw, (IH Hne). done.
Qed.

Lemma basename_render k :
  Forall slash_free k → Path.basename (Path.render k) = List.last k "".
Proof.
  intros Hk. unfold Path.basename, Path.render.
  change ("/" +:+ PyStr.join "/" k) with (String "/" (PyStr.join "/" k)).
  simpl PyStr.split. 
  destruct k as [|c k]; [done|].
  rewrite split_join by done. done.
Qed.

Lemma plain_slash_free c : plain c → slash_free c.
Proof. by intros [? _]. Qed.

Lemma last_plain k : Forall plain k → List.last k "" = "" ∨ plain (List.last k "").
Proof.
  induction 1 as [|c k Hc Hk IH]; [by left|].
  destruct k as [|c' k]; [by right|]. exact IH.
Qed.

(** The base name [_copy_file_or_tree] computes is a proper name, or empty
    when the source is the root. *)
Lemma basename_abspath cwd src :
  Forall plain cwd →
  Path.basename (Path.abspath cwd src) = "" ∨
  plain (Path.basename (Path.abspath cwd src)).
Proof.
  intros Hcwd. unfold Path.abspath.
  pose proof (resolve_plain cwd src Hcwd) as Hk.
  rewrite basename_render by (eapply Forall_impl; [exact Hk|apply plain_slash_free]).
  by apply last_plain.
Qed.

Lemma basename_slash_free p : slash_free (Path.basename p).
Proof.
  unfold Path.basename. pose proof (split_slash_free p) as H.
  pose proof (split_nonempty "/" p) as Hne.
  induction H as [|c k Hc Hk IH]; [done|].
  destruct k as [|c' k]; [exact Hc|]. by apply IH.
Qed.

Lemma walk_one base c :
  slash_free c →
  Path.walk base [c] = base ++ [c] ∨ Path.walk base [c] = base ∨
  Path.walk base [c] = removelast base.
Proof. intros _. simpl. repeat case_match; auto. Qed.

Lemma walk_one_plain base c : plain c → Path.walk base [c] = base ++ [c].
Proof.
  intros (_ & H1 & H2 & H3). simpl.
  by rewrite !bool_decide_eq_false_2 by done.
Qed.

(** ** Which nodes a call can change *)

Lemma touches_only_refl S w : touches_only S w w.
Proof. by split. Qed.

Lemma touches_only_trans S w1 w2 w3 :
  touches_only S w1 w2 → touches_only S w2 w3 → touches_only S w1 w3.
Proof. intros [? H1] [? H2]. split; [congruence|]. eauto. Qed.

Lemma touches_only_weaken (S S' : list string → Prop) w w' :
  (∀ k, S k → S' k) → touches_only S w w' → touches_only S' w w'.
Proof. intros HS [? H]. split; [done|]. intros k n Hk. apply H. auto. Qed.

Lemma touches_only_bind {A B} S (m : Py A) (k : A → Py B) w :
  touches_only S w (m w).2 →
  (∀ a w1, m w = (Ok a, w1) → cwd w1 = cwd w →
           touches_only S w1 (k a w1).2) →
  touches_only S w (bind m k w).2.
Proof.
  intros Hm Hk. unfold bind. destruct (m w) as [[a|e] w1]; simpl in *; [|done].
  eapply touches_only_trans; [exact Hm|]. apply Hk; [done|]. by destruct Hm.
Qed.

Lemma node_at_insert_absent t k' x k n :
  node_at t k' = None → node_at t k = Some n →
  node_at (<[k' := x]> t) k = Some n.
Proof.
  intros Hk' Hk. destruct k as [|c k]; [done|]. simpl in *.
  rewrite lookup_insert_ne; [done|]. intros ->. simpl in *. congruence.
Qed.

Lemma node_at_insert_other t k' x k :
  k ≠ k' → node_at (<[k' := x]> t) k = node_at t k.
Proof.
  intros Hne. destruct k as [|c k]; [done|]. simpl. by rewrite lookup_insert_ne.
Qed.

Lemma os_mkdir_touches S p w : touches_only S w (os_mkdir p w).2.
Proof.
  unfold os_mkdir, mkdir_at. case_bool_decide; [apply touches_only_refl|].
  destruct (node_at (fs w) (Path.resolve (cwd w) p)) eqn:E;
    [apply touches_only_refl|].
  destruct (node_at (fs w) (removelast (Path.resolve (cwd w) p)))
    as [[| |]|]; try apply touches_only_refl.
  split; [done|]. intros k n _. simpl. by apply node_at_insert_absent.
Qed.

Lemma makedirs_walk_keeps p rest pre t k n :
  node_at t k = Some n → node_at (makedirs_walk p pre rest t).2 k = Some n.
Proof.
  revert pre t. induction rest as [|c rest IH]; intros pre t Hk; [done|].
  simpl. destruct rest as [|c' rest].
  - destruct (t !! (pre ++ [c])) eqn:E; simpl; [done|].
    apply node_at_insert_absent; [|done]. by destruct pre.
  - destruct (t !! (pre ++ [c])) as [[| |]|] eqn:E; simpl; try done.
    + by apply IH.
    + apply IH. apply node_at_insert_absent; [|done]. by destruct pre.
Qed.

Lemma os_makedirs_touches S p w : touches_only S w (os_makedirs p w).2.
Proof.
  unfold os_makedirs. case_bool_decide; [apply touches_only_refl|].
  destruct (makedirs_walk p [] (Path.resolve (cwd w) p) (fs w)) as [r t] eqn:E.
  split; [done|]. intros k n _ Hk. simpl.
  change t with (r, t).2. rewrite <- E. by apply makedirs_walk_keeps.
Qed.

Lemma write_file_touches p f w :
  touches_only (λ k, k = Path.resolve (cwd w) p) w (write_file p f w).2.
Proof.
  unfold write_file. case_bool_decide; [apply touches_only_refl|].
  destruct (node_at (fs w) (Path.resolve (cwd w) p)) as [[| |]|];
    try apply touches_only_refl;
    (destruct (node_at (fs w) (removelast (Path.resolve (cwd w) p)))
       as [[| |]|]; try apply touches_only_refl);
    (split; [done|]; intros k n Hk; simpl; by rewrite node_at_insert_other).
Qed.

Lemma shutil_copy_touches src dst w :
  touches_only
    (λ k, k = Path.resolve (cwd w) dst ∨
          k = Path.resolve (cwd w) (Path.join dst (Path.basename src)))
    w (shutil_copy src dst w).2.
Proof.
  unfold shutil_copy.
  destruct (stat w src) as [[| |]|]; try apply touches_only_refl;
    (case_bool_decide; [apply touches_only_refl|]);
    (eapply touches_only_weaken; [|apply write_file_touches]);
    intros k ->; by case_match; auto; case_match; auto.
Qed.

Lemma graft_lookup_outside t src dst k :
  ¬ dst `prefix_of` k → graft t src dst !! k = None.
Proof.
  intros Hk. unfold graft. apply not_elem_of_list_to_map_1.
  intros (kn & -> & Hin)%list_elem_of_fmap.
  apply list_elem_of_omap in Hin as (kn' & _ & Hf).
  case_bool_decide; [|done]. simplify_eq. simpl in Hk.
  apply Hk. by eexists.
Qed.

Lemma shutil_copytree_touches src dst w :
  touches_only (λ k, Path.resolve (cwd w) dst `prefix_of` k)
    w (shutil_copytree src dst w).2.
Proof.
  unfold shutil_copytree.
  destruct (stat w src) as [[| |]|]; try apply touches_only_refl.
  pose proof (os_makedirs_touches (λ _, False) dst w) as [Hcwd Hkeep].
  destruct (os_makedirs dst w) as [[[]|e] w'] eqn:E; simpl in *;
    [|split; [done|]; intros k n _ Hn; apply Hkeep; [tauto|done]].
  split; [done|]. intros k n Hk Hn. simpl.
  specialize (Hkeep k n (λ x, x) Hn).
  destruct k as [|c k]; [done|]. simpl in *.
  rewrite lookup_union_r; [done|]. by apply graft_lookup_outside.
Qed.

Lemma plain_not_endswith_slash c : slash_free c → PyStr.endswith c "/" = false.
Proof.
  intros Hc. destruct (PyStr.endswith c "/") eqn:E; [|done].
  apply endswith_has_suffix in E as [pre ->].
  unfold slash_free in Hc.
  change (pre +:+ "/") with (pre +:+ String "/" "") in Hc.
  rewrite split_append in Hc. simpl in Hc.
  pose proof (split_nonempty "/" pre).
  apply (f_equal length) in Hc. rewrite length_app in Hc. simpl in Hc.
  destruct (PyStr.split "/" pre); [done|]. simpl in Hc. lia.
Qed.

Lemma join_plain dd base :
  plain dd → slash_free base → Path.join dd base = dd +:+ String "/" base.
Proof.
  intros (Hd & Hne & _) Hb. unfold Path.join.
  rewrite (slash_free_startswith _ Hb), (plain_not_endswith_slash _ Hd).
  by rewrite bool_decide_eq_false_2.
Qed.

Lemma join_plain_startswith dd base :
  plain dd → slash_free base → PyStr.startswith (Path.join dd base) "/" = false.
Proof.
  intros Hd Hb. rewrite (join_plain _ _ Hd Hb).
  destruct Hd as (Hd & Hne & _).
  rewrite startswith_append_slash by done. by apply slash_free_startswith.
Qed.

(** Where [_copy_file_or_tree] puts a copy, for a proper directory name
    [dd] and a base name that is proper or empty. *)
Lemma resolve_copy_target cwd dst dd base :
  plain dd → slash_free base →
  Path.resolve cwd (Path.join dst (Path.join dd base)) =
    Path.walk (Path.resolve cwd dst ++ [dd]) [base].
Proof.
  intros Hd Hb.
  rewrite resolve_join by (by apply join_plain_startswith).
  rewrite (join_plain _ _ Hd Hb), split_append.
  destruct Hd as (Hd & Hd1 & Hd2 & Hd3). rewrite Hd, Hb, walk_app.
  f_equal. apply walk_one_plain. by repeat split.
Qed.

Lemma prefix_of_removelast (k l : list string) c :
  k `prefix_of` l → k `prefix_of` removelast (l ++ [c]).
Proof. intros Hk. by rewrite removelast_last. Qed.

Lemma walk_one_under k base c :
  slash_free c → k `prefix_of` base → base ≠ k →
  k `prefix_of` Path.walk base [c].
Proof.
  intros Hc [suffix ->] Hne.
  destruct (walk_one (k ++ suffix) c Hc) as [-> | [-> | ->]].
  - rewrite <- app_assoc. by eexists.
  - by eexists.
  - destruct suffix as [|x suffix _] using rev_ind.
    + by rewrite app_nil_r in Hne.
    + rewrite app_assoc, removelast_last. by eexists.
Qed.

Lemma copy_target_under cwd dst dd base :
  plain dd → base = "" ∨ plain base →
  Path.resolve cwd dst `prefix_of`
    Path.resolve cwd (Path.join dst (Path.join dd base)) ∧
  Path.resolve cwd (Path.join dst (Path.join dd base)) ≠ Path.resolve cwd dst.
Proof.
  intros Hd Hbase.
  assert (slash_free base) as Hb by (by destruct Hbase as [->|[? _]]).
  rewrite (resolve_copy_target _ _ _ _ Hd Hb).
  destruct Hbase as [->|Hp].
  - simpl. split; [by eexists|].
    intros H. apply (f_equal length) in H. rewrite length_app in H. simpl in H. lia.
  - rewrite (walk_one_plain _ _ Hp). rewrite <- app_assoc. split; [by eexists|].
    intros H. apply (f_equal length) in H. rewrite length_app in H. simpl in H. lia.
Qed.

Lemma _copy_file_or_tree_touches src dst dst_dir w :
  touches_only
    (λ k,
       Path.resolve (cwd w)
         (Path.join dst
            (Path.join dst_dir (Path.basename (Path.abspath (cwd w) src))))
         `prefix_of` k ∨
       k = Path.resolve (cwd w)
             (Path.join
                (Path.join dst
                   (Path.join dst_dir
                      (Path.basename (Path.abspath (cwd w) src))))
                (Path.basename src)))
    w (_copy_file_or_tree src dst dst_dir w).2.
Proof.
  unfold _copy_file_or_tree.
  apply touches_only_bind; [apply touches_only_refl|].
  intros abs w1 [= <- <-] _.
  apply touches_only_bind.
  { destruct (PyStr.truthy dst_dir);
      [apply os_mkdir_touches|apply touches_only_refl]. }
  intros _ w2 _ Hcwd2. apply touches_only_bind; [apply touches_only_refl|].
  intros is_file w3 [= _ <-] _. apply touches_only_bind;
    [|intros; apply touches_only_refl].
  destruct is_file.
  - eapply touches_only_weaken; [|apply shutil_copy_touches].
    intros k. rewrite Hcwd2. intros [->| ->]; [left|by right]. done.
  - eapply touches_only_weaken; [|apply shutil_copytree_touches].
    intros k. rewrite Hcwd2. by left.
Qed.

Lemma resolve_child cwd dst c :
  plain c → Path.resolve cwd (Path.join dst c) = Path.resolve cwd dst ++ [c].
Proof.
  intros Hc. pose proof Hc as (Hs & _).
  rewrite resolve_join by (by apply slash_free_startswith).
  rewrite Hs. by apply walk_one_plain.
Qed.

Lemma resolve_into cwd p b :
  slash_free b →
  Path.resolve cwd (Path.join p b) = Path.walk (Path.resolve cwd p) [b].
Proof.
  intros Hb. rewrite resolve_join by (by apply slash_free_startswith).
  by rewrite Hb.
Qed.

Lemma plain_data : plain "data".
Proof. by repeat split. Qed.

Lemma plain_code : plain "code".
Proof. by repeat split. Qed.

Lemma plain_env : plain "mlflow_env.yml".
Proof. by repeat split. Qed.

Lemma plain_manifest_name : plain "MLmodel".
Proof. by repeat split. Qed.

Lemma _copy_file_or_tree_under src dst dst_dir w :
  Forall plain (cwd w) → plain dst_dir →
  touches_only (under w dst) w (_copy_file_or_tree src dst dst_dir w).2.
Proof.
  intros Hcwd Hdd.
  eapply touches_only_weaken; [|apply _copy_file_or_tree_touches].
  destruct (copy_target_under (cwd w) dst dst_dir
              (Path.basename (Path.abspath (cwd w) src)) Hdd
              (basename_abspath _ _ Hcwd)) as [Hunder Hne].
  intros k [Hk| ->]; unfold under.
  - by etrans.
  - rewrite resolve_into by apply basename_slash_free.
    by apply walk_one_under; [apply basename_slash_free|..].
Qed.

Lemma shutil_copy_under src dst c w :
  plain c →
  touches_only (under w dst) w (shutil_copy src (Path.join dst c) w).2.
Proof.
  intros Hc. eapply touches_only_weaken; [|apply shutil_copy_touches].
  intros k [->| ->]; unfold under.
  - rewrite (resolve_child _ _ _ Hc). by eexists.
  - rewrite resolve_into by apply basename_slash_free.
    rewrite (resolve_child _ _ _ Hc).
    apply walk_one_under; [apply basename_slash_free|by eexists|].
    intros H. apply (f_equal length) in H. rewrite length_app in H.
    simpl in H. lia.
Qed.

Lemma write_file_under dst c f w :
  plain c →
  touches_only (under w dst) w (write_file (Path.join dst c) f w).2.
Proof.
  intros Hc. eapply touches_only_weaken; [|apply write_file_touches].
  intros k ->. unfold under. rewrite (resolve_child _ _ _ Hc). by eexists.
Qed.

Lemma under_cwd w w1 dst k : cwd w1 = cwd w → under w1 dst k ↔ under w dst k.
Proof. unfold under. by intros ->. Qed.

Lemma touches_only_under w w1 w2 dst :
  cwd w1 = cwd w → touches_only (under w1 dst) w1 w2 →
  touches_only (under w dst) w1 w2.
Proof.
  intros Hcwd. apply touches_only_weaken. intros k. by rewrite under_cwd.
Qed.

Lemma for_each_touches {A} S (xs : list A) (body : A → Py unit) w :
  (∀ x w1, cwd w1 = cwd w → touches_only S w1 (body x w1).2) →
  touches_only S w (for_each xs body w).2.
Proof.
  intros Hbody. assert (cwd w = cwd w) as Hw by done. revert Hw.
  generalize w at 1 3 4. induction xs as [|x xs IH]; intros w0 Hw0.
  - apply touches_only_refl.
  - simpl. apply touches_only_bind; [by apply Hbody|].
    intros _ w1 _ Hw1. apply IH. congruence.
Qed.

Section save_under.

Context (PV : string).

Lemma packaging_steps_under dst_path loader_module data_path code_path
    conda_env model w :
  Forall plain (cwd w) →
  touches_only (under w dst_path) w
    (packaging_steps PV dst_path loader_module data_path code_path conda_env
       model w).2.
Proof.
  intros Hplain. unfold packaging_steps.
  apply touches_only_bind.
  { destruct (given data_path); [|apply touches_only_refl].
    apply touches_only_bind; [|intros; apply touches_only_refl].
    apply _copy_file_or_tree_under; [done|apply plain_data]. }
  intros data w1 _ Hw1. apply touches_only_bind.
  { destruct code_path as [|p ps]; [apply touches_only_refl|].
    apply touches_only_bind; [|intros; apply touches_only_refl].
    apply for_each_touches. intros x w2 Hw2.
    apply touches_only_bind; [|intros; apply touches_only_refl].
    apply (touches_only_under w); [congruence|].
    apply _copy_file_or_tree_under; [|apply plain_code].
    by rewrite Hw2, Hw1. }
  intros code w2 _ Hw2. apply touches_only_bind.
  { destruct (given conda_env); [|apply touches_only_refl].
    apply touches_only_bind; [|intros; apply touches_only_refl].
    apply (touches_only_under w); [congruence|].
    apply shutil_copy_under, plain_env. }
  intros env w3 _ Hw3. apply touches_only_bind;
    [|intros; apply touches_only_refl].
  apply (touches_only_under w); [congruence|].
  apply write_file_under, plain_manifest_name.
Qed.

Lemma save_model_under dst_path loader_module data_path code_path conda_env
    model w :
  Forall plain (cwd w) →
  touches_only (under w dst_path) w
    (save_model PV dst_path loader_module data_path code_path conda_env
       model w).2.
Proof.
  intros Hplain. rewrite save_model_unfold.
  case_bool_decide; [apply touches_only_refl|].
  apply touches_only_bind; [apply os_makedirs_touches|].
  intros _ w1 _ Hw1. apply (touches_only_under w); [done|].
  apply packaging_steps_under. by rewrite Hw1.
Qed.

End save_under.

(** ** Which keys a call can create or change *)

Lemma changes_only_refl S w : changes_only S w w.
Proof. by split. Qed.

Lemma changes_only_trans S w1 w2 w3 :
  changes_only S w1 w2 → changes_only S w2 w3 → changes_only S w1 w3.
Proof.
  intros [? H1] [? H2]. split; [congruence|].
  intros k Hk. by rewrite H2, H1.
Qed.

Lemma changes_only_weaken (S S' : list string → Prop) w w' :
  (∀ k, S k → S' k) → changes_only S w w' → changes_only S' w w'.
Proof. intros HS [? H]. split; [done|]. intros k Hk. apply H. auto. Qed.

Lemma changes_only_bind {A B} S (m : Py A) (k : A → Py B) w :
  changes_only S w (m w).2 →
  (∀ a w1, m w = (Ok a, w1) → cwd w1 = cwd w →
           changes_only S w1 (k a w1).2) →
  changes_only S w (bind m k w).2.
Proof.
  intros Hm Hk. unfold bind. destruct (m w) as [[a|e] w1]; simpl in *; [|done].
  eapply changes_only_trans; [exact Hm|]. apply Hk; [done|]. by destruct Hm.
Qed.

Lemma changes_only_insert w k x :
  changes_only (λ k', k' = k) w (set_fs (<[k := x]> (fs w)) w).
Proof. split; [done|]. intros k' Hk'. simpl. by apply node_at_insert_other. Qed.

Lemma os_mkdir_changes p w :
  changes_only (λ k, k = Path.resolve (cwd w) p) w (os_mkdir p w).2.
Proof.
  unfold os_mkdir, mkdir_at. repeat case_match; simpl;
    try apply changes_only_refl; apply changes_only_insert.
Qed.

Lemma write_file_changes p f w :
  changes_only (λ k, k = Path.resolve (cwd w) p) w (write_file p f w).2.
Proof.
  unfold write_file. repeat case_match; simpl;
    try apply changes_only_refl; apply changes_only_insert.
Qed.

Lemma makedirs_walk_changes p rest pre t k :
  ¬ k `prefix_of` (pre ++ rest) →
  node_at (makedirs_walk p pre rest t).2 k = node_at t k.
Proof.
  revert pre t. induction rest as [|c rest IH]; intros pre t Hk; [done|].
  assert (k ≠ pre ++ [c]) as Hne.
  { intros ->. apply Hk. exists rest. by rewrite <- app_assoc. }
  assert (¬ k `prefix_of` (pre ++ [c]) ++ rest) as Hk'
    by (by rewrite <- app_assoc).
  simpl. destruct rest as [|c' rest].
  - destruct (t !! (pre ++ [c])); simpl; [done|].
    by apply node_at_insert_other.
  - destruct (t !! (pre ++ [c])) as [[| |]|]; simpl; try done.
    + by apply IH.
    + etrans; [by apply IH|]. by apply node_at_insert_other.
Qed.

Lemma os_makedirs_changes p w :
  changes_only (λ k, k `prefix_of` Path.resolve (cwd w) p) w
    (os_makedirs p w).2.
Proof.
  unfold os_makedirs. case_bool_decide; [apply changes_only_refl|].
  destruct (makedirs_walk p [] (Path.resolve (cwd w) p) (fs w)) as [r t] eqn:E.
  split; [done|]. intros k Hk. simpl.
  change t with (r, t).2. rewrite <- E. by apply makedirs_walk_changes.
Qed.

Lemma shutil_copy_changes src dst w :
  changes_only
    (λ k, k = Path.resolve (cwd w) dst ∨
          k = Path.resolve (cwd w) (Path.join dst (Path.basename src)))
    w (shutil_copy src dst w).2.
Proof.
  unfold shutil_copy.
  destruct (stat w src) as [[| |]|]; try apply changes_only_refl;
    (case_bool_decide; [apply changes_only_refl|]);
    (eapply changes_only_weaken; [|apply write_file_changes]);
    intros k ->; by case_match; auto; case_match; auto.
Qed.

Lemma shutil_copytree_changes src dst w :
  changes_only
    (λ k, k `prefix_of` Path.resolve (cwd w) dst ∨
          Path.resolve (cwd w) dst `prefix_of` k)
    w (shutil_copytree src dst w).2.
Proof.
  unfold shutil_copytree.
  destruct (stat w src) as [[| |]|]; try apply changes_only_refl.
  pose proof (os_makedirs_changes dst w) as [Hcwd Hsame].
  destruct (os_makedirs dst w) as [[[]|e] w'] eqn:E; simpl in *.
  - split; [done|]. intros k Hk. simpl.
    rewrite <- Hsame by tauto.
    destruct k as [|c k]; [done|]. simpl.
    rewrite lookup_union_r; [done|]. apply graft_lookup_outside. tauto.
  - split; [done|]. intros k Hk. apply Hsame. tauto.
Qed.

Lemma around_of_prefix w dst t k :
  under w dst t → k `prefix_of` t → around w dst k.
Proof.
  unfold around, under. intros Ht Hk.
  destruct (prefix_weak_total _ _ _ Hk Ht); auto.
Qed.

Lemma changes_only_around w w1 w2 dst :
  cwd w1 = cwd w → changes_only (around w1 dst) w1 w2 →
  changes_only (around w dst) w1 w2.
Proof.
  intros Hcwd. apply changes_only_weaken. intros k.
  unfold around, under. by rewrite Hcwd.
Qed.

Lemma _copy_file_or_tree_around src dst dst_dir w :
  Forall plain (cwd w) → plain dst_dir →
  changes_only (around w dst) w (_copy_file_or_tree src dst dst_dir w).2.
Proof.
  intros Hcwd Hdd.
  destruct (copy_target_under (cwd w) dst dst_dir
              (Path.basename (Path.abspath (cwd w) src)) Hdd
              (basename_abspath _ _ Hcwd)) as [Hunder Hne].
  unfold _copy_file_or_tree.
  apply changes_only_bind; [apply changes_only_refl|].
  intros abs w1 [= <- <-] _.
  apply changes_only_bind.
  { rewrite (truthy_nonempty dst_dir) by (by destruct Hdd as (_ & ? & _)).
    eapply changes_only_weaken; [|apply os_mkdir_changes].
    intros k ->. right. unfold under.
    rewrite (resolve_child _ _ _ Hdd). by eexists. }
  intros _ w2 _ Hcwd2. apply changes_only_bind; [apply changes_only_refl|].
  intros is_file w3 [= _ <-] _. apply changes_only_bind;
    [|intros; apply changes_only_refl].
  destruct is_file.
  - eapply changes_only_weaken; [|apply shutil_copy_changes].
    intros k. rewrite Hcwd2. intros [->| ->]; right; [done|]. unfold under.
    rewrite resolve_into by apply basename_slash_free.
    by apply walk_one_under; [apply basename_slash_free|..].
  - eapply changes_only_weaken; [|apply shutil_copytree_changes].
    intros k. rewrite Hcwd2. intros [Hk|Hk].
    + by eapply around_of_prefix.
    + right. unfold under. by etrans.
Qed.

Lemma for_each_changes {A} S (xs : list A) (body : A → Py unit) w :
  (∀ x w1, cwd w1 = cwd w → changes_only S w1 (body x w1).2) →
  changes_only S w (for_each xs body w).2.
Proof.
  intros Hbody. assert (cwd w = cwd w) as Hw by done. revert Hw.
  generalize w at 1 3 4. induction xs as [|x xs IH]; intros w0 Hw0.
  - apply changes_only_refl.
  - simpl. apply changes_only_bind; [by apply Hbody|].
    intros _ w1 _ Hw1. apply IH. congruence.
Qed.

Section save_around.

Context (PV : string).

Lemma packaging_steps_around dst_path loader_module data_path code_path
    conda_env model w :
  Forall plain (cwd w) →
  changes_only (around w dst_path) w
    (packaging_steps PV dst_path loader_module data_path code_path conda_env
       model w).2.
Proof.
  intros Hplain. unfold packaging_steps.
  apply changes_only_bind.
  { destruct (given data_path); [|apply changes_only_refl].
    apply changes_only_bind; [|intros; apply changes_only_refl].
    apply _copy_file_or_tree_around; [done|apply plain_data]. }
  intros data w1 _ Hw1. apply changes_only_bind.
  { destruct code_path as [|p ps]; [apply changes_only_refl|].
    apply changes_only_bind; [|intros; apply changes_only_refl].
    apply for_each_changes. intros x w2 Hw2.
    apply changes_only_bind; [|intros; apply changes_only_refl].
    apply (changes_only_around w); [congruence|].
    apply _copy_file_or_tree_around; [|apply plain_code].
    by rewrite Hw2, Hw1. }
  intros code w2 _ Hw2. apply changes_only_bind.
  { destruct (given conda_env); [|apply changes_only_refl].
    apply changes_only_bind; [|intros; apply changes_only_refl].
    apply (changes_only_around w); [congruence|].
    eapply changes_only_weaken; [|apply shutil_copy_changes].
    intros k [->| ->]; right; unfold under.
    - rewrite (resolve_child _ _ _ plain_env). by eexists.
    - rewrite resolve_into by apply basename_slash_free.
      rewrite (resolve_child _ _ _ plain_env).
      apply walk_one_under; [apply basename_slash_free|by eexists|].
      intros H. apply (f_equal length) in H. rewrite length_app in H.
      simpl in H. lia. }
  intros env w3 _ Hw3. apply changes_only_bind;
    [|intros; apply changes_only_refl].
  apply (changes_only_around w); [congruence|].
  eapply changes_only_weaken; [|apply write_file_changes].
  intros k ->. right. unfold under.
  rewrite (resolve_child _ _ _ plain_manifest_name). by eexists.
Qed.

Lemma save_model_around dst_path loader_module data_path code_path conda_env
    model w :
  Forall plain (cwd w) →
  changes_only (around w dst_path) w
    (save_model PV dst_path loader_module data_path code_path conda_env
       model w).2.
Proof.
  intros Hplain. rewrite save_model_unfold.
  case_bool_decide; [apply changes_only_refl|].
  apply changes_only_bind.
  { eapply changes_only_weaken; [|apply os_makedirs_changes]. by left. }
  intros _ w1 _ Hw1. apply (changes_only_around w); [done|].
  apply packaging_steps_around. by rewrite Hw1.
Qed.

(** X16: in a process whose working directory is a proper absolute path,
    whatever [save_model] is given and whether it returns or raises, it
    only writes inside the destination (written without [..]): every file
    or directory outside the destination is still there, unchanged, and
    the absolute path [k] of anything that is neither inside the
    destination nor on the way to it names afterwards exactly what it
    named before, nothing if it named nothing. *)
Theorem save_model_writes_inside_destination
    (dst_path loader_module : string) (data_path : option string)
    (code_path : list string) (conda_env : option string) (model : Model)
    (w : World) :
  Forall plain (cwd w) →
  ".." ∉ PyStr.split "/" dst_path →
  (∀ k n, ¬ under w dst_path k →
          node_at (fs w) k = Some n →
          node_at (fs (save_model PV dst_path loader_module data_path
                         code_path conda_env model w).2) k = Some n) ∧
  (∀ k, ¬ around w dst_path k →
        node_at (fs (save_model PV dst_path loader_module data_path
                       code_path conda_env model w).2) k =
        node_at (fs w) k).
Proof.
  intros Hplain _.
  destruct (save_model_under PV dst_path loader_module data_path code_path
              conda_env model w Hplain) as [_ Hkeep].
  destruct (save_model_around dst_path loader_module data_path code_path
              conda_env model w Hplain) as [_ Hsame].
  split; [exact Hkeep|exact Hsame].
Qed.

End save_around.

(** ** The files in the artifact *)

Lemma packaging_steps_unfold PV dst_path loader_module data_path code_path
    conda_env model :
  packaging_steps PV dst_path loader_module data_path code_path conda_env model
  = (let! data := (if given data_path then
                     let! model_file :=
                       _copy_file_or_tree (default "" data_path) dst_path "data" in
                     ret (Some model_file)
                   else ret None) in
     packaging_after_data PV dst_path loader_module data code_path conda_env
       model).
Proof. reflexivity. Qed.

Lemma inside_sibling w dst c c' k : c ≠ c' → inside w dst c' k → ¬ inside w dst c k.
Proof.
  unfold inside. intros Hne [s1 ->] [s2 Hs2].
  rewrite <- !app_assoc in Hs2. apply app_inv_head in Hs2. simpl in Hs2.
  congruence.
Qed.

Lemma inside_not_dst w dst c : ¬ inside w dst c (Path.resolve (cwd w) dst).
Proof.
  unfold inside. intros [s Hs]. apply (f_equal length) in Hs.
  rewrite !length_app in Hs. simpl in Hs. lia.
Qed.

Lemma inside_under w dst c k : inside w dst c k → under w dst k.
Proof. unfold inside, under. intros [s ->]. rewrite <- app_assoc. by eexists. Qed.

(** One step inside the entry [c] stays inside it or lands on the
    directory itself. *)
Lemma walk_one_inside w dst c K b :
  slash_free b → inside w dst c K →
  inside w dst c (Path.walk K [b]) ∨ Path.walk K [b] = Path.resolve (cwd w) dst.
Proof.
  unfold inside. intros Hb [s ->].
  destruct (walk_one ((Path.resolve (cwd w) dst ++ [c]) ++ s) b Hb)
    as [-> | [-> | ->]].
  - left. rewrite <- app_assoc. by eexists.
  - left. by eexists.
  - destruct s as [|x s _] using rev_ind.
    + right. by rewrite app_nil_r, removelast_last.
    + left. rewrite app_assoc, removelast_last. by eexists.
Qed.

Lemma copy_target_inside cwd0 w dst dd base :
  cwd w = cwd0 → plain dd → base = "" ∨ plain base →
  inside w dst dd (Path.resolve cwd0 (Path.join dst (Path.join dd base))).
Proof.
  intros <- Hd Hbase. unfold inside.
  assert (slash_free base) as Hb by (by destruct Hbase as [->|[? _]]).
  rewrite (resolve_copy_target _ _ _ _ Hd Hb).
  destruct Hbase as [->|Hp].
  - simpl. exists []. by rewrite app_nil_r.
  - rewrite (walk_one_plain _ _ Hp). by eexists.
Qed.

Lemma prefix_of_snoc {A} (k l : list A) x :
  k `prefix_of` l ++ [x] → k = l ++ [x] ∨ k `prefix_of` l.
Proof.
  intros [s Hs]. destruct s as [|y s _] using rev_ind.
  - left. by rewrite app_nil_r in Hs.
  - right. rewrite app_assoc in Hs. apply app_inj_tail in Hs as [-> _].
    by eexists.
Qed.

(** What [_copy_file_or_tree] into [dst/dd] can change: the entry [dd] of
    the destination and what is inside it, and, for a tree, missing
    ancestors of the destination. *)
Lemma _copy_file_or_tree_inside src dst dst_dir w :
  Forall plain (cwd w) → plain dst_dir →
  changes_only
    (λ k, inside w dst dst_dir k ∨ k `prefix_of` Path.resolve (cwd w) dst)
    w (_copy_file_or_tree src dst dst_dir w).2 ∧
  touches_only
    (λ k, inside w dst dst_dir k ∨ k = Path.resolve (cwd w) dst)
    w (_copy_file_or_tree src dst dst_dir w).2.
Proof.
  intros Hcwd Hdd.
  pose proof (copy_target_inside (cwd w) w dst dst_dir
                (Path.basename (Path.abspath (cwd w) src)) eq_refl Hdd
                (basename_abspath _ _ Hcwd)) as Hin.
  split.
  - unfold _copy_file_or_tree.
    apply changes_only_bind; [apply changes_only_refl|].
    intros abs w1 [= <- <-] _.
    apply changes_only_bind.
    { rewrite (truthy_nonempty dst_dir) by (by destruct Hdd as (_ & ? & _)).
      eapply changes_only_weaken; [|apply os_mkdir_changes].
      intros k ->. left. unfold inside.
      by rewrite (resolve_child _ _ _ Hdd). }
    intros _ w2 _ Hcwd2. apply changes_only_bind; [apply changes_only_refl|].
    intros is_file w3 [= _ <-] _. apply changes_only_bind;
      [|intros; apply changes_only_refl].
    destruct is_file.
    + eapply changes_only_weaken; [|apply shutil_copy_changes].
      intros k. rewrite Hcwd2. intros [->| ->]; [by left|].
      rewrite resolve_into by apply basename_slash_free.
      destruct (walk_one_inside w dst dst_dir _ (Path.basename src)
                  (basename_slash_free _) Hin) as [?| ->]; [by left|by right].
    + eapply changes_only_weaken; [|apply shutil_copytree_changes].
      intros k. rewrite Hcwd2. intros [Hk|Hk].
      * destruct (prefix_weak_total _ _ _ Hk Hin) as [H1|H1]; [|by left].
        apply prefix_of_snoc in H1 as [->|H1]; [left|by right].
        unfold inside. done.
      * left. unfold inside in *. by etrans.
  - eapply touches_only_weaken; [|apply _copy_file_or_tree_touches].
    intros k [Hk| ->].
    + left. unfold inside in *. by etrans.
    + rewrite resolve_into by apply basename_slash_free.
      destruct (walk_one_inside w dst dst_dir _ (Path.basename src)
                  (basename_slash_free _) Hin) as [?| ->]; [by left|by right].
Qed.

Lemma basename_abspath_file cwd0 src :
  Forall plain cwd0 → Path.resolve cwd0 src ≠ [] →
  plain (Path.basename (Path.abspath cwd0 src)).
Proof.
  intros Hcwd Hne. unfold Path.abspath.
  pose proof (resolve_plain cwd0 src Hcwd) as Hk.
  rewrite basename_render by (eapply Forall_impl; [exact Hk|apply plain_slash_free]).
  induction Hk as [|c k Hc Hk IH]; [done|].
  destruct k as [|c' k]; [exact Hc|]. by apply IH.
Qed.

Lemma stat_file_key w p n :
  stat w p = Some n → is_file n → Path.resolve (cwd w) p ≠ [].
Proof.
  unfold stat. case_bool_decide; [done|]. intros Hn Hf Hk.
  rewrite Hk in Hn. simpl in Hn. by simplify_eq.
Qed.

(** Copying a file into a fresh entry [dd] of the destination puts the
    file, with its content, at [dst/dd/base]. *)
Lemma copy_file_result src dst dst_dir w name w' n :
  _copy_file_or_tree src dst dst_dir w = (Ok name, w') →
  Forall plain (cwd w) → plain dst_dir →
  stat w src = Some n → is_file n →
  (∀ k, inside w dst dst_dir k → node_at (fs w) k = None) →
  stat w' (Path.join dst name) = Some n.
Proof.
  intros Hrun Hcwd Hdd Hsrc Hfile Hfree.
  pose proof (basename_abspath_file _ _ Hcwd (stat_file_key _ _ _ Hsrc Hfile))
    as Hbase.
  pose proof (_copy_file_or_tree_name _ _ _ _ _ _ Hrun) as ->.
  set (T := Path.join dst (Path.join dst_dir
                             (Path.basename (Path.abspath (cwd w) src)))).
  assert (Path.resolve (cwd w) T =
            (Path.resolve (cwd w) dst ++ [dst_dir]) ++
            [Path.basename (Path.abspath (cwd w) src)]) as HT.
  { unfold T. rewrite resolve_copy_target by (done || by apply plain_slash_free).
    by apply walk_one_plain. }
  revert Hrun. unfold _copy_file_or_tree, bind at 1, os_path_abspath.
  unfold bind at 1. rewrite (truthy_nonempty dst_dir)
    by (by destruct Hdd as (_ & ? & _)).
  pose proof (os_mkdir_touches (λ _, False) (Path.join dst dst_dir) w)
    as [Hcwd1 Hkeep1].
  pose proof (os_mkdir_changes (Path.join dst dst_dir) w) as [_ Hsame1].
  destruct (os_mkdir (Path.join dst dst_dir) w) as [[[]|e] w1]; [|done].
  simpl in *.
  assert (stat w1 src = Some n) as Hsrc1.
  { revert Hsrc. unfold stat. rewrite Hcwd1. case_bool_decide; [done|].
    intros Hn. apply Hkeep1; [tauto|done]. }
  assert (stat w1 T = None) as HT1.
  { unfold stat. rewrite Hcwd1. case_bool_decide; [done|].
    rewrite Hsame1.
    - apply Hfree. unfold inside. rewrite HT. by eexists.
    - rewrite HT, (resolve_child _ _ _ Hdd). intros Hlen.
      apply (f_equal length) in Hlen. rewrite !length_app in Hlen.
      simpl in Hlen. lia. }
  unfold bind at 1, os_path_isfile. rewrite Hsrc1.
  assert ((match n with
           | RegularFile _ | ManifestFile _ => true
           | Directory => false
           end) = true) as -> by (by destruct n).
  unfold bind at 1, shutil_copy. fold T. rewrite HT1, Hsrc1.
  intros Hrun.
  assert (∃ w2, (if bool_decide (T ≠ "" ∧ Path.resolve (cwd w1) src
                                          = Path.resolve (cwd w1) T)
                 then (Raise (SameFileError src), w1)
                 else write_file T n w1) = (Ok tt, w2) ∧ w2 = w')
    as (w2 & Hcopy & ->).
  { destruct n as [data|m|]; [| |done];
      (destruct (if bool_decide (T ≠ "" ∧ Path.resolve (cwd w1) src
                                          = Path.resolve (cwd w1) T)
                 then _ else _) as [[[]|e] w2]; [|done]);
      unfold ret in Hrun; injection Hrun as <-; by exists w2. }
  case_bool_decide; [done|].
  by apply write_file_stat in Hcopy as [? _].
Qed.

Lemma inside_not_prefix w dst c k :
  inside w dst c k → ¬ k `prefix_of` Path.resolve (cwd w) dst.
Proof.
  unfold inside. intros [s ->] Hp. apply prefix_length in Hp.
  rewrite !length_app in Hp. simpl in Hp. lia.
Qed.

Lemma inside_child w dst c : plain c →
  inside w dst c (Path.resolve (cwd w) (Path.join dst c)).
Proof.
  intros Hc. unfold inside. rewrite (resolve_child _ _ _ Hc).
  exists []. by rewrite app_nil_r.
Qed.

Section artifact_files.

Context (PV : string).

Lemma packaging_after_code_touches dst_path loader_module data code conda_env
    model w :
  touches_only
    (λ k, inside w dst_path "mlflow_env.yml" k ∨
          inside w dst_path "MLmodel" k ∨
          k = Path.resolve (cwd w) dst_path)
    w (packaging_after_code PV dst_path loader_module data code conda_env
         model w).2.
Proof.
  unfold packaging_after_code. apply touches_only_bind.
  { destruct (given conda_env); [|apply touches_only_refl].
    apply touches_only_bind; [|intros; apply touches_only_refl].
    eapply touches_only_weaken; [|apply shutil_copy_touches].
    intros k [->| ->].
    - left. apply inside_child, plain_env.
    - rewrite resolve_into by apply basename_slash_free.
      destruct (walk_one_inside w dst_path "mlflow_env.yml" _
                  (Path.basename (default "" conda_env))
                  (basename_slash_free _) (inside_child _ _ _ plain_env))
        as [?| ->]; auto. }
  intros env w1 _ Hw1. apply touches_only_bind;
    [|intros; apply touches_only_refl].
  eapply touches_only_weaken; [|apply write_file_touches].
  intros k ->. right; left. rewrite Hw1.
  apply (inside_child w), plain_manifest_name.
Qed.

Lemma packaging_after_data_touches dst_path loader_module data code_path
    conda_env model w :
  Forall plain (cwd w) →
  touches_only
    (λ k, inside w dst_path "code" k ∨
          inside w dst_path "mlflow_env.yml" k ∨
          inside w dst_path "MLmodel" k ∨
          k = Path.resolve (cwd w) dst_path)
    w (packaging_after_data PV dst_path loader_module data code_path
         conda_env model w).2.
Proof.
  intros Hplain. unfold packaging_after_data. apply touches_only_bind.
  { destruct code_path as [|p ps]; [apply touches_only_refl|].
    apply touches_only_bind; [|intros; apply touches_only_refl].
    apply for_each_touches. intros x w1 Hw1.
    apply touches_only_bind; [|intros; apply touches_only_refl].
    eapply touches_only_weaken;
      [|apply _copy_file_or_tree_inside; [by rewrite Hw1|apply plain_code]].
    unfold inside. rewrite Hw1. tauto. }
  intros code w1 _ Hw1.
  eapply touches_only_weaken; [|apply packaging_after_code_touches].
  unfold inside. rewrite Hw1. tauto.
Qed.

Lemma save_model_start dst_path loader_module data_path code_path conda_env
    model w model' w' :
  save_model PV dst_path loader_module data_path code_path conda_env model w
    = (Ok model', w') →
  ∃ w1,
    packaging_steps PV dst_path loader_module data_path code_path conda_env
      model w1 = (Ok model', w') ∧
    cwd w1 = cwd w ∧
    (∀ k n, node_at (fs w) k = Some n → node_at (fs w1) k = Some n) ∧
    (∀ k, ¬ k `prefix_of` Path.resolve (cwd w) dst_path →
          node_at (fs w1) k = node_at (fs w) k).
Proof.
  rewrite save_model_unfold. case_bool_decide; [done|]. unfold bind at 1.
  pose proof (os_makedirs_touches (λ _, False) dst_path w) as [Hcwd Hkeep].
  pose proof (os_makedirs_changes dst_path w) as [_ Hsame].
  destruct (os_makedirs dst_path w) as [[[]|e] w1]; [|done].
  simpl in *. intros Hsteps. exists w1. repeat split; try done.
  intros k n. apply Hkeep. tauto.
Qed.

(** X17: in a process whose working directory is a proper absolute path,
    when nothing exists at or below the destination and the data path
    names a file, a successful [save_model] leaves that file, with the
    same content, at [data/] and its base name inside the destination:
    the place the manifest records and [load_pyfunc] hands to the
    loader. *)
Theorem save_model_keeps_data_file
    (dst_path loader_module data_path : string) (code_path : list string)
    (conda_env : option string) (model model' : Model) (w w' : World)
    (n : node) :
  Forall plain (cwd w) →
  free w dst_path →
  stat w data_path = Some n →
  is_file n →
  save_model PV dst_path loader_module (Some data_path) code_path conda_env
    model w = (Ok model', w') →
  stat w'
    (Path.join dst_path
       (Path.join "data" (Path.basename (Path.abspath (cwd w) data_path))))
    = Some n.
Proof.
  intros Hplain Hfree Hsrc Hfile
    (w1 & Hsteps & Hcwd1 & Hkeep1 & Hsame1)%save_model_start.
  rewrite packaging_steps_unfold in Hsteps. unfold bind at 1 in Hsteps.
  assert (PyStr.truthy data_path = true) as Htruthy.
  { apply truthy_nonempty. intros ->. by unfold stat in Hsrc. }
  simpl in Hsteps. rewrite Htruthy in Hsteps. unfold bind at 1 in Hsteps.
  destruct (_copy_file_or_tree data_path dst_path "data" w1)
    as [[name|e] w2] eqn:Hcopy; [|done].
  unfold ret at 1 in Hsteps.
  pose proof (_copy_file_or_tree_name _ _ _ _ _ _ Hcopy) as Hname.
  pose proof (_copy_file_or_tree_touches data_path dst_path "data" w1)
    as [Hcwd2 _].
  rewrite Hcopy in Hcwd2. simpl in Hcwd2.
  assert (stat w2 (Path.join dst_path name) = Some n) as Hthere.
  { eapply copy_file_result; [exact Hcopy|by rewrite Hcwd1|apply plain_data
                             | |done|].
    - revert Hsrc. unfold stat. rewrite Hcwd1. case_bool_decide; [done|].
      apply Hkeep1.
    - intros k Hk. unfold inside in Hk. rewrite Hcwd1 in Hk.
      rewrite Hsame1 by (by apply (inside_not_prefix w _ "data")).
      by apply Hfree, (inside_under w _ "data"). }
  rewrite Hname, Hcwd1 in Hthere.
  pose proof (packaging_after_data_touches dst_path loader_module (Some name)
                code_path conda_env model w2) as [Hcwd3 Hkeep3].
  { by rewrite Hcwd2, Hcwd1. }
  rewrite Hsteps in Hcwd3, Hkeep3. simpl in *.
  revert Hthere. unfold stat. rewrite Hcwd3, Hcwd2, Hcwd1.
  case_bool_decide; [done|]. apply Hkeep3.
  rewrite Hcwd2, Hcwd1.
  pose proof (copy_target_inside (cwd w) w dst_path "data"
    (Path.basename (Path.abspath (cwd w) data_path)) eq_refl plain_data
    (basename_abspath _ _ Hplain)) as Hin.
  assert (∀ c k, inside w2 dst_path c k ↔ inside w dst_path c k) as Hw2
    by (intros; unfold inside; by rewrite Hcwd2, Hcwd1).
  rewrite !Hw2. intros [Hc|[Hc|[Hc|Hc]]].
  - by apply (inside_sibling w dst_path "code" "data") in Hin.
  - by apply (inside_sibling w dst_path "mlflow_env.yml" "data") in Hin.
  - by apply (inside_sibling w dst_path "MLmodel" "data") in Hin.
  - rewrite Hc in Hin. by apply inside_not_dst in Hin.
Qed.

End artifact_files.

(** Copying a file onto a path that names nothing puts the file there. *)
Lemma shutil_copy_file_result src dst w w' n :
  shutil_copy src dst w = (Ok tt, w') →
  stat w src = Some n → is_file n → stat w dst = None →
  stat w' dst = Some n.
Proof.
  unfold shutil_copy. intros Hrun Hsrc Hfile Hdst.
  rewrite Hdst, Hsrc in Hrun.
  assert ((if bool_decide (dst ≠ "" ∧ Path.resolve (cwd w) src
                                       = Path.resolve (cwd w) dst)
           then (Raise (SameFileError src), w)
           else write_file dst n w) = (Ok tt, w')) as Hcopy
    by (by destruct n).
  case_bool_decide; [done|].
  by apply write_file_stat in Hcopy as [? _].
Qed.

Lemma stat_kept w w' p n :
  cwd w' = cwd w →
  (∀ k n, node_at (fs w) k = Some n → node_at (fs w') k = Some n) →
  stat w p = Some n → stat w' p = Some n.
Proof.
  intros Hcwd Hkeep. unfold stat. rewrite Hcwd.
  case_bool_decide; [done|]. apply Hkeep.
Qed.

Lemma free_not_under w dst p n :
  free w dst → stat w p = Some n → ¬ under w dst (Path.resolve (cwd w) p).
Proof.
  unfold stat. intros Hfree Hp Hu. case_bool_decide; [done|].
  apply Hfree in Hu. congruence.
Qed.

(** A directory with one entry lists that entry. *)
Lemma omap_all_none {A B} (f : A → option B) l :
  Forall (λ x, f x = None) l → omap f l = [].
Proof. induction 1 as [|x l Hx _ IH]; simpl; [done|]. by rewrite Hx. Qed.

Lemma entries_single (t : gmap (list string) node) k b n :
  t !! (k ++ [b]) = Some n →
  (∀ x, x ≠ b → t !! (k ++ [x]) = None) →
  entries t k = [b].
Proof.
  intros Hb Hrest. unfold entries.
  apply Permutation_singleton_r.
  rewrite <- (map_to_list_delete t (k ++ [b]) n Hb). simpl.
  rewrite bool_decide_eq_true_2
    by (split; [by destruct k|by rewrite removelast_last]).
  rewrite last_last, omap_all_none; [done|].
  apply Forall_forall. intros [k' n'] Hin%elem_of_map_to_list.
  apply lookup_delete_Some in Hin as [Hne Hin]. simpl.
  case_bool_decide as Hk; [|done]. destruct Hk as [Hk1 Hk2].
  destruct k' as [|x k' _] using rev_ind; [done|].
  rewrite removelast_last in Hk2. subst k'.
  rewrite Hrest in Hin; [done|]. congruence.
Qed.

Lemma node_at_insert_here t k n : k ≠ [] → node_at (<[k := n]> t) k = Some n.
Proof. destruct k; [done|]. intros _. simpl. by rewrite lookup_insert_eq. Qed.

(** Copying a file into a fresh entry [dd] of the destination creates the
    directory [dst/dd] and the file in it, and nothing else. *)
Lemma copy_file_exact src dst dst_dir w name w' n :
  _copy_file_or_tree src dst dst_dir w = (Ok name, w') →
  Forall plain (cwd w) → plain dst_dir →
  stat w src = Some n → is_file n →
  (∀ k, inside w dst dst_dir k → node_at (fs w) k = None) →
  stat w' (Path.join dst dst_dir) = Some Directory ∧
  changes_only
    (λ k, k = Path.resolve (cwd w) dst ++ [dst_dir] ∨
          k = (Path.resolve (cwd w) dst ++ [dst_dir]) ++
              [Path.basename (Path.abspath (cwd w) src)])
    w w'.
Proof.
  intros Hrun Hcwd Hdd Hsrc Hfile Hfree.
  pose proof (basename_abspath_file _ _ Hcwd (stat_file_key _ _ _ Hsrc Hfile))
    as Hbase.
  set (T := Path.join dst (Path.join dst_dir
                             (Path.basename (Path.abspath (cwd w) src)))).
  assert (Path.resolve (cwd w) T =
            (Path.resolve (cwd w) dst ++ [dst_dir]) ++
            [Path.basename (Path.abspath (cwd w) src)]) as HT.
  { unfold T. rewrite resolve_copy_target by (done || by apply plain_slash_free).
    by apply walk_one_plain. }
  revert Hrun. unfold _copy_file_or_tree, bind at 1, os_path_abspath.
  unfold bind at 1. rewrite (truthy_nonempty dst_dir)
    by (by destruct Hdd as (_ & ? & _)).
  pose proof (os_mkdir_touches (λ _, False) (Path.join dst dst_dir) w)
    as [Hcwd1 Hkeep1].
  pose proof (os_mkdir_changes (Path.join dst dst_dir) w) as Hch1.
  destruct (os_mkdir (Path.join dst dst_dir) w) as [[[]|e] w1] eqn:Emk;
    [|done].
  simpl in *. pose proof Hch1 as [_ Hsame1].
  assert (stat w1 (Path.join dst dst_dir) = Some Directory) as Hdir1.
  { revert Emk. unfold os_mkdir, mkdir_at, stat.
    case_bool_decide; [done|]. intros Emk.
    repeat case_match; simplify_eq. simpl. apply node_at_insert_here.
    rewrite (resolve_child _ _ _ Hdd). by destruct (Path.resolve (cwd w) dst). }
  assert (stat w1 src = Some n) as Hsrc1.
  { revert Hsrc. unfold stat. rewrite Hcwd1. case_bool_decide; [done|].
    intros Hn. apply Hkeep1; [tauto|done]. }
  assert (stat w1 T = None) as HT1.
  { unfold stat. rewrite Hcwd1. case_bool_decide; [done|].
    rewrite Hsame1.
    - apply Hfree. unfold inside. rewrite HT. by eexists.
    - rewrite HT, (resolve_child _ _ _ Hdd). intros Hlen.
      apply (f_equal length) in Hlen. rewrite !length_app in Hlen.
      simpl in Hlen. lia. }
  unfold bind at 1, os_path_isfile. rewrite Hsrc1.
  assert ((match n with
           | RegularFile _ | ManifestFile _ => true
           | Directory => false
           end) = true) as -> by (by destruct n).
  unfold bind at 1, shutil_copy. fold T. rewrite HT1, Hsrc1.
  intros Hrun.
  assert (∃ w2, (if bool_decide (T ≠ "" ∧ Path.resolve (cwd w1) src
                                          = Path.resolve (cwd w1) T)
                 then (Raise (SameFileError src), w1)
                 else write_file T n w1) = (Ok tt, w2) ∧ w2 = w')
    as (w2 & Hcopy & ->).
  { destruct n as [data|m|]; [| |done];
      (destruct (if bool_decide (T ≠ "" ∧ Path.resolve (cwd w1) src
                                          = Path.resolve (cwd w1) T)
                 then _ else _) as [[[]|e] w2]; [|done]);
      unfold ret in Hrun; injection Hrun as <-; by exists w2. }
  case_bool_decide; [done|].
  pose proof (write_file_touches T n w1) as [Hcwd2 Hkeep2].
  pose proof (write_file_changes T n w1) as Hch2.
  rewrite Hcopy in Hcwd2, Hkeep2, Hch2. simpl in *. split.
  - revert Hdir1. unfold stat. rewrite Hcwd2.
    case_bool_decide; [done|]. apply Hkeep2.
    rewrite Hcwd1, HT, (resolve_child _ _ _ Hdd). intros Hlen.
    apply (f_equal length) in Hlen. rewrite !length_app in Hlen.
    simpl in Hlen. lia.
  - eapply changes_only_trans.
    + eapply changes_only_weaken; [|exact Hch1].
      intros k ->. left. by apply resolve_child.
    + eapply changes_only_weaken; [|exact Hch2].
      intros k ->. right. by rewrite Hcwd1.
Qed.

Section artifact_contents.

Context (PV : string).

(** The data step of a successful run, seen from the steps after it. *)
Lemma packaging_steps_data dst_path loader_module data_path code_path
    conda_env model w model' w' :
  Forall plain (cwd w) →
  packaging_steps PV dst_path loader_module data_path code_path conda_env
    model w = (Ok model', w') →
  ∃ data w2,
    packaging_after_data PV dst_path loader_module data code_path conda_env
      model w2 = (Ok model', w') ∧
    touches_only (under w dst_path) w w2 ∧
    changes_only
      (λ k, inside w dst_path "data" k ∨
            k `prefix_of` Path.resolve (cwd w) dst_path) w w2.
Proof.
  intros Hplain. rewrite packaging_steps_unfold. unfold bind at 1.
  set (data_step :=
         if given data_path
         then let! model_file :=
                _copy_file_or_tree (default "" data_path) dst_path "data" in
              ret (Some model_file)
         else ret None).
  assert (touches_only (under w dst_path) w (data_step w).2 ∧
          changes_only
            (λ k, inside w dst_path "data" k ∨
                  k `prefix_of` Path.resolve (cwd w) dst_path)
            w (data_step w).2) as [Ht1 Hc1].
  { unfold data_step. destruct (given data_path);
      [|split; [apply touches_only_refl|apply changes_only_refl]].
    split.
    - apply touches_only_bind; [|intros; apply touches_only_refl].
      apply _copy_file_or_tree_under; [done|apply plain_data].
    - apply changes_only_bind; [|intros; apply changes_only_refl].
      apply _copy_file_or_tree_inside; [done|apply plain_data]. }
  destruct (data_step w) as [[data|e] w2]; [|done]. simpl in Ht1, Hc1.
  intros Hrest. by exists data, w2.
Qed.

(** The code step of a successful run, seen from the steps after it. *)
Lemma packaging_after_data_code dst_path loader_module data code_path
    conda_env model w0 w model' w' :
  cwd w = cwd w0 →
  Forall plain (cwd w0) →
  packaging_after_data PV dst_path loader_module data code_path conda_env
    model w = (Ok model', w') →
  ∃ code w3,
    packaging_after_code PV dst_path loader_module data code conda_env model
      w3 = (Ok model', w') ∧
    touches_only (under w0 dst_path) w w3 ∧
    changes_only
      (λ k, inside w0 dst_path "code" k ∨
            k `prefix_of` Path.resolve (cwd w0) dst_path) w w3.
Proof.
  intros Hcwd Hplain. unfold packaging_after_data, bind at 1.
  set (code_step :=
         match code_path with
         | [] => ret None
         | _ =>
             do! for_each code_path
                   (λ path,
                      let! _ := _copy_file_or_tree path dst_path "code" in
                      ret tt) in
             ret (Some "code")
         end).
  assert (touches_only (under w0 dst_path) w (code_step w).2 ∧
          changes_only
            (λ k, inside w0 dst_path "code" k ∨
                  k `prefix_of` Path.resolve (cwd w0) dst_path)
            w (code_step w).2) as [Ht2 Hc2].
  { unfold code_step. destruct code_path as [|p ps];
      [split; [apply touches_only_refl|apply changes_only_refl]|].
    split.
    - apply touches_only_bind; [|intros; apply touches_only_refl].
      apply for_each_touches. intros x w1 Hw1.
      apply touches_only_bind; [|intros; apply touches_only_refl].
      apply (touches_only_under w0); [congruence|].
      apply _copy_file_or_tree_under; [|apply plain_code].
      by rewrite Hw1, Hcwd.
    - apply changes_only_bind; [|intros; apply changes_only_refl].
      apply for_each_changes. intros x w1 Hw1.
      apply changes_only_bind; [|intros; apply changes_only_refl].
      eapply changes_only_weaken;
        [|apply _copy_file_or_tree_inside;
          [by rewrite Hw1, Hcwd|apply plain_code]].
      unfold inside. rewrite Hw1, Hcwd. tauto. }
  destruct (code_step w) as [[code|e] w3]; [|done]. simpl in Ht2, Hc2.
  intros Hrest. by exists code, w3.
Qed.

(** The data step and the code step of a successful run, seen from the
    step that follows them. *)
Lemma packaging_steps_split dst_path loader_module data_path code_path
    conda_env model w model' w' :
  Forall plain (cwd w) →
  packaging_steps PV dst_path loader_module data_path code_path conda_env
    model w = (Ok model', w') →
  ∃ data code w3,
    packaging_after_code PV dst_path loader_module data code conda_env model
      w3 = (Ok model', w') ∧
    touches_only (under w dst_path) w w3 ∧
    changes_only
      (λ k, inside w dst_path "data" k ∨ inside w dst_path "code" k ∨
            k `prefix_of` Path.resolve (cwd w) dst_path) w w3.
Proof.
  intros Hplain (data & w2 & Hrest & Ht1 & Hc1)%packaging_steps_data; [|done].
  pose proof Ht1 as [Hcwd2 _].
  apply (packaging_after_data_code _ _ _ _ _ _ w) in Hrest
    as (code & w3 & Hrest & Ht2 & Hc2); [|done..].
  exists data, code, w3. split; [done|]. split.
  - by eapply touches_only_trans.
  - eapply changes_only_trans.
    + eapply changes_only_weaken; [|exact Hc1]. cbv beta. tauto.
    + eapply changes_only_weaken; [|exact Hc2]. cbv beta. tauto.
Qed.

(** X18: under the same conditions, when the environment path names a
    file, a successful [save_model] leaves that file, with the same
    content, at [mlflow_env.yml] inside the destination: the place the
    manifest records as [env]. *)
Theorem save_model_keeps_env_file
    (dst_path loader_module : string) (data_path : option string)
    (code_path : list string) (conda_env : string) (model model' : Model)
    (w w' : World) (n : node) :
  Forall plain (cwd w) →
  free w dst_path →
  stat w conda_env = Some n →
  is_file n →
  save_model PV dst_path loader_module data_path code_path (Some conda_env)
    model w = (Ok model', w') →
  stat w' (Path.join dst_path "mlflow_env.yml") = Some n.
Proof.
  intros Hplain Hfree Hsrc Hfile
    (w1 & Hsteps & Hcwd1 & Hkeep1 & Hsame1)%(save_model_start PV).
  apply packaging_steps_split in Hsteps
    as (data & code & w3 & Hrest & [Hcwd3 Hkeep3] & [_ Hsame3]);
    [|by rewrite Hcwd1].
  assert (PyStr.truthy conda_env = true) as Htruthy.
  { apply truthy_nonempty. intros ->. by unfold stat in Hsrc. }
  pose proof (inside_child w dst_path "mlflow_env.yml" plain_env) as Hin.
  assert (stat w3 conda_env = Some n) as Hsrc3.
  { revert Hsrc. intros Hsrc. pose proof (free_not_under _ _ _ _ Hfree Hsrc) as Hout.
    revert Hsrc. unfold stat. rewrite Hcwd3, Hcwd1.
    case_bool_decide; [done|]. intros Hn. apply Hkeep3.
    - unfold under. by rewrite Hcwd1.
    - by apply Hkeep1. }
  assert (stat w3 (Path.join dst_path "mlflow_env.yml") = None) as Hfresh.
  { unfold stat. rewrite Hcwd3, Hcwd1. case_bool_decide; [done|].
    rewrite Hsame3, Hsame1.
    - by apply Hfree, (inside_under w _ "mlflow_env.yml").
    - by apply (inside_not_prefix w _ "mlflow_env.yml").
    - unfold inside. rewrite Hcwd1. intros [Hc|[Hc|Hc]].
      + by apply (inside_sibling w dst_path "data" "mlflow_env.yml") in Hc.
      + by apply (inside_sibling w dst_path "code" "mlflow_env.yml") in Hc.
      + by apply (inside_not_prefix w _ "mlflow_env.yml") in Hc. }
  revert Hrest. unfold packaging_after_code, bind at 1. simpl.
  rewrite Htruthy. unfold bind at 1.
  destruct (shutil_copy conda_env (Path.join dst_path "mlflow_env.yml") w3)
    as [[[]|e] w4] eqn:Hcopy; [|done].
  pose proof (shutil_copy_file_result _ _ _ _ _ Hcopy Hsrc3 Hfile Hfresh)
    as Hthere.
  pose proof (shutil_copy_touches conda_env
                (Path.join dst_path "mlflow_env.yml") w3) as [Hcwd4 _].
  rewrite Hcopy in Hcwd4. simpl in Hcwd4.
  unfold ret at 1, bind at 1, Model_save.
  pose proof (write_file_touches (Path.join dst_path "MLmodel")
    (ManifestFile (add_to_model PV model loader_module data code
                     (Some "mlflow_env.yml"))) w4) as [Hcwd5 Hkeep5].
  destruct (write_file (Path.join dst_path "MLmodel") _ w4)
    as [[[]|e] w5]; [|done].
  simpl in *. intros [= _ <-].
  revert Hthere. unfold stat. rewrite Hcwd5. case_bool_decide; [done|].
  apply Hkeep5. rewrite Hcwd4, Hcwd3, Hcwd1.
  rewrite !(resolve_child _ _ _ plain_env),
    !(resolve_child _ _ _ plain_manifest_name).
  intros Heq. by apply app_inv_head in Heq.
Qed.

Lemma packaging_after_code_changes dst_path loader_module data code conda_env
    model w :
  changes_only
    (λ k, inside w dst_path "mlflow_env.yml" k ∨
          inside w dst_path "MLmodel" k ∨
          k = Path.resolve (cwd w) dst_path)
    w (packaging_after_code PV dst_path loader_module data code conda_env
         model w).2.
Proof.
  unfold packaging_after_code. apply changes_only_bind.
  { destruct (given conda_env); [|apply changes_only_refl].
    apply changes_only_bind; [|intros; apply changes_only_refl].
    eapply changes_only_weaken; [|apply shutil_copy_changes].
    intros k [->| ->].
    - left. apply inside_child, plain_env.
    - rewrite resolve_into by apply basename_slash_free.
      destruct (walk_one_inside w dst_path "mlflow_env.yml" _
                  (Path.basename (default "" conda_env))
                  (basename_slash_free _) (inside_child _ _ _ plain_env))
        as [?| ->]; auto. }
  intros env w1 _ Hw1. apply changes_only_bind;
    [|intros; apply changes_only_refl].
  eapply changes_only_weaken; [|apply write_file_changes].
  intros k ->. right; left. rewrite Hw1.
  apply (inside_child w), plain_manifest_name.
Qed.

(** What a successful [save_model] with one code path, a file, leaves in
    the code directory of the artifact. *)
Lemma save_model_one_code_file dst_path loader_module data_path code_file
    conda_env model w model' w' n :
  Forall plain (cwd w) →
  free w dst_path →
  stat w code_file = Some n →
  is_file n →
  save_model PV dst_path loader_module data_path [code_file] conda_env
    model w = (Ok model', w') →
  cwd w' = cwd w ∧
  stat w' (Path.join dst_path "code") = Some Directory ∧
  stat w'
    (Path.join dst_path
       (Path.join "code" (Path.basename (Path.abspath (cwd w) code_file))))
    = Some n ∧
  (∀ x, x ≠ Path.basename (Path.abspath (cwd w) code_file) →
        node_at (fs w') ((Path.resolve (cwd w) dst_path ++ ["code"]) ++ [x])
        = None).
Proof.
  intros Hplain Hfree Hsrc Hfile
    (w1 & Hsteps & Hcwd1 & Hkeep1 & Hsame1)%(save_model_start PV).
  apply packaging_steps_data in Hsteps
    as (data & w2 & Hrest & [Hcwd2 Hkeep2] & [_ Hsame2]);
    [|by rewrite Hcwd1].
  assert (stat w2 code_file = Some n) as Hsrc2.
  { pose proof (free_not_under _ _ _ _ Hfree Hsrc) as Hout.
    revert Hsrc. unfold stat. rewrite Hcwd2, Hcwd1.
    case_bool_decide; [done|]. intros Hn. apply Hkeep2.
    - unfold under. by rewrite Hcwd1.
    - by apply Hkeep1. }
  assert (∀ k, inside w dst_path "code" k → node_at (fs w2) k = None)
    as Hfresh.
  { intros k Hk. rewrite Hsame2, Hsame1.
    - by apply Hfree, (inside_under w _ "code").
    - by apply (inside_not_prefix w _ "code").
    - unfold inside. rewrite Hcwd1. intros [Hc|Hc].
      + by apply (inside_sibling w dst_path "data" "code") in Hk.
      + by apply (inside_not_prefix w _ "code") in Hc. }
  assert (∀ c k, inside w2 dst_path c k ↔ inside w dst_path c k) as Hw2
    by (intros; unfold inside; by rewrite Hcwd2, Hcwd1).
  revert Hrest. unfold packaging_after_data, bind at 1.
  cbn [for_each]. unfold bind at 1, bind at 1, bind at 1.
  destruct (_copy_file_or_tree code_file dst_path "code" w2)
    as [[name|e] w3] eqn:Hcopy; [|done].
  pose proof (_copy_file_or_tree_name _ _ _ _ _ _ Hcopy) as Hname.
  pose proof (_copy_file_or_tree_touches code_file dst_path "code" w2)
    as [Hcwd3 _].
  rewrite Hcopy in Hcwd3. simpl in Hcwd3.
  assert (stat w3 (Path.join dst_path name) = Some n) as Hthere.
  { eapply copy_file_result; [exact Hcopy|by rewrite Hcwd2, Hcwd1
                             |apply plain_code|done..|].
    intros k Hk. by apply Hfresh, Hw2. }
  destruct (copy_file_exact _ _ _ _ _ _ n Hcopy) as [Hdir [_ Hsame3]];
    [by rewrite Hcwd2, Hcwd1|apply plain_code|done..| |].
  { intros k Hk. by apply Hfresh, Hw2. }
  rewrite Hname, Hcwd2, Hcwd1 in Hthere. rewrite Hcwd2, Hcwd1 in Hsame3.
  unfold ret at 1, ret at 1. simpl. intros Hrest.
  pose proof (packaging_after_code_touches PV dst_path loader_module data
                (Some "code") conda_env model w3) as [Hcwd4 Hkeep4].
  pose proof (packaging_after_code_changes dst_path loader_module data
                (Some "code") conda_env model w3) as [_ Hsame4].
  rewrite Hrest in Hcwd4, Hkeep4, Hsame4. simpl in *.
  assert (∀ c k, inside w3 dst_path c k ↔ inside w dst_path c k) as Hw3
    by (intros; unfold inside; by rewrite Hcwd3, Hcwd2, Hcwd1).
  assert (∀ k, inside w dst_path "code" k →
               ¬ (inside w3 dst_path "mlflow_env.yml" k ∨
                  inside w3 dst_path "MLmodel" k ∨
                  k = Path.resolve (cwd w3) dst_path)) as Hout.
  { intros k Hin. rewrite !Hw3, Hcwd3, Hcwd2, Hcwd1. intros [Hc|[Hc|Hc]].
    - by apply (inside_sibling w dst_path "mlflow_env.yml" "code") in Hin.
    - by apply (inside_sibling w dst_path "MLmodel" "code") in Hin.
    - rewrite Hc in Hin. by apply inside_not_dst in Hin. }
  split; [congruence|]. split; [|split].
  - revert Hdir. unfold stat. rewrite Hcwd4, Hcwd3, Hcwd2, Hcwd1.
    case_bool_decide; [done|]. apply Hkeep4, Hout, inside_child, plain_code.
  - revert Hthere. unfold stat. rewrite Hcwd4, Hcwd3, Hcwd2, Hcwd1.
    case_bool_decide; [done|]. apply Hkeep4, Hout.
    apply (copy_target_inside (cwd w) w dst_path "code"
             (Path.basename (Path.abspath (cwd w) code_file)) eq_refl
             plain_code (basename_abspath _ _ Hplain)).
  - intros x Hx.
    assert (inside w dst_path "code"
              ((Path.resolve (cwd w) dst_path ++ ["code"]) ++ [x])) as Hin
      by (by eexists).
    rewrite Hsame4 by (by apply Hout). rewrite Hsame3.
    + by apply Hfresh.
    + intros [Hc|Hc].
      * apply (f_equal length) in Hc. rewrite !length_app in Hc.
        simpl in Hc. lia.
      * apply app_inj_tail in Hc as [_ Hc]. done.
Qed.

(** X19: under the same conditions, when the one code path names a file,
    a successful [save_model] leaves that file, with the same content, at
    [code/] and its base name inside the destination. *)
Theorem save_model_keeps_code_file
    (dst_path loader_module : string) (data_path : option string)
    (code_file : string) (conda_env : option string) (model model' : Model)
    (w w' : World) (n : node) :
  Forall plain (cwd w) →
  free w dst_path →
  stat w code_file = Some n →
  is_file n →
  save_model PV dst_path loader_module data_path [code_file] conda_env
    model w = (Ok model', w') →
  stat w'
    (Path.join dst_path
       (Path.join "code" (Path.basename (Path.abspath (cwd w) code_file))))
    = Some n.
Proof.
  intros Hplain Hfree Hsrc Hfile Hsave.
  by destruct (save_model_one_code_file _ _ _ _ _ _ _ _ _ _ Hplain Hfree Hsrc
                 Hfile Hsave) as (_ & _ & ? & _).
Qed.

End artifact_contents.

Lemma node_at_snoc (t : gmap (list string) node) k b :
  node_at t (k ++ [b]) = t !! (k ++ [b]).
Proof. by destruct k. Qed.

Section code_round_trip.

Context (PV PV' : string) (log_dir : string → string → result string)
  (Handle : Type) (import_module : View → string → result (PyModule Handle)).

(** X20: loading what [save_model] saved with one code path, a file, puts
    the code directory of the artifact in front of [sys.path], followed by
    the copied file itself exactly when [_get_code_dirs] keeps its name
    (it does not end in [.py] or [.pyc] and is not [__pycache__]), followed
    by the previous [sys.path]. *)
Theorem save_model_code_file_then_load_pyfunc
    (dst_path loader_module : string) (data_path : option string)
    (code_file : string) (conda_env : option string) (model model' : Model)
    (w w' : World) (n : node) (suppress_warnings : bool) :
  Forall plain (cwd w) →
  free w dst_path →
  stat w code_file = Some n →
  is_file n →
  save_model PV dst_path loader_module data_path [code_file] conda_env
    model w = (Ok model', w') →
  sys_path (load_pyfunc PV' log_dir Handle import_module dst_path None
              suppress_warnings w').2 =
    [Path.join dst_path "code"] ++
    (if code_dir_kept (Path.basename (Path.abspath (cwd w) code_file))
     then [Path.join (Path.join dst_path "code")
             (Path.basename (Path.abspath (cwd w) code_file))]
     else []) ++
    sys_path w'.
Proof.
  intros Hplain Hfree Hsrc Hfile Hsave.
  destruct (save_model_conf PV _ _ _ _ _ _ _ _ _ Hsave)
    as (conf & Hm & Hf & _ & _ & _ & Hcode & _).
  destruct (save_model_one_code_file PV _ _ _ _ _ _ _ _ _ _ Hplain Hfree Hsrc
              Hfile Hsave) as (Hcwd & Hdir & Hthere & Hrest).
  pose proof (basename_abspath_file _ _ Hplain
                (stat_file_key _ _ _ Hsrc Hfile)) as Hbase.
  rewrite (load_pyfunc_sys_path PV' log_dir Handle import_module dst_path None
             suppress_warnings w' dst_path model' conf "code" eq_refl Hm Hf
             Hcode ltac:(done) Hdir).
  rewrite Hcwd, (resolve_child _ _ _ plain_code).
  rewrite (entries_single _ _
             (Path.basename (Path.abspath (cwd w) code_file)) n).
  - simpl. by destruct (code_dir_kept _).
  - revert Hthere. unfold stat. case_bool_decide; [done|].
    rewrite Hcwd, resolve_copy_target
      by (apply plain_code || by apply plain_slash_free).
    by rewrite (walk_one_plain _ _ Hbase), node_at_snoc.
  - intros x Hx. rewrite <- node_at_snoc. by apply Hrest.
Qed.

End code_round_trip.

(** ** The artifact files in the sample process *)

Lemma sample_cwd_plain : Forall plain ["home"; "u"].
Proof. by repeat constructor. Qed.

Lemma sample_world_free : free sample_world "out".
Proof.
  intros k [s ->]. vm_compute Path.resolve. simpl.
  unfold sample_fs. simpl. by rewrite !lookup_insert_ne.
Qed.

Lemma conda_world_free : free conda_world "out".
Proof.
  intros k [s ->]. vm_compute Path.resolve. simpl.
  unfold sample_fs. simpl. by rewrite !lookup_insert_ne.
Qed.

Lemma save_model_writes_inside_destination_witness :
  Forall plain (cwd sample_world) ∧
  node_at (fs saved_world) ["home"; "u"; "lib"; "x.py"] =
    Some (RegularFile "y = 2") ∧
  node_at (fs saved_world) ["home"; "u"; "lib"; "data"] = None.
Proof.
  split; [exact sample_cwd_plain|].
  destruct (save_model_writes_inside_destination "3.6.5" "out" "echo"
              (Some "m.pkl") ["lib"] None Model_new sample_world)
    as [Hkeep Hsame].
  - exact sample_cwd_plain.
  - apply (bool_decide_unpack _). vm_compute. reflexivity.
  - split.
    + apply Hkeep; [|vm_compute; reflexivity].
      intros [s Hs]. vm_compute in Hs. discriminate Hs.
    + rewrite Hsame; [vm_compute; reflexivity|].
      intros [[s Hs]|[s Hs]]; vm_compute in Hs; discriminate Hs.
Defined.

Lemma save_model_keeps_data_file_witness :
  free sample_world "out" ∧
  stat saved_world "out/data/m.pkl" = Some (RegularFile "weights").
Proof.
  split; [exact sample_world_free|].
  apply (save_model_keeps_data_file "3.6.5" "out" "echo" "m.pkl" ["lib"] None
           Model_new saved_manifest sample_world saved_world
           (RegularFile "weights")).
  - exact sample_cwd_plain.
  - exact sample_world_free.
  - vm_compute; reflexivity.
  - discriminate.
  - vm_compute; reflexivity.
Defined.

Lemma save_model_keeps_env_file_witness :
  free conda_world "out" ∧
  stat (save_model "3.6.5" "out" "echo" (Some "m.pkl") [] (Some "conda.yaml")
          Model_new conda_world).2 "out/mlflow_env.yml"
    = Some (RegularFile "name: env").
Proof.
  split; [exact conda_world_free|].
  apply (save_model_keeps_env_file "3.6.5" "out" "echo" (Some "m.pkl") []
           "conda.yaml" Model_new
           (add_to_model "3.6.5" Model_new "echo" (Some "data/m.pkl") None
              (Some "mlflow_env.yml"))
           conda_world).
  - exact sample_cwd_plain.
  - exact conda_world_free.
  - vm_compute; reflexivity.
  - discriminate.
  - vm_compute; reflexivity.
Defined.

Lemma save_model_keeps_code_file_witness :
  free sample_world "out" ∧
  stat (save_model "3.6.5" "out" "echo" (Some "m.pkl") ["a.py"] None
          Model_new sample_world).2 "out/code/a.py"
    = Some (RegularFile "import b").
Proof.
  split; [exact sample_world_free|].
  apply (save_model_keeps_code_file "3.6.5" "out" "echo" (Some "m.pkl") "a.py"
           None Model_new saved_manifest sample_world).
  - exact sample_cwd_plain.
  - exact sample_world_free.
  - vm_compute; reflexivity.
  - discriminate.
  - vm_compute; reflexivity.
Defined.

Lemma save_model_code_file_then_load_pyfunc_witness :
  free sample_world "out" ∧
  sys_path
    (load_pyfunc "3.6.5" no_runs string echo_import "out" None false
       (save_model "3.6.5" "out" "echo" (Some "m.pkl") ["a.py"] None
          Model_new sample_world).2).2
    = ["out/code"; "/usr/lib/python3"].
Proof.
  split; [exact sample_world_free|].
  apply (save_model_code_file_then_load_pyfunc "3.6.5" "3.6.5" no_runs string
           echo_import "out" "echo" (Some "m.pkl") "a.py" None Model_new
           saved_manifest sample_world
           (save_model "3.6.5" "out" "echo" (Some "m.pkl") ["a.py"] None
              Model_new sample_world).2
           (RegularFile "import b") false).
  - exact sample_cwd_plain.
  - exact sample_world_free.
  - vm_compute; reflexivity.
  - discriminate.
  - vm_compute; reflexivity.
Defined.

(** ** A data path that names nothing *)

Lemma makedirs_walk_directory p rest pre t t' :
  makedirs_walk p pre rest t = (Ok tt, t') →
  t' !! (pre ++ rest) = Some Directory.
Proof.
  revert pre t. induction rest as [|c rest IH]; intros pre t; [done|].
  simpl. destruct rest as [|c' rest].
  - destruct (t !! (pre ++ [c])); [done|]. intros [= <-].
    by rewrite lookup_insert_eq.
  - replace (pre ++ c :: c' :: rest) with ((pre ++ [c]) ++ c' :: rest)
      by (by rewrite <- app_assoc).
    destruct (t !! (pre ++ [c])) as [[| |]|]; try done; apply IH.
Qed.

Lemma os_makedirs_directory p w w1 :
  os_makedirs p w = (Ok tt, w1) →
  node_at (fs w1) (Path.resolve (cwd w) p) = Some Directory.
Proof.
  unfold os_makedirs. case_bool_decide; [done|].
  destruct (makedirs_walk p [] (Path.resolve (cwd w) p) (fs w))
    as [r t] eqn:E.
  intros [= -> <-]. simpl.
  apply makedirs_walk_directory in E. simpl in E.
  by destruct (Path.resolve (cwd w) p).
Qed.

(** A source that names nothing once the directory [dst/dst_dir] is made
    is reported by [shutil.copytree]. *)
Lemma _copy_file_or_tree_missing src dst dst_dir w w' :
  PyStr.truthy dst_dir = true →
  os_mkdir (Path.join dst dst_dir) w = (Ok tt, w') →
  stat w' src = None →
  _copy_file_or_tree src dst dst_dir w = (Raise (FileNotFoundError src), w').
Proof.
  intros Hdd Hmk Hsrc.
  unfold _copy_file_or_tree, bind at 1, os_path_abspath. rewrite Hdd.
  unfold bind at 1. rewrite Hmk.
  unfold bind at 1, os_path_isfile. rewrite Hsrc.
  unfold bind at 1, shutil_copytree. by rewrite Hsrc.
Qed.

Section missing_data.

Context (PV : string).

(** X21: a data path that names nothing is reported only after the
    destination has been made: when nothing exists at or below the
    destination, [os.makedirs] can create it, and the data path names
    nothing and lies neither inside the destination nor on the way to it,
    [save_model] raises [FileNotFoundError] for the data path and leaves
    the destination with an empty [data] directory behind. *)
Theorem save_model_missing_data_path
    (dst_path loader_module data_path : string) (code_path : list string)
    (conda_env : option string) (model : Model) (w w1 : World) :
  free w dst_path →
  os_makedirs dst_path w = (Ok tt, w1) →
  data_path ≠ "" →
  stat w data_path = None →
  ¬ around w dst_path (Path.resolve (cwd w) data_path) →
  (save_model PV dst_path loader_module (Some data_path) code_path conda_env
     model w).1 = Raise (FileNotFoundError data_path) ∧
  stat (save_model PV dst_path loader_module (Some data_path) code_path
          conda_env model w).2 (Path.join dst_path "data") = Some Directory ∧
  entries (fs (save_model PV dst_path loader_module (Some data_path)
                 code_path conda_env model w).2)
          (Path.resolve (cwd w) dst_path) = ["data"].
Proof.
  intros Hfree Hmk Hne Hsrc Hout.
  pose proof (os_makedirs_directory _ _ _ Hmk) as Hdir.
  pose proof (os_makedirs_touches (λ _, False) dst_path w) as [Hcwd1 _].
  pose proof (os_makedirs_changes dst_path w) as [_ Hsame1].
  rewrite Hmk in Hcwd1, Hsame1. simpl in Hcwd1, Hsame1.
  set (kd := Path.resolve (cwd w) dst_path ++ ["data"]).
  set (w2 := set_fs (<[kd := Directory]> (fs w1)) w1).
  assert (kd ≠ []) as Hkd.
  { intros Hk%(f_equal length). unfold kd in Hk. rewrite length_app in Hk.
    simpl in Hk. lia. }
  assert (inside w dst_path "data" kd) as Hin by (by unfold inside, kd).
  assert (os_mkdir (Path.join dst_path "data") w1 = (Ok tt, w2)) as Hmkdir.
  { unfold os_mkdir, mkdir_at.
    rewrite bool_decide_eq_false_2 by (by apply join_nonempty).
    rewrite Hcwd1, (resolve_child _ _ _ plain_data). fold kd.
    rewrite Hsame1.
    - rewrite (Hfree kd) by (by apply (inside_under w _ "data")).
      unfold kd. by rewrite removelast_last, Hdir.
    - by apply (inside_not_prefix w _ "data"). }
  assert (stat w2 data_path = None) as Hsrc2.
  { revert Hsrc. unfold stat. rewrite bool_decide_eq_false_2 by done.
    simpl. rewrite Hcwd1. intros Hsrc.
    rewrite node_at_insert_other.
    - rewrite Hsame1; [done|]. unfold around in Hout. tauto.
    - intros Heq. apply Hout. right. unfold under. rewrite Heq.
      by eexists. }
  assert (save_model PV dst_path loader_module (Some data_path) code_path
            conda_env model w = (Raise (FileNotFoundError data_path), w2))
    as ->.
  { rewrite save_model_unfold. rewrite bool_decide_eq_false_2.
    - unfold bind at 1. rewrite Hmk, packaging_steps_unfold.
      unfold bind at 1. simpl. rewrite (truthy_nonempty _ Hne).
      unfold bind at 1.
      by rewrite (_copy_file_or_tree_missing data_path dst_path "data" w1 w2
                    eq_refl Hmkdir Hsrc2).
    - unfold stat. case_bool_decide; [by intros [? ?]|].
      rewrite (Hfree (Path.resolve (cwd w) dst_path)) by (by unfold under).
      by intros [? ?]. }
  simpl. split; [done|]. split.
  - unfold stat. rewrite bool_decide_eq_false_2
      by (by apply join_nonempty).
    simpl. rewrite Hcwd1, (resolve_child _ _ _ plain_data). fold kd.
    by apply node_at_insert_here.
  - apply (entries_single _ _ _ Directory).
    + fold kd. by rewrite lookup_insert_eq.
    + intros x Hx. rewrite lookup_insert_ne
      by (unfold kd; intros [_ ?]%app_inj_tail; congruence).
      rewrite <- node_at_snoc, Hsame1.
      * apply Hfree. unfold under. by eexists.
      * intros Hp. apply prefix_length in Hp. rewrite length_app in Hp.
        simpl in Hp. lia.
Qed.

End missing_data.

Lemma save_model_missing_data_path_witness :
  free sample_world "out" ∧
  (save_model "3.6.5" "out" "echo" (Some "missing.pkl") ["lib"] None
     Model_new sample_world).1 = Raise (FileNotFoundError "missing.pkl") ∧
  stat (save_model "3.6.5" "out" "echo" (Some "missing.pkl") ["lib"] None
          Model_new sample_world).2 "out/data" = Some Directory ∧
  entries (fs (save_model "3.6.5" "out" "echo" (Some "missing.pkl") ["lib"]
                 None Model_new sample_world).2)
          ["home"; "u"; "out"] = ["data"].
Proof.
  split; [exact sample_world_free|].
  apply (save_model_missing_data_path "3.6.5" "out" "echo" "missing.pkl"
           ["lib"] None Model_new sample_world
           (os_makedirs "out" sample_world).2).
  - exact sample_world_free.
  - vm_compute; reflexivity.
  - discriminate.
  - vm_compute; reflexivity.
  - intros [[s Hs]|[s Hs]]; vm_compute in Hs; discriminate Hs.
Defined.

